(** * ipftrace: probe assembly, filter compilation, event decoding and flow
      aggregation of [ipftrace.py], embedded in Rocq.

    Python values are modelled as follows.
    - [int] values that are never negative ([eid], the fields of a ctypes
      structure, port numbers) are [N]; the argument of [int(_, 16)] may be
      negative and is a [Z].
    - [str] is [string], the UTF-8 bytes of the text; [bytes] is
      [list byte].
    - A [dict] is an association list in insertion order with unique keys
      ([dict_get], [dict_set]): the program iterates over its dicts, so the
      order is observable.
    - A raised exception is the [Raise] case of [result]; statements are
      sequenced with [x <- c ;; k].
    - [print] appends a line to the list of lines a function returns. *)

From Stdlib Require Import NArith ZArith List String Ascii Bool Lia.
From Stdlib Require Import Strings.Byte Decimal DecimalString DecimalN.
Import ListNotations.
Open Scope string_scope.
Open Scope N_scope.

(** ** Exceptions *)

Inductive exn : Set :=
| IndexError
| KeyError
| ValueError
| OverflowError
| AddressValueError.

Inductive result (A : Type) : Type :=
| Ok (a : A)
| Raise (e : exn).
Arguments Ok {A} a.
Arguments Raise {A} e.

Definition bind {A B : Type} (c : result A) (k : A -> result B) : result B :=
  match c with
  | Ok a => k a
  | Raise e => Raise e
  end.

Notation "x <- c ;; k" := (bind c (fun x => k))
  (at level 61, c at next level, right associativity).

Definition raises {A : Type} (c : result A) : Prop :=
  exists e, c = Raise e.

(** ** Strings *)

Definition nl : string := String "010"%char EmptyString.
Definition tab : string := String "009"%char EmptyString.

(** [str(n)] for a non-negative [int]. *)
Definition str (n : N) : string := NilEmpty.string_of_uint (N.to_uint n).

(** [sep.join(l)]. *)
Fixpoint join (sep : string) (l : list string) : string :=
  match l with
  | [] => EmptyString
  | [s] => s
  | s :: l' => s ++ sep ++ join sep l'
  end.

(** ** Dictionaries: insertion-ordered, keys unique *)

Section Dict.
Context {K V : Type}.
Variable eqb : K -> K -> bool.

Definition dict : Type := list (K * V).

(** [d.get(k)]; [None] when the key is absent. *)
Fixpoint dict_get (d : dict) (k : K) : option V :=
  match d with
  | [] => None
  | (k', v) :: d' => if eqb k k' then Some v else dict_get d' k
  end.

(** [d[k] = v]: an existing key keeps its position, a new one goes last. *)
Fixpoint dict_set (d : dict) (k : K) (v : V) : dict :=
  match d with
  | [] => [(k, v)]
  | (k', v') :: d' =>
      if eqb k k' then (k', v) :: d' else (k', v') :: dict_set d' k v
  end.

(** [d[k]], raising [KeyError] when the key is absent. *)
Definition dict_lookup (d : dict) (k : K) : result V :=
  match dict_get d k with
  | Some v => Ok v
  | None => Raise KeyError
  end.

Definition dict_keys (d : dict) : list K := map fst d.
End Dict.

Arguments dict K V : clear implicits.

(** ** The function catalog ([conf/base/<version>.yaml], key [functions]) *)

(** One function descriptor: [e['name']] and [e['args']]. *)
Record entry : Type := { name : string; args : list string }.

(** [self.functions]: group name to the list of its descriptors. *)
Definition catalog : Type := dict string (list entry).

(** The entries in the order the nested loops of [build_probes] and
    [list_functions] visit them. *)
Definition flatten (c : catalog) : list entry := flat_map snd c.

(** ** IPFTracer: probe assembly *)

(** [self.args]: the keyword arguments [main] passes to the constructor. *)
Record Args : Type := {
  kernel_version : string;
  l3proto : string;
  l4proto : string;
  saddr4 : string;
  daddr4 : string;
  saddr6 : string;
  daddr6 : string;
  sport : string;
  dport : string
}.

Record IPFTracer : Type := {
  self_args : Args;
  functions : catalog;
  id_to_ename : list string;
  probes : string
}.

(** [ift.resolve_event_name(eid)]: [self.id_to_ename[eid]] for an [eid] that
    is never negative (it is read from a [c_uint8] field). *)
Definition resolve_event_name (self : IPFTracer) (eid : N) : result string :=
  match nth_error (id_to_ename self) (N.to_nat eid) with
  | Some n => Ok n
  | None => Raise IndexError
  end.

(** The f-string of [build_probes] before [textwrap.dedent] is applied. *)
Definition probe_fstring (e : entry) (eid : N) : string :=
  nl ++
  "                    void kprobe__" ++ name e ++ "(" ++
    join ", " ("struct pt_regs *ctx" :: args e) ++ ") {" ++ nl ++
  "                      struct event_data e = { " ++ str eid ++ " };" ++ nl ++
  "                      if (!match(ctx, skb, &e)) {" ++ nl ++
  "                        return;" ++ nl ++
  "                      }" ++ nl ++
  "                      action(ctx, &e);" ++ nl ++
  "                    }" ++ nl ++
  "                    ".

Section Probes.
(** [textwrap.dedent], a function of the Python library. *)
Variable dedent : string -> string.
(** The text of [ipftrace.bpf.c], read anew by each call of [build_probes]. *)
Variable template : string.

(** The local state of the loops of [build_probes], together with the
    attribute [self.id_to_ename] that the body appends to. *)
Record probe_state : Type := {
  st_eid : N;
  st_ret : string;
  st_id_to_ename : list string
}.

(** The body of the inner loop. *)
Definition probe_step (st : probe_state) (e : entry) : probe_state :=
  {| st_id_to_ename := st_id_to_ename st ++ [name e];
     st_ret := st_ret st ++ dedent (probe_fstring e (st_eid st));
     st_eid := st_eid st + 1 |}.

(** The inner loop, [for e in events]. *)
Definition probe_group (st : probe_state) (g : string * list entry) :
  probe_state :=
  fold_left probe_step (snd g) st.

(** [self.build_probes()]: the text returned and the tracer afterwards. *)
Definition build_probes (self : IPFTracer) : string * IPFTracer :=
  let st := fold_left probe_group (functions self)
              {| st_eid := 0; st_ret := template;
                 st_id_to_ename := id_to_ename self |} in
  (st_ret st,
   {| self_args := self_args self;
      functions := functions self;
      id_to_ename := st_id_to_ename st;
      probes := probes self |}).

(** The constructor [IPFTracer.__init__], with the catalog [read_functions] loads. *)
Definition IPFTracer_init (kwargs : Args) (fns : catalog) : IPFTracer :=
  let self := {| self_args := kwargs; functions := fns;
                 id_to_ename := []; probes := EmptyString |} in
  let (ret, self') := build_probes self in
  {| self_args := self_args self';
     functions := functions self';
     id_to_ename := id_to_ename self';
     probes := ret |}.
End Probes.

(** ** Byte order and the [socket] conversions *)

(** The byte order of the host the tracer runs on: [socket.htons],
    [socket.ntohs] and [socket.ntohl] swap bytes on a little-endian host and
    are the identity on a big-endian one, and ctypes loads multi-byte fields
    in host order. *)
Inductive byteorder : Set := LittleEndian | BigEndian.

Definition swap16 (x : N) : N :=
  N.lor (N.shiftl (N.land x 255) 8) (N.land (N.shiftr x 8) 255).

Definition swap32 (x : N) : N :=
  N.lor (N.lor (N.shiftl (N.land x 255) 24)
               (N.shiftl (N.land (N.shiftr x 8) 255) 16))
        (N.lor (N.shiftl (N.land (N.shiftr x 16) 255) 8)
               (N.land (N.shiftr x 24) 255)).

Section Host.
Variable host : byteorder.

(** [socket.htons(x)]: [OverflowError] outside [0, 65535]. *)
Definition htons (x : Z) : result N :=
  if ((0 <=? x) && (x <? 65536))%Z
  then Ok (match host with
           | LittleEndian => swap16 (Z.to_N x)
           | BigEndian => Z.to_N x
           end)
  else Raise OverflowError.

(** [socket.ntohs(x)] for a non-negative [x]. *)
Definition ntohs (x : N) : result N := htons (Z.of_N x).

(** [socket.ntohl(x)] for a non-negative [x]: [OverflowError] from 2^32. *)
Definition ntohl (x : N) : result N :=
  if x <? 4294967296
  then Ok (match host with
           | LittleEndian => swap32 x
           | BigEndian => x
           end)
  else Raise OverflowError.
End Host.

(** [int.from_bytes(bs, byteorder="little")] and [byteorder="big"]. *)
Fixpoint from_bytes_little (bs : list byte) : N :=
  match bs with
  | [] => 0
  | b :: bs' => Byte.to_N b + 256 * from_bytes_little bs'
  end.

Definition from_bytes_big (bs : list byte) : N :=
  fold_left (fun acc b => 256 * acc + Byte.to_N b) bs 0.

(** The value ctypes reads from an unsigned integer field stored as [bs]. *)
Definition load (host : byteorder) (bs : list byte) : N :=
  match host with
  | LittleEndian => from_bytes_little bs
  | BigEndian => from_bytes_big bs
  end.

(** ** The name tables: the module globals *)

Record Protos : Type := {
  L3_PROTO_TO_ID : dict string string;
  ID_TO_L3_PROTO : dict string string;
  L4_PROTO_TO_ID : dict string string;
  ID_TO_L4_PROTO : dict string string
}.

(** The globals as the module body leaves them. *)
Definition Protos_empty : Protos :=
  {| L3_PROTO_TO_ID := []; ID_TO_L3_PROTO := [];
     L4_PROTO_TO_ID := []; ID_TO_L4_PROTO := [] |}.

(** [spl[i]] on the fields of a line. *)
Definition field (spl : list string) (i : nat) : result string :=
  match nth_error spl i with
  | Some s => Ok s
  | None => Raise IndexError
  end.

(** ** Digits beyond ASCII

    A [string] stands for a Python [str] through its UTF-8 bytes. *)

(** The code points of the digits zero of the scripts of Unicode 14.0, the
    version Python 3.11 carries. The ten digits of a script are
    consecutive: [c] is a decimal digit when [z <= c < z + 10] for one of
    these [z], and [c - z] is its value. *)
Definition decimal_zeros : list N :=
  [48; 1632; 1776; 1984; 2406; 2534; 2662; 2790; 2918; 3046; 3174; 3302;
   3430; 3558; 3664; 3792; 3872; 4160; 4240; 6112; 6160; 6470; 6608; 6784;
   6800; 6992; 7088; 7232; 7248; 42528; 43216; 43264; 43472; 43504; 43600;
   44016; 65296; 66720; 68912; 69734; 69872; 69942; 70096; 70384; 70736;
   70864; 71248; 71360; 71472; 71904; 72016; 72784; 73040; 73120; 92768;
   92864; 93008; 120782; 120792; 120802; 120812; 120822; 123200; 123632;
   125264; 130032].

(** [Py_UNICODE_TODECIMAL(c)], none for a character that is no digit. *)
Definition to_decimal (c : N) : option N :=
  match find (fun z => (z <=? c) && (c <? z + 10)) decimal_zeros with
  | Some z => Some (c - z)
  | None => None
  end.

(** The value of a continuation byte of UTF-8. *)
Definition continuation (c : ascii) : option N :=
  let n := N_of_ascii c in
  if (128 <=? n) && (n <? 192) then Some (n - 128) else None.

(** The ASCII digit of a decimal digit [c] that takes at least [least] to
    encode, followed by [rest]; the text ends in [?] when [c] is no such
    digit. *)
Definition ascii_digit (least c : N) (rest : string) : string :=
  match to_decimal c with
  | Some d => if least <=? c then String (ascii_of_N (48 + d)) rest else "?"
  | None => "?"
  end.

(** [_PyUnicode_TransformDecimalAndSpaceToASCII], the first step of
    [int(s, 16)], on text without white space: a character below 127 is
    kept, a decimal digit of any script becomes the ASCII digit of its
    value, and the text ends in [?] at the first character that is
    neither. *)
Fixpoint to_ascii_digits (s : string) : string :=
  match s with
  | EmptyString => EmptyString
  | String a s1 =>
      let n := N_of_ascii a in
      if n <? 127 then String a (to_ascii_digits s1)
      else if (192 <=? n) && (n <? 224) then
        match s1 with
        | String b s2 =>
            match continuation b with
            | Some x => ascii_digit 128 (64 * (n - 192) + x) (to_ascii_digits s2)
            | None => "?"
            end
        | EmptyString => "?"
        end
      else if (224 <=? n) && (n <? 240) then
        match s1 with
        | String b (String c s3) =>
            match continuation b, continuation c with
            | Some x, Some y =>
                ascii_digit 2048 (4096 * (n - 224) + 64 * x + y)
                  (to_ascii_digits s3)
            | _, _ => "?"
            end
        | _ => "?"
        end
      else if (240 <=? n) && (n <? 248) then
        match s1 with
        | String b (String c (String d s4)) =>
            match continuation b, continuation c, continuation d with
            | Some x, Some y, Some z =>
                ascii_digit 65536
                  (262144 * (n - 240) + 4096 * x + 64 * y + z)
                  (to_ascii_digits s4)
            | _, _, _ => "?"
            end
        | _ => "?"
        end
      else "?"
  end.

(** The value of one hexadecimal digit. *)
Definition hex_digit (c : ascii) : option Z :=
  let n := Z.of_N (N_of_ascii c) in
  if ((48 <=? n) && (n <=? 57))%Z then Some (n - 48)%Z
  else if ((97 <=? n) && (n <=? 102))%Z then Some (n - 87)%Z
  else if ((65 <=? n) && (n <=? 70))%Z then Some (n - 55)%Z
  else None.

(** The digits of [int(s, 16)] after sign and prefix: hexadecimal digits,
    single underscores allowed between two digits. [seen] tells whether the
    previous character was a digit. *)
Fixpoint hex_digits (s : string) (acc : Z) (seen : bool) : option Z :=
  match s with
  | EmptyString => if seen then Some acc else None
  | String c s' =>
      if Ascii.eqb c "_"
      then if seen then hex_digits s' acc false else None
      else match hex_digit c with
           | Some d => hex_digits s' (16 * acc + d)%Z true
           | None => None
           end
  end.

(** After the sign: an optional [0x] or [0X], which an underscore may
    follow. *)
Definition hex_unsigned (s : string) : option Z :=
  match s with
  | String "0" (String x s') =>
      if Ascii.eqb x "x" || Ascii.eqb x "X"
      then match s' with
           | String "_" s'' => hex_digits s'' 0%Z false
           | _ => hex_digits s' 0%Z false
           end
      else hex_digits s 0%Z false
  | _ => hex_digits s 0%Z false
  end.

(** [int(s, 16)] on a field of [line.split()] (no white space): the digits
    of other scripts are read as ASCII digits first; [ValueError] when the
    text is not a hexadecimal literal then. *)
Definition int16 (s : string) : result Z :=
  let r := match to_ascii_digits s with
           | String "-" s' => option_map Z.opp (hex_unsigned s')
           | String "+" s' => hex_unsigned s'
           | s' => hex_unsigned s'
           end in
  match r with
  | Some z => Ok z
  | None => Raise ValueError
  end.

(** A file is given by its lines, a line by the fields of [line.split()]. *)
Definition lines : Type := list (list string).

(** A line the loops skip: no field, or a first field equal to [#]. *)
Definition skipped (spl : list string) : bool :=
  match spl with
  | [] => true
  | s :: _ => String.eqb s "#"
  end.

Section Tables.
Variable host : byteorder.

(** The body of the loop of [init_ethertypes_mapping]. *)
Definition ethertypes_step (g : Protos) (spl : list string) : result Protos :=
  if skipped spl then Ok g
  else
    s1 <- field spl 1 ;;
    n <- int16 s1 ;;
    h <- htons host n ;;
    let ident := str h in
    s0 <- field spl 0 ;;
    Ok {| L3_PROTO_TO_ID := dict_set String.eqb (L3_PROTO_TO_ID g) s0 ident;
          ID_TO_L3_PROTO := dict_set String.eqb (ID_TO_L3_PROTO g) ident s0;
          L4_PROTO_TO_ID := L4_PROTO_TO_ID g;
          ID_TO_L4_PROTO := ID_TO_L4_PROTO g |}.

(** [init_ethertypes_mapping()] on the lines of [/etc/ethertypes]. *)
Fixpoint init_ethertypes_mapping (file : lines) (g : Protos) : result Protos :=
  match file with
  | [] => Ok g
  | spl :: file' =>
      g' <- ethertypes_step g spl ;; init_ethertypes_mapping file' g'
  end.
End Tables.

(** The body of the loop of [init_protocol_mapping]. *)
Definition protocol_step (g : Protos) (spl : list string) : result Protos :=
  if skipped spl then Ok g
  else
    s1 <- field spl 1 ;;
    s2 <- field spl 2 ;;
    Ok {| L3_PROTO_TO_ID := L3_PROTO_TO_ID g;
          ID_TO_L3_PROTO := ID_TO_L3_PROTO g;
          L4_PROTO_TO_ID := dict_set String.eqb (L4_PROTO_TO_ID g) s2 s1;
          ID_TO_L4_PROTO := dict_set String.eqb (ID_TO_L4_PROTO g) s1 s2 |}.

(** [init_protocol_mapping()] on the lines of [/etc/protocols]. *)
Fixpoint init_protocol_mapping (file : lines) (g : Protos) : result Protos :=
  match file with
  | [] => Ok g
  | spl :: file' => g' <- protocol_step g spl ;; init_protocol_mapping file' g'
  end.

(** ** Addresses ([ipaddress]) *)

Definition byte_of_N (n : N) : byte :=
  match Byte.of_N (n mod 256) with
  | Some b => b
  | None => x00
  end.

(** [ip.to_bytes(4, 'big')], the [packed] form of an IPv4 address that is
    held as the integer [ip]. *)
Definition packed4 (ip : N) : list byte :=
  [byte_of_N (N.shiftr ip 24); byte_of_N (N.shiftr ip 16);
   byte_of_N (N.shiftr ip 8); byte_of_N ip].

(** [str(b)] for one byte. *)
Definition str_byte (b : byte) : string := str (Byte.to_N b).

(** [str(ipaddress.IPv4Address(...))]: dotted decimal. *)
Definition IPv4Address_str (ip : N) : string :=
  join "." (map str_byte (packed4 ip)).

(** [ipaddress.IPv4Address(n)] for an [int] that is not negative. *)
Definition IPv4Address_of_int (n : N) : result N :=
  if n <? 4294967296 then Ok n else Raise AddressValueError.

(** [s.split(c)] for a one-character separator. *)
Fixpoint split (c : ascii) (s : string) : list string :=
  match s with
  | EmptyString => [EmptyString]
  | String a s' =>
      if Ascii.eqb a c then EmptyString :: split c s'
      else match split c s' with
           | [] => [String a EmptyString]
           | w :: ws => String a w :: ws
           end
  end.

(** [IPv4Address._parse_octet]: ASCII digits only, at most three, no leading
    zero, at most 255. [None] stands for its [ValueError]. *)
Definition parse_octet (s : string) : option N :=
  match s with
  | EmptyString => None
  | String c _ =>
      match NilEmpty.uint_of_string s with
      | None => None
      | Some d =>
          if (3 <? String.length s)%nat then None
          else if Ascii.eqb c "0" && negb (String.eqb s "0") then None
          else let n := N.of_uint d in
               if 255 <? n then None else Some n
      end
  end.

Fixpoint parse_octets (l : list string) : option (list N) :=
  match l with
  | [] => Some []
  | s :: l' =>
      match parse_octet s, parse_octets l' with
      | Some n, Some ns => Some (n :: ns)
      | _, _ => None
      end
  end.

(** [ipaddress.IPv4Address(addr)] for a [str]: the integer it holds, or
    [AddressValueError]. *)
Definition IPv4Address_of_str (addr : string) : result N :=
  match split "." addr with
  | [a; b; c; d] =>
      match parse_octets [a; b; c; d] with
      | Some ns => Ok (fold_left (fun acc n => 256 * acc + n) ns 0)
      | None => Raise AddressValueError
      end
  | _ => Raise AddressValueError
  end.

(** ** IPFTracer: the filter options *)

Definition build_l3_protocol_opt (g : Protos) (protocol : string) :
  result (list string) :=
  if String.eqb protocol "any" then Ok ["-D"; "L3_PROTOCOL_ANY"]
  else
    ident <- dict_lookup String.eqb (L3_PROTO_TO_ID g) protocol ;;
    Ok ["-D"; "L3_PROTOCOL=" ++ ident].

Definition build_l4_protocol_opt (g : Protos) (protocol : string) :
  result (list string) :=
  if String.eqb protocol "any" then Ok ["-D"; "L4_PROTOCOL_ANY"]
  else
    ident <- dict_lookup String.eqb (L4_PROTO_TO_ID g) protocol ;;
    Ok ["-D"; "L4_PROTOCOL=" ++ ident].

Definition inet_addr4 (addr : string) : result string :=
  ip <- IPv4Address_of_str addr ;;
  let a := packed4 ip in
  Ok (str (from_bytes_little a)).

Definition build_addr4_opt (addr direction : string) : result (list string) :=
  if String.eqb addr "any" then Ok ["-D"; direction ++ "ADDRV4_ANY"]
  else
    v <- inet_addr4 addr ;;
    Ok ["-D"; direction ++ "ADDRV4=" ++ v].

Definition build_port_opt (port direction : string) : list string :=
  if String.eqb port "any" then ["-D"; direction ++ "PORT_ANY"]
  else ["-D"; direction ++ "PORT=" ++ port].

Section Filter.
(** [ipaddress.IPv6Address(addr).packed] for a [str], a function of the
    Python library: the 16 bytes of the address in network order, or
    [AddressValueError]. *)
Variable IPv6Address_packed : string -> result (list byte).

Definition inet_addr6 (addr : string) : result string :=
  p <- IPv6Address_packed addr ;;
  let a := join "," (map (fun b => str_byte b) p) in
  Ok a.

Definition build_addr6_opt (addr direction : string) : result (list string) :=
  if String.eqb addr "any" then Ok ["-D"; direction ++ "ADDRV6_ANY"]
  else
    v <- inet_addr6 addr ;;
    Ok ["-D"; direction ++ "ADDRV6=" ++ v].

(** [self.build_opts()], reading the globals [g]. *)
Definition build_opts (g : Protos) (self : IPFTracer) : result (list string) :=
  let a := self_args self in
  let opts : list string := [] in
  o <- build_l3_protocol_opt g (l3proto a) ;; let opts := (opts ++ o)%list in
  o <- build_l4_protocol_opt g (l4proto a) ;; let opts := (opts ++ o)%list in
  o <- build_addr4_opt (saddr4 a) "S" ;; let opts := (opts ++ o)%list in
  o <- build_addr4_opt (daddr4 a) "D" ;; let opts := (opts ++ o)%list in
  o <- build_addr6_opt (saddr6 a) "S" ;; let opts := (opts ++ o)%list in
  o <- build_addr6_opt (daddr6 a) "D" ;; let opts := (opts ++ o)%list in
  let opts := (opts ++ build_port_opt (sport a) "S")%list in
  let opts := (opts ++ build_port_opt (dport a) "D")%list in
  Ok opts.
End Filter.

(** ** Events and flows *)

(** The ctypes structure [EventData]. The union [addrs] is kept as its 32
    bytes of storage, of which the members [v4] and [v6] are views. *)
Module EventData.
Record t : Type := {
  event_id : N;
  l4_protocol : N;
  l3_protocol : N;
  addrs : list byte;
  sport : N;
  dport : N
}.

Section Views.
Variable host : byteorder.
Definition v4_saddr (e : t) : N := load host (firstn 4 (addrs e)).
Definition v4_daddr (e : t) : N := load host (firstn 4 (skipn 4 (addrs e))).
End Views.
Definition v6_saddr (e : t) : list byte := firstn 16 (addrs e).
Definition v6_daddr (e : t) : list byte := firstn 16 (skipn 16 (addrs e)).
End EventData.

(** The frozen dataclass [Flow], compared and hashed by its fields. *)
Module Flow.
Record t : Type := {
  l3_protocol : string;
  l4_protocol : string;
  saddr : string;
  daddr : string;
  sport : N;
  dport : N
}.

Definition eqb (f f' : t) : bool :=
  String.eqb (l3_protocol f) (l3_protocol f') &&
  String.eqb (l4_protocol f) (l4_protocol f') &&
  String.eqb (saddr f) (saddr f') &&
  String.eqb (daddr f) (daddr f') &&
  N.eqb (sport f) (sport f') &&
  N.eqb (dport f) (dport f').
End Flow.

(** The local [flows] of [run_tracing]. *)
Definition FlowTable : Type := dict Flow.t (list string).

(** An address object of [ipaddress]. *)
Inductive ipaddr : Type :=
| IPv4Address (ip : N)
| IPv6Address (packed : list byte).

(** The last statements of [handle_event]: the names of [flow] gain
    [event_name] unless they hold it already. The list found in the table is
    the one stored back, and no other flow shares it. *)
Definition record (flows : FlowTable) (flow : Flow.t) (event_name : string) :
  FlowTable :=
  let event_list := match dict_get Flow.eqb flows flow with
                    | Some l => l
                    | None => []
                    end in
  let event_list := if existsb (String.eqb event_name) event_list
                    then event_list
                    else (event_list ++ [event_name])%list in
  dict_set Flow.eqb flows flow event_list.

Section Decoder.
Variable host : byteorder.
(** [str(ipaddress.IPv6Address(b))] for 16 bytes [b], a function of the
    Python library. *)
Variable IPv6Address_str : list byte -> string.
(** The globals and the tracer the callback closes over. *)
Variable g : Protos.
Variable ift : IPFTracer.

Definition ipaddr_str (a : ipaddr) : string :=
  match a with
  | IPv4Address ip => IPv4Address_str ip
  | IPv6Address p => IPv6Address_str p
  end.

(** [ipaddress.IPv4Address(socket.ntohl(raw))] on the value [raw] of a
    32-bit field. *)
Definition decode_v4 (raw : N) : result ipaddr :=
  n <- ntohl host raw ;;
  ip <- IPv4Address_of_int n ;;
  Ok (IPv4Address ip).

(** The [if]/[elif]/[else] on [event.l3_protocol]: the two addresses, or
    [None] when the branch that prints and returns is taken. *)
Definition decode_addrs (event : EventData.t) :
  result (option (ipaddr * ipaddr)) :=
  id4 <- dict_lookup String.eqb (L3_PROTO_TO_ID g) "IPv4" ;;
  if String.eqb (str (EventData.l3_protocol event)) id4 then
    saddr <- decode_v4 (EventData.v4_saddr host event) ;;
    daddr <- decode_v4 (EventData.v4_daddr host event) ;;
    Ok (Some (saddr, daddr))
  else
    id6 <- dict_lookup String.eqb (L3_PROTO_TO_ID g) "IPv6" ;;
    if String.eqb (str (EventData.l3_protocol event)) id6 then
      Ok (Some (IPv6Address (EventData.v6_saddr event),
                IPv6Address (EventData.v6_daddr event)))
    else Ok None.

(** [handle_event(cpu, data, size)] on the structure [data] points to: the
    flow table afterwards and the lines printed, or the exception that
    leaves the callback. *)
Definition handle_event (flows : FlowTable) (event : EventData.t) :
  result (FlowTable * list string) :=
  event_name <- resolve_event_name ift (EventData.event_id event) ;;
  a <- decode_addrs event ;;
  match a with
  | None =>
      Ok (flows,
          ["Unsupported l3 protocol " ++ str (EventData.l3_protocol event)])
  | Some (saddr, daddr) =>
      l3 <- dict_lookup String.eqb (ID_TO_L3_PROTO g)
              (str (EventData.l3_protocol event)) ;;
      l4 <- dict_lookup String.eqb (ID_TO_L4_PROTO g)
              (str (EventData.l4_protocol event)) ;;
      sp <- ntohs host (EventData.sport event) ;;
      dp <- ntohs host (EventData.dport event) ;;
      let flow := {| Flow.l3_protocol := l3;
                     Flow.l4_protocol := l4;
                     Flow.saddr := ipaddr_str saddr;
                     Flow.daddr := ipaddr_str daddr;
                     Flow.sport := sp;
                     Flow.dport := dp |} in
      Ok (record flows flow event_name, [])
  end.
End Decoder.

(** ** Rendering *)

(** [addr + ((':' + str(port)) if port != 0 else '')]. *)
Definition with_port (addr : string) (port : N) : string :=
  addr ++ (if negb (port =? 0) then ":" ++ str port else EmptyString).

Section Render.
(** [str(e)] for a list [e] of [str], a function of the Python library. *)
Variable str_list : list string -> string.

(** The line one iteration of the loop over [flows.items()] prints. *)
Definition render_row (f : Flow.t) (e : list string) : string :=
  let proto := Flow.l4_protocol f in
  let src := with_port (Flow.saddr f) (Flow.sport f) in
  let dst := with_port (Flow.daddr f) (Flow.dport f) in
  proto ++ tab ++ src ++ tab ++ "->" ++ tab ++ dst ++ tab ++ str_list e.

(** One iteration, on the table and the lines printed so far. *)
Definition render_step (st : FlowTable * list string)
  (item : Flow.t * list string) : FlowTable * list string :=
  (fst st, (snd st ++ [render_row (fst item) (snd item)])%list).

(** The [for] loop that follows [b.perf_buffer_poll()] in [run_tracing]:
    the table afterwards and the lines printed. *)
Definition render (flows : FlowTable) : FlowTable * list string :=
  fold_left render_step flows (flows, []).
End Render.


(** ** Start-up: [main] and the head of [run_tracing] *)

(** What [run_tracing] holds when it starts polling: the globals, the tracer,
    and the text and flags handed to [BPF]. *)
Record Session : Type := {
  globals : Protos;
  tracer : IPFTracer;
  bpf_text : string;
  cflags : list string
}.

Section Startup.
Variable host : byteorder.
Variable dedent : string -> string.
Variable template : string.
Variable IPv6Address_packed : string -> result (list byte).

(** The first two statements of [run_tracing(ift)]. *)
Definition run_tracing (g : Protos) (ift : IPFTracer) : result Session :=
  let (text, ift') := build_probes dedent template ift in
  opts <- build_opts IPv6Address_packed g ift' ;;
  Ok {| globals := g; tracer := ift'; bpf_text := text; cflags := opts |}.

(** [main] without the flag [--list], on the catalog and the two system
    files it reads. *)
Definition main (kwargs : Args) (fns : catalog) (ethertypes protocols : lines) :
  result Session :=
  let ift := IPFTracer_init dedent template kwargs fns in
  g <- init_ethertypes_mapping host ethertypes Protos_empty ;;
  g <- init_protocol_mapping protocols g ;;
  run_tracing g ift.
End Startup.

(** The elements of a list with their positions, counted from [k]. *)
Definition enumerate_from {A : Type} (k : nat) (l : list A) : list (N * A) :=
  combine (map N.of_nat (seq k (List.length l))) l.

(** The position of every element of a list, as [enumerate] gives it. *)
Definition enumerate {A : Type} (l : list A) : list (N * A) :=
  enumerate_from 0 l.

(** ** Reference versions of the library functions (ASCII text)

    The program above takes [textwrap.dedent], the text forms of
    [ipaddress.IPv6Address] and [str] of a list as parameters. The functions
    of this module follow the Python 3.11 library on ASCII text; the
    examples instantiate the parameters with them. *)
Module Py.

Definition is_blank (c : ascii) : bool := Ascii.eqb c " " || Ascii.eqb c "009".

Fixpoint all_blank (s : string) : bool :=
  match s with
  | EmptyString => true
  | String c s' => is_blank c && all_blank s'
  end.

Fixpoint leading_blanks (s : string) : string :=
  match s with
  | EmptyString => EmptyString
  | String c s' => if is_blank c then String c (leading_blanks s') else EmptyString
  end.

Fixpoint common_prefix (a b : string) : string :=
  match a, b with
  | String x a', String y b' =>
      if Ascii.eqb x y then String x (common_prefix a' b') else EmptyString
  | _, _ => EmptyString
  end.

(** [s] without the prefix [m], when it starts with [m]. *)
Fixpoint strip_prefix (m s : string) : option string :=
  match m, s with
  | EmptyString, _ => Some s
  | String x m', String y s' => if Ascii.eqb x y then strip_prefix m' s' else None
  | String _ _, EmptyString => None
  end.

(** [textwrap.dedent]: lines of blanks become empty, then the longest
    common run of leading blanks of the other lines is removed. *)
Definition dedent (text : string) : string :=
  let ls := map (fun l => if all_blank l then EmptyString else l)
                (split "010" text) in
  let indents := map leading_blanks (filter (fun l => negb (all_blank l)) ls) in
  let margin := match indents with
                | [] => EmptyString
                | i :: rest => fold_left common_prefix rest i
                end in
  join nl (map (fun l => match strip_prefix margin l with
                         | Some l' => l'
                         | None => l
                         end) ls).

(** ['%x' % n] for [n] below 65536. *)
Definition hex_char (d : N) : ascii :=
  ascii_of_N (if d <? 10 then 48 + d else 87 + d).

Fixpoint drop_zeros (ds : list N) : list N :=
  match ds with
  | 0 :: (_ :: _) as ds' => drop_zeros ds'
  | _ => ds
  end.

Definition hex16 (n : N) : string :=
  string_of_list_ascii
    (map hex_char
       (drop_zeros [n / 4096; (n / 256) mod 16; (n / 16) mod 16; n mod 16])).

(** The eight 16-bit groups of 16 bytes. *)
Fixpoint hextets_of (p : list byte) : list N :=
  match p with
  | hi :: lo :: p' => (256 * Byte.to_N hi + Byte.to_N lo) :: hextets_of p'
  | _ => []
  end.

(** The state of the loop of [_compress_hextets]: the best run of zero
    groups so far and the run being read, each as start and length. *)
Record runs : Type := {
  best_start : nat; best_len : nat;
  cur_start : option nat; cur_len : nat;
  index : nat
}.

Definition runs_step (r : runs) (hextet : string) : runs :=
  if String.eqb hextet "0" then
    let len := S (cur_len r) in
    let start := match cur_start r with
                 | None => index r
                 | Some s => s
                 end in
    if Nat.ltb (best_len r) len
    then {| best_start := start; best_len := len;
            cur_start := Some start; cur_len := len; index := S (index r) |}
    else {| best_start := best_start r; best_len := best_len r;
            cur_start := Some start; cur_len := len; index := S (index r) |}
  else {| best_start := best_start r; best_len := best_len r;
          cur_start := None; cur_len := 0; index := S (index r) |}.

Definition compress_hextets (hextets : list string) : list string :=
  let r := fold_left runs_step hextets
             {| best_start := 0; best_len := 0;
                cur_start := None; cur_len := 0; index := 0 |} in
  if Nat.ltb 1 (best_len r) then
    let best_end := (best_start r + best_len r)%nat in
    let h := if Nat.eqb best_end (List.length hextets)
             then (hextets ++ [EmptyString])%list else hextets in
    let h := (firstn (best_start r) h ++ EmptyString :: skipn best_end h)%list in
    if Nat.eqb (best_start r) 0 then EmptyString :: h else h
  else hextets.

(** [str(ipaddress.IPv6Address(b))] for 16 bytes [b]. *)
Definition IPv6Address_str (p : list byte) : string :=
  join ":" (compress_hextets (map hex16 (hextets_of p))).

Fixpoint has_char (c : ascii) (s : string) : bool :=
  match s with
  | EmptyString => false
  | String a s' => Ascii.eqb a c || has_char c s'
  end.

Definition is_empty (s : string) : bool :=
  match s with
  | EmptyString => true
  | String _ _ => false
  end.

Fixpoint hex_value (s : string) (acc : N) : option N :=
  match s with
  | EmptyString => Some acc
  | String c s' =>
      match hex_digit c with
      | Some d => hex_value s' (16 * acc + Z.to_N d)
      | None => None
      end
  end.

(** [IPv6Address._parse_hextet]: one to four hexadecimal digits. *)
Definition parse_hextet (s : string) : option N :=
  if is_empty s || Nat.ltb 4 (String.length s) then None else hex_value s 0.

Fixpoint parse_hextets (l : list string) : option (list N) :=
  match l with
  | [] => Some []
  | s :: l' =>
      match parse_hextet s, parse_hextets l' with
      | Some n, Some ns => Some (n :: ns)
      | _, _ => None
      end
  end.

(** [IPv6Address._split_scope_id]: the text before an optional [%scope]. *)
Definition split_scope_id (s : string) : option string :=
  match split "%" s with
  | [a] => Some a
  | [a; scope] => if is_empty scope then None else Some a
  | _ => None
  end.

(** An IPv4 suffix in the last part becomes two groups. *)
Definition expand_ipv4_suffix (parts : list string) : option (list string) :=
  let tail := last parts EmptyString in
  if has_char "." tail then
    match IPv4Address_of_str tail with
    | Ok ip =>
        Some (removelast parts ++
              [hex16 (N.land (N.shiftr ip 16) 65535); hex16 (N.land ip 65535)])%list
    | Raise _ => None
    end
  else Some parts.

(** The positions of the empty parts that are neither first nor last. *)
Definition inner_empty (parts : list string) : list nat :=
  filter (fun i => is_empty (nth i parts "x"))
         (seq 1 (List.length parts - 2)).

(** [IPv6Address._ip_int_from_string], as the eight groups of the address. *)
Definition hextets_from_string (ip_str : string) : option (list N) :=
  if is_empty ip_str then None else
  let parts := split ":" ip_str in
  if Nat.ltb (List.length parts) 3 then None else
  match expand_ipv4_suffix parts with
  | None => None
  | Some parts =>
      let n := List.length parts in
      let first_empty := is_empty (hd "x" parts) in
      let last_empty := is_empty (last parts "x") in
      if Nat.ltb 9 n then None else
      match inner_empty parts with
      | [] =>
          if negb (Nat.eqb n 8) || first_empty || last_empty then None
          else parse_hextets parts
      | [skip_index] =>
          let parts_hi := if first_empty then (skip_index - 1)%nat else skip_index in
          let parts_lo := if last_empty then (n - skip_index - 2)%nat
                          else (n - skip_index - 1)%nat in
          if (first_empty && negb (Nat.eqb parts_hi 0))
             || (last_empty && negb (Nat.eqb parts_lo 0))
             || Nat.leb 8 (parts_hi + parts_lo)
          then None
          else
            match parse_hextets (firstn parts_hi parts),
                  parse_hextets (skipn (n - parts_lo) parts) with
            | Some hi, Some lo =>
                Some (hi ++ repeat 0 (8 - (parts_hi + parts_lo)) ++ lo)%list
            | _, _ => None
            end
      | _ => None
      end
  end.

(** [ipaddress.IPv6Address(addr).packed] for a [str]. *)
Definition IPv6Address_packed (addr : string) : result (list byte) :=
  if has_char "/" addr then Raise AddressValueError else
  match split_scope_id addr with
  | None => Raise AddressValueError
  | Some a =>
      match hextets_from_string a with
      | Some hs =>
          Ok (flat_map (fun h => [byte_of_N (N.shiftr h 8); byte_of_N h]) hs)
      | None => Raise AddressValueError
      end
  end.

(** [repr(s)] for a [str]: single quotes unless [s] holds one and no double
    quote; backslash, the quote and control characters are escaped. *)
Definition squote : ascii := "039".
Definition dquote : ascii := "034".
Definition backslash : ascii := "092".

Definition repr_char (quote c : ascii) : string :=
  let n := N_of_ascii c in
  if Ascii.eqb c quote || Ascii.eqb c backslash
  then String backslash (String c EmptyString)
  else if n =? 9 then String backslash "t"
  else if n =? 10 then String backslash "n"
  else if n =? 13 then String backslash "r"
  else if (n <? 32) || (n =? 127)
  then String backslash (String "x" (String (hex_char (n / 16))
                                       (String (hex_char (n mod 16)) EmptyString)))
  else String c EmptyString.

Definition repr (s : string) : string :=
  let quote := if has_char squote s && negb (has_char dquote s)
               then dquote else squote in
  String quote
    (concat EmptyString (map (repr_char quote) (list_ascii_of_string s))
     ++ String quote EmptyString).

(** [str(l)] for a list of [str]. *)
Definition str_list (l : list string) : string :=
  "[" ++ join ", " (map repr l) ++ "]".
End Py.

(** ** Notions the statements below use *)

(** The text a list of strings makes when written one after the other. *)
Definition cat (l : list string) : string := fold_right append EmptyString l.

(** The stub [build_probes] emits for an entry under the event id [fst ie]. *)
Definition stub (dedent : string -> string) (ie : N * entry) : string :=
  dedent (probe_fstring (snd ie) (fst ie)).

(** The stub of every entry of a catalog with the position of the entry in
    the flattened catalog as its event id. *)
Definition stubs (dedent : string -> string) (c : catalog) : list string :=
  map (stub dedent) (enumerate (flatten c)).

(** The names recorded for a flow, none when the flow is unknown. *)
Definition names_of (flows : FlowTable) (flow : Flow.t) : list string :=
  match dict_get Flow.eqb flows flow with
  | Some l => l
  | None => []
  end.

(** The flow tables [run_tracing] can hold: it starts empty and only
    [handle_event] writes to it, through [record]. *)
Inductive reachable : FlowTable -> Prop :=
| reachable_empty : reachable []
| reachable_record (flows : FlowTable) (flow : Flow.t) (event_name : string) :
    reachable flows -> reachable (record flows flow event_name).

(** The names of [ns] that are not in [seen], each once, in the order of
    their first occurrence. *)
Fixpoint first_seen (seen ns : list string) : list string :=
  match ns with
  | [] => []
  | n :: ns' =>
      if existsb (String.eqb n) seen then first_seen seen ns'
      else n :: first_seen (seen ++ [n]) ns'
  end.

(** The byte a decimal numeral denotes. *)
Definition read_byte (s : string) : option byte :=
  match s with
  | EmptyString => None
  | String _ _ =>
      match NilEmpty.uint_of_string s with
      | Some d => Byte.of_N (N.of_uint d)
      | None => None
      end
  end.

(** The bytes a comma-separated list of decimal numerals denotes, as the
    value of an [ADDRV6] symbol is read. *)
Fixpoint read_bytes_of (l : list string) : option (list byte) :=
  match l with
  | [] => Some []
  | s :: l' =>
      match read_byte s, read_bytes_of l' with
      | Some b, Some bs => Some (b :: bs)
      | _, _ => None
      end
  end.

Definition read_bytes (s : string) : option (list byte) :=
  read_bytes_of (split "," s).

(** An option that defines an exact-match constant: its symbol holds [=]. *)
Definition exact_match (opt : string) : bool := Py.has_char "=" opt.

(** The arguments [main] passes when no filter is given. *)
Definition any_args (version : string) : Args :=
  {| kernel_version := version;
     l3proto := "any"; l4proto := "any";
     saddr4 := "any"; daddr4 := "any";
     saddr6 := "any"; daddr6 := "any";
     sport := "any"; dport := "any" |}.

(** ** Sample inputs *)
Module Sample.

Definition template : string := "#include <bcc/proto.h>" ++ nl.

Definition fns : catalog :=
  [("ip", [ {| name := "ip_rcv"; args := ["struct sk_buff *skb"] |};
            {| name := "ip_local_deliver"; args := ["struct sk_buff *skb"] |} ]);
   ("tcp", [ {| name := "tcp_v4_rcv"; args := ["struct sk_buff *skb"] |} ])].

(** A catalog of one function. *)
Definition one_fn : catalog := [("g", [ {| name := "f1"; args := [] |} ])].

Definition ethertypes : lines :=
  [ ["#"; "Ethernet"; "frame"; "types"];
    ["IPv4"; "0800"; "ip"; "ip4"; "#"; "Internet"; "IP"; "(IPv4)"];
    ["ARP"; "0806"; "ether-arp"; "#"];
    [];
    ["IPv6"; "86DD"; "ip6"; "#"; "IP"; "version"; "6"] ].

Definition protocols : lines :=
  [ ["#"; "Internet"; "(IP)"; "protocols"];
    ["ip"; "0"; "IP"; "#"; "internet"; "protocol"];
    ["icmp"; "1"; "ICMP"];
    ["tcp"; "6"; "TCP"];
    ["udp"; "17"; "UDP"] ].

Definition kwargs : Args := any_args "5.4.0".

(** The same with [--l3proto 4]. *)
Definition kwargs_l3 (p : string) : Args :=
  {| kernel_version := "5.4.0";
     l3proto := p; l4proto := "any";
     saddr4 := "any"; daddr4 := "any";
     saddr6 := "any"; daddr6 := "any";
     sport := "any"; dport := "any" |}.

(** The tables the two sample files give on a little-endian host. *)
Definition g : Protos :=
  {| L3_PROTO_TO_ID := [("IPv4", "8"); ("ARP", "1544"); ("IPv6", "56710")];
     ID_TO_L3_PROTO := [("8", "IPv4"); ("1544", "ARP"); ("56710", "IPv6")];
     L4_PROTO_TO_ID := [("IP", "0"); ("ICMP", "1"); ("TCP", "6"); ("UDP", "17")];
     ID_TO_L4_PROTO := [("0", "IP"); ("1", "ICMP"); ("6", "TCP"); ("17", "UDP")] |}.

(** The tracer when [run_tracing] installs the callback: built by the
    constructor, then assembled once more. *)
Definition ift : IPFTracer :=
  snd (build_probes Py.dedent template
         (IPFTracer_init Py.dedent template kwargs fns)).

(** The union of an IPv4 event from 10.0.0.1 to 10.0.0.2. *)
Definition v4_addrs : list byte :=
  (map byte_of_N [10; 0; 0; 1; 10; 0; 0; 2] ++ repeat x00 24)%list.

(** A TCP segment from 10.0.0.1:1234 to 10.0.0.2:80 seen in [ip_rcv], as a
    little-endian host reads the fields. *)
Definition ev_tcp : EventData.t :=
  {| EventData.event_id := 0; EventData.l4_protocol := 6;
     EventData.l3_protocol := 8; EventData.addrs := v4_addrs;
     EventData.sport := 53764; EventData.dport := 20480 |}.

(** The same with an event id no table entry answers. *)
Definition ev_bad_id : EventData.t :=
  {| EventData.event_id := 200; EventData.l4_protocol := 6;
     EventData.l3_protocol := 8; EventData.addrs := v4_addrs;
     EventData.sport := 53764; EventData.dport := 20480 |}.

(** The same with protocol number 253, which the protocols file lacks. *)
Definition ev_l4_miss : EventData.t :=
  {| EventData.event_id := 0; EventData.l4_protocol := 253;
     EventData.l3_protocol := 8; EventData.addrs := v4_addrs;
     EventData.sport := 53764; EventData.dport := 20480 |}.

(** An ARP frame (ethertype 0806) seen in [ip_rcv]. *)
Definition ev_arp : EventData.t :=
  {| EventData.event_id := 0; EventData.l4_protocol := 0;
     EventData.l3_protocol := 1544; EventData.addrs := repeat x00 32;
     EventData.sport := 0; EventData.dport := 0 |}.

(** The packed forms of ::1 and of 2001:db8:1:2:3:4:5:6. *)
Definition loopback6 : list byte := (repeat x00 15 ++ [x01])%list.

Definition doc6 : list byte :=
  map byte_of_N [32; 1; 13; 184; 0; 1; 0; 2; 0; 3; 0; 4; 0; 5; 0; 6].

(** The arguments of [--l4proto TCP --saddr4 10.0.0.1 --dport 80]. *)
Definition kwargs_tcp : Args :=
  {| kernel_version := "5.4.0";
     l3proto := "any"; l4proto := "TCP";
     saddr4 := "10.0.0.1"; daddr4 := "any";
     saddr6 := "any"; daddr6 := "any";
     sport := "any"; dport := "80" |}.

(** The segment of [ev_tcp] seen in [tcp_v4_rcv], the function of id 2. *)
Definition ev_tcp2 : EventData.t :=
  {| EventData.event_id := 2; EventData.l4_protocol := 6;
     EventData.l3_protocol := 8; EventData.addrs := v4_addrs;
     EventData.sport := 53764; EventData.dport := 20480 |}.

Definition flow_tcp : Flow.t :=
  {| Flow.l3_protocol := "IPv4"; Flow.l4_protocol := "TCP";
     Flow.saddr := "10.0.0.1"; Flow.daddr := "10.0.0.2";
     Flow.sport := 1234; Flow.dport := 80 |}.
End Sample.

(** ** The listing of [--list] *)

(** [self.list_functions()]: the lines it prints. *)
Definition list_functions (self : IPFTracer) : list string :=
  fold_left
    (fun out gl =>
       fold_left (fun out e => (out ++ [append "  " (name e)])%list) (snd gl)
                 (out ++ [fst gl])%list)
    (functions self) ["Available groups and functions"].

(** ** Further notions the statements below use *)

(** The flow tables a run of the callback builds: [run_tracing] starts with
    the empty table and every call of [handle_event] that returns leaves the
    table it returns. *)
Inductive traced (host : byteorder) (IPv6Address_str : list byte -> string)
  (g : Protos) (ift : IPFTracer) : FlowTable -> Prop :=
| traced_empty : traced host IPv6Address_str g ift []
| traced_event (flows flows' : FlowTable) (event : EventData.t)
    (out : list string) :
    traced host IPv6Address_str g ift flows ->
    handle_event host IPv6Address_str g ift flows event = Ok (flows', out) ->
    traced host IPv6Address_str g ift flows'.

(** The value the last pair with key [k] gives, as a run of assignments
    [d[k] = v] leaves it. *)
Fixpoint assoc_last (ps : list (string * string)) (k : string) : option string :=
  match ps with
  | [] => None
  | (k', v) :: ps' =>
      match assoc_last ps' k with
      | Some v' => Some v'
      | None => if String.eqb k k' then Some v else None
      end
  end.

(** The name and the number a line of the protocols file binds: its third
    and its second field. *)
Definition protocol_binding (spl : list string) : option (string * string) :=
  if skipped spl then None
  else match nth_error spl 2, nth_error spl 1 with
       | Some s2, Some s1 => Some (s2, s1)
       | _, _ => None
       end.

(** The name and the identifier a line of the ethertypes file binds: its
    first field and its second field, read as a hexadecimal number and
    brought to network order. *)
Definition ethertype_binding (host : byteorder) (spl : list string) :
  option (string * string) :=
  if skipped spl then None
  else match nth_error spl 0, nth_error spl 1 with
       | Some s0, Some s1 =>
           match int16 s1 with
           | Ok z => match htons host z with
                     | Ok h => Some (s0, str h)
                     | Raise _ => None
                     end
           | Raise _ => None
           end
       | _, _ => None
       end.

(** The bindings of the lines of a file, in the order of the lines. *)
Definition bindings (binding : list string -> option (string * string))
  (file : lines) : list (string * string) :=
  flat_map (fun spl => match binding spl with
                       | Some p => [p]
                       | None => []
                       end) file.

(** A line of the protocols file the loader accepts: skipped, or of three
    fields at least. *)
Definition protocol_line_ok (spl : list string) : bool :=
  skipped spl || Nat.leb 3 (List.length spl).

(** A line of the ethertypes file the loader accepts: skipped, or with a
    second field that is a hexadecimal number of 16 bits. *)
Definition ethertype_line_ok (spl : list string) : bool :=
  skipped spl ||
  match nth_error spl 1 with
  | Some s1 => match int16 s1 with
               | Ok z => ((0 <=? z) && (z <? 65536))%Z
               | Raise _ => false
               end
  | None => false
  end.

(** The arguments [a] with other port filters. *)
Definition with_ports (a : Args) (s d : string) : Args :=
  {| kernel_version := kernel_version a;
     l3proto := l3proto a; l4proto := l4proto a;
     saddr4 := saddr4 a; daddr4 := daddr4 a;
     saddr6 := saddr6 a; daddr6 := daddr6 a;
     sport := s; dport := d |}.

(** The tracer [self] with other arguments. *)
Definition with_args (self : IPFTracer) (a : Args) : IPFTracer :=
  {| self_args := a; functions := functions self;
     id_to_ename := id_to_ename self; probes := probes self |}.

(** What follows the name of a filter symbol: [_ANY] for the argument
    [any], otherwise [=] and the value the argument compiles to. *)
Definition option_of (arg : string) (value : string -> result string)
  (x : string) : Prop :=
  (arg = "any" /\ x = "_ANY") \/
  (arg <> "any" /\ exists v, value arg = Ok v /\ x = "=" ++ v).


(** The pair with its components exchanged. *)
Definition swap_pair (p : string * string) : string * string := (snd p, fst p).

(** ** Further sample inputs *)

(** The tables after the sample ethertypes file alone, on a little-endian
    host. *)
Definition g_ethertypes : Protos :=
  {| L3_PROTO_TO_ID := L3_PROTO_TO_ID Sample.g;
     ID_TO_L3_PROTO := ID_TO_L3_PROTO Sample.g;
     L4_PROTO_TO_ID := [];
     ID_TO_L4_PROTO := [] |}.

(** A TCP segment from ::1 port 1234 to 2001:db8:1:2:3:4:5:6 port 80 seen
    in [ip_rcv], as a little-endian host reads the fields. *)
Definition ev_tcp6 : EventData.t :=
  {| EventData.event_id := 0; EventData.l4_protocol := 6;
     EventData.l3_protocol := 56710;
     EventData.addrs := (Sample.loopback6 ++ Sample.doc6)%list;
     EventData.sport := 53764; EventData.dport := 20480 |}.

(** The options of [--l4proto TCP --saddr4 10.0.0.1 --dport 80]. *)
Definition opts_tcp : list string :=
  ["-D"; "L3_PROTOCOL_ANY"; "-D"; "L4_PROTOCOL=6";
   "-D"; "SADDRV4=16777226"; "-D"; "DADDRV4_ANY";
   "-D"; "SADDRV6_ANY"; "-D"; "DADDRV6_ANY";
   "-D"; "SPORT_ANY"; "-D"; "DPORT=80"].

(** What [main] holds when it starts polling, for the arguments
    [--l4proto TCP --saddr4 10.0.0.1 --dport 80] on the sample files and a
    little-endian host. *)
Definition session_tcp : Session :=
  {| globals := Sample.g;
     tracer := with_args Sample.ift Sample.kwargs_tcp;
     bpf_text := probes Sample.ift;
     cflags := opts_tcp |}.

(** ** The standard form of an IPv6 address *)

(** The texts the library prints for IPv6 addresses: eight groups in lower
    case without leading zeros, one longest run of two or more zero groups
    written as [::]. *)
Definition standard_form6 (addr : string) : Prop :=
  exists q, List.length q = 16%nat /\ Py.IPv6Address_str q = addr.

(** The same as a test: the text is the one the library prints for the
    address it reads from the text. *)
Definition is_standard6 (addr : string) : bool :=
  match Py.IPv6Address_packed addr with
  | Ok p => String.eqb (Py.IPv6Address_str p) addr
  | Raise _ => false
  end.

(** The groups of [hextets] with those from [bs] up to [be] written as one
    empty group, and an empty group more at either end the run touches. *)
Definition compressed (bs be : nat) (hextets : list string) : list string :=
  ((if Nat.eqb bs 0 then [EmptyString] else []) ++
   firstn bs hextets ++
   EmptyString :: skipn be hextets ++
   (if Nat.eqb be (List.length hextets) then [EmptyString] else []))%list.

(** The groups from [s] on, [len] of them, are zero groups. *)
Definition zeros_in (l : list string) (s len : nat) : Prop :=
  forall i, (s <= i < s + len)%nat -> nth_error l i = Some "0".

(** What the loop of [_compress_hextets] knows after the groups [l]: the
    best run is a run of zero groups, no run is longer, none as long
    starts before it, and the run being read is the longest one that ends
    with the last group. *)
Definition runs_inv (l : list string) (r : Py.runs) : Prop :=
  Py.index r = List.length l /\
  (Py.best_start r + Py.best_len r <= List.length l)%nat /\
  zeros_in l (Py.best_start r) (Py.best_len r) /\
  (forall s len, (1 <= len)%nat -> zeros_in l s len ->
                 (len <= Py.best_len r)%nat /\
                 (len = Py.best_len r -> (Py.best_start r <= s)%nat)) /\
  match Py.cur_start r with
  | Some c =>
      (c + Py.cur_len r = List.length l)%nat /\ (1 <= Py.cur_len r)%nat /\
      zeros_in l c (Py.cur_len r) /\
      (forall s len, (1 <= len)%nat -> zeros_in l s len ->
                     (s + len = List.length l)%nat -> (c <= s)%nat)
  | None =>
      Py.cur_len r = 0%nat /\
      (forall s len, (1 <= len)%nat -> zeros_in l s len ->
                     (s + len = List.length l)%nat -> False)
  end.

(** The run the standard form writes as [::]: the groups from [bs] up to
    [be] are two or more zero groups, no run of zero groups is longer, and
    none as long starts before it. *)
Definition chosen_run (gs : list string) (bs be : nat) : Prop :=
  (bs + 2 <= be <= List.length gs)%nat /\
  zeros_in gs bs (be - bs) /\
  forall s len, zeros_in gs s len ->
                (len <= be - bs)%nat /\ (len = (be - bs)%nat -> (bs <= s)%nat).

(** No two zero groups in a row. *)
Definition no_run (gs : list string) : Prop := forall s, ~ zeros_in gs s 2.

(** A digit of a group in the standard form. *)
Definition lower_hex (c : ascii) : bool :=
  let n := N_of_ascii c in
  ((48 <=? n) && (n <=? 57)) || ((97 <=? n) && (n <=? 102)).

Fixpoint all_lower_hex (s : string) : bool :=
  match s with
  | EmptyString => true
  | String c t => lower_hex c && all_lower_hex t
  end.

(** A group in the standard form: one to four digits in lower case, the
    first of them not 0 unless it is the only one. *)
Definition canonical_group (s : string) : bool :=
  match s with
  | EmptyString => false
  | String c t =>
      all_lower_hex s && Nat.leb (String.length s) 4 &&
      (negb (Ascii.eqb c "0") || Py.is_empty t)
  end.

(** The standard form, told by the text alone: eight groups in the
    standard form separated by colons when no two zero groups follow one
    another, and otherwise the same with the first of the longest runs of
    zero groups left out between two colons. *)
Definition canonical6 (addr : string) : Prop :=
  exists gs,
    List.length gs = 8%nat /\
    Forall (fun s => canonical_group s = true) gs /\
    ((no_run gs /\ addr = join ":" gs) \/
     (exists bs be, chosen_run gs bs be /\
                    addr = join ":" (compressed bs be gs))).

(** A group as [hex16] writes it, with the number it stands for. *)
Definition group_of (s : string) (h : N) : Prop :=
  Py.is_empty s = false /\
  Py.has_char ":" s = false /\ Py.has_char "." s = false /\
  Py.has_char "%" s = false /\ Py.has_char "/" s = false /\
  Py.parse_hextet s = Some h /\
  (s = "0" -> h = 0) /\
  canonical_group s = true.

(** The test of [group_of] for the text of [h]. *)
Definition hex16_ok (h : N) : bool :=
  let s := Py.hex16 h in
  negb (Py.is_empty s) &&
  negb (Py.has_char ":" s) && negb (Py.has_char "." s) &&
  negb (Py.has_char "%" s) && negb (Py.has_char "/" s) &&
  match Py.parse_hextet s with
  | Some h' => h' =? h
  | None => false
  end &&
  (negb (String.eqb s "0") || (h =? 0)) &&
  canonical_group s.

Definition nibbles : list N :=
  [0; 1; 2; 3; 4; 5; 6; 7; 8; 9; 10; 11; 12; 13; 14; 15].

(** Linear goals with division and remainder by a constant. *)
Ltac divmod := zify; Z.to_euclidean_division_equations; lia.

(** * Properties *)

(** ** Strings and lists *)

Lemma append_assoc (a b c : string) : (a ++ b) ++ c = a ++ (b ++ c).
Proof.
  induction a as [|x a IH]; simpl; [reflexivity | now rewrite IH].
Qed.

Lemma append_nil_r (a : string) : a ++ EmptyString = a.
Proof.
  induction a as [|x a IH]; simpl; [reflexivity | now rewrite IH].
Qed.

Lemma append_same_l (a s : string) : a ++ s = a -> s = EmptyString.
Proof.
  induction a as [|x a IH]; simpl; intros H; [exact H|].
  injection H as H. now apply IH.
Qed.

Lemma cat_app (l l' : list string) : cat (l ++ l') = cat l ++ cat l'.
Proof.
  induction l as [|s l IH]; simpl; [reflexivity|].
  now rewrite IH, append_assoc.
Qed.

Lemma enumerate_from_cons {A : Type} (k : nat) (x : A) (l : list A) :
  enumerate_from k (x :: l) = (N.of_nat k, x) :: enumerate_from (S k) l.
Proof. reflexivity. Qed.

Lemma enumerate_from_app {A : Type} (l l' : list A) : forall k,
  enumerate_from k (l ++ l') =
  (enumerate_from k l ++ enumerate_from (k + List.length l) l')%list.
Proof.
  induction l as [|x l IH]; intros k; simpl.
  - now rewrite Nat.add_0_r.
  - rewrite !enumerate_from_cons, IH. simpl.
    now rewrite Nat.add_succ_r.
Qed.

(** An element that [enumerate_from k] pairs with [i] sits at position
    [i - k]. *)
Lemma enumerate_from_nth {A : Type} (l : list A) : forall k i x,
  In (i, x) (enumerate_from k l) ->
  exists j, i = N.of_nat (k + j) /\ nth_error l j = Some x.
Proof.
  induction l as [|y l IH]; intros k i x H.
  - destruct H.
  - rewrite enumerate_from_cons in H. destruct H as [H|H].
    + injection H as <- <-. exists 0%nat. now rewrite Nat.add_0_r.
    + destruct (IH _ _ _ H) as [j [-> Hj]].
      exists (S j). now rewrite Nat.add_succ_r.
Qed.

Lemma enumerate_nth {A : Type} (l : list A) i x :
  In (i, x) (enumerate l) -> nth_error l (N.to_nat i) = Some x.
Proof.
  intros H. destruct (enumerate_from_nth l 0 i x H) as [j [-> Hj]].
  simpl. now rewrite Nat2N.id.
Qed.

Lemma enumerate_ids {A : Type} (l : list A) :
  map fst (enumerate l) = map N.of_nat (seq 0 (List.length l)).
Proof.
  unfold enumerate, enumerate_from. generalize 0%nat.
  induction l as [|x l IH]; intros k; simpl; [reflexivity|].
  now rewrite IH.
Qed.

Lemma enumerate_length {A : Type} (l : list A) :
  List.length (enumerate l) = List.length l.
Proof.
  unfold enumerate, enumerate_from.
  rewrite length_combine, length_map, length_seq. apply Nat.min_id.
Qed.

(** ** Probe assembly *)

Section ProbeFacts.
Variable dedent : string -> string.
Variable template : string.

(** The inner loop appends one stub and one name per entry, numbering the
    stubs from the counter it starts with. *)
Lemma probe_step_fold (es : list entry) : forall (k : nat) (st : probe_state),
  st_eid st = N.of_nat k ->
  fold_left (probe_step dedent) es st =
  {| st_eid := N.of_nat (k + List.length es);
     st_ret := st_ret st ++ cat (map (stub dedent) (enumerate_from k es));
     st_id_to_ename := (st_id_to_ename st ++ map name es)%list |}.
Proof.
  induction es as [|e es IH]; intros k st Hk.
  - simpl. rewrite Nat.add_0_r, append_nil_r, app_nil_r, <- Hk.
    now destruct st.
  - simpl fold_left. rewrite (IH (S k)).
    + rewrite enumerate_from_cons. simpl.
      rewrite Nat.add_succ_r, append_assoc, <- app_assoc.
      unfold stub at 2. simpl. now rewrite Hk.
    + simpl. rewrite Hk. lia.
Qed.

(** The two loops together behave as one loop over the flattened catalog. *)
Lemma probe_group_fold (c : catalog) : forall (k : nat) (st : probe_state),
  st_eid st = N.of_nat k ->
  fold_left (probe_group dedent) c st =
  {| st_eid := N.of_nat (k + List.length (flatten c));
     st_ret := st_ret st ++ cat (map (stub dedent) (enumerate_from k (flatten c)));
     st_id_to_ename := (st_id_to_ename st ++ map name (flatten c))%list |}.
Proof.
  induction c as [|[grp es] c IH]; intros k st Hk.
  - simpl. rewrite Nat.add_0_r, append_nil_r, app_nil_r, <- Hk.
    now destruct st.
  - simpl fold_left. unfold probe_group at 2. simpl snd.
    rewrite (probe_step_fold es k st Hk).
    rewrite (IH (k + List.length es)%nat) by reflexivity.
    unfold flatten. simpl flat_map. fold (flatten c).
    rewrite enumerate_from_app, !map_app, cat_app, length_app. simpl.
    now rewrite Nat.add_assoc, append_assoc, <- app_assoc.
Qed.

(** What one call of [build_probes] does, whatever the table held before:
    the text depends on the catalog only, the table gains every name. *)
Lemma build_probes_spec (self : IPFTracer) :
  fst (build_probes dedent template self) =
    template ++ cat (stubs dedent (functions self)) /\
  id_to_ename (snd (build_probes dedent template self)) =
    (id_to_ename self ++ map name (flatten (functions self)))%list /\
  functions (snd (build_probes dedent template self)) = functions self /\
  self_args (snd (build_probes dedent template self)) = self_args self.
Proof.
  unfold build_probes. simpl.
  rewrite (probe_group_fold (functions self) 0) by reflexivity.
  simpl. repeat split.
Qed.

Lemma IPFTracer_init_spec (kwargs : Args) (c : catalog) :
  probes (IPFTracer_init dedent template kwargs c) =
    template ++ cat (stubs dedent c) /\
  id_to_ename (IPFTracer_init dedent template kwargs c) = map name (flatten c) /\
  functions (IPFTracer_init dedent template kwargs c) = c /\
  self_args (IPFTracer_init dedent template kwargs c) = kwargs.
Proof.
  unfold IPFTracer_init.
  pose proof (build_probes_spec
                {| self_args := kwargs; functions := c;
                   id_to_ename := []; probes := EmptyString |}) as H.
  destruct (build_probes dedent template _) as [ret self'].
  simpl in *. destruct H as (H1 & H2 & H3 & H4). repeat split; assumption.
Qed.

(** A table that starts with the names of the catalog answers every
    position of the flattened catalog with the name found there. *)
Lemma resolve_enumerate (self : IPFTracer) (l : list entry) (rest : list string) :
  id_to_ename self = (map name l ++ rest)%list ->
  map (fun ie => resolve_event_name self (fst ie)) (enumerate l) =
  map (fun ie => Ok (name (snd ie))) (enumerate l).
Proof.
  intros Htab. apply map_ext_in. intros [i e] Hin. simpl.
  apply enumerate_nth in Hin. unfold resolve_event_name.
  rewrite Htab, nth_error_app1.
  - now rewrite nth_error_map, Hin.
  - rewrite length_map. apply nth_error_Some. congruence.
Qed.
End ProbeFacts.

(** The decimal form tells the number. *)
Lemma str_inj (n m : N) : str n = str m -> n = m.
Proof.
  unfold str. intros H. apply DecimalN.Unsigned.to_uint_inj.
  pose proof (NilEmpty.usu (N.to_uint n)) as Hn. rewrite H, NilEmpty.usu in Hn.
  congruence.
Qed.

(** C1. For every catalog, the stub that probe assembly emits for a function
    carries as event id the position of that function in the flattened
    catalog (groups in order, functions of a group in order, from 0): the
    program text is the template followed, for every position i and the
    function e at that position, by the dedented text of the probe of
    [e['name']] and [e['args']] whose initializer of [struct event_data] is
    the decimal form of i. The ids are exactly 0, ..., N-1, and the
    id-to-name table, filled by the same loop, answers every one of these
    ids with the name of that function, both after the constructor and
    after the assembly [run_tracing] runs before the decoder starts. *)
Theorem event_id_is_catalog_index
  (dedent : string -> string) (template : string) (kwargs : Args) (c : catalog) :
  let ift := IPFTracer_init dedent template kwargs c in
  let ift' := snd (build_probes dedent template ift) in
  probes ift =
    template ++
    cat (map (fun ie : N * entry =>
                dedent
                  (nl ++
                   "                    void kprobe__" ++ name (snd ie) ++ "(" ++
                     join ", " ("struct pt_regs *ctx" :: args (snd ie)) ++
                     ") {" ++ nl ++
                   "                      struct event_data e = { " ++
                     str (fst ie) ++ " };" ++ nl ++
                   "                      if (!match(ctx, skb, &e)) {" ++ nl ++
                   "                        return;" ++ nl ++
                   "                      }" ++ nl ++
                   "                      action(ctx, &e);" ++ nl ++
                   "                    }" ++ nl ++
                   "                    "))
             (enumerate (flatten c))) /\
  fst (build_probes dedent template ift) = probes ift /\
  map fst (enumerate (flatten c)) =
    map N.of_nat (seq 0 (List.length (flatten c))) /\
  (forall i j : N, str i = str j -> i = j) /\
  id_to_ename ift = map name (flatten c) /\
  map (fun ie => resolve_event_name ift (fst ie)) (enumerate (flatten c)) =
    map (fun ie => Ok (name (snd ie))) (enumerate (flatten c)) /\
  map (fun ie => resolve_event_name ift' (fst ie)) (enumerate (flatten c)) =
    map (fun ie => Ok (name (snd ie))) (enumerate (flatten c)).
Proof.
  intros ift ift'.
  destruct (IPFTracer_init_spec dedent template kwargs c) as (Hp & Ht & Hf & _).
  destruct (build_probes_spec dedent template ift) as (Hp' & Ht' & _).
  fold ift in Hp, Ht, Hf. fold ift' in Ht'.
  split; [exact Hp|]. split; [now rewrite Hp', Hp, Hf|]. split.
  - apply enumerate_ids.
  - split; [apply str_inj|]. split; [exact Ht|]. split.
    + apply resolve_enumerate with (rest := []). now rewrite app_nil_r.
    + apply resolve_enumerate with (rest := map name (flatten c)).
      rewrite Ht', Ht, Hf. reflexivity.
Qed.

(** Assembling once more gives the same text and appends every name to the
    table a second time. *)
Lemma build_probes_again
  (dedent : string -> string) (template : string) (kwargs : Args) (c : catalog) :
  let ift := IPFTracer_init dedent template kwargs c in
  fst (build_probes dedent template ift) = probes ift /\
  id_to_ename (snd (build_probes dedent template ift)) =
    (id_to_ename ift ++ id_to_ename ift)%list.
Proof.
  intros ift.
  destruct (IPFTracer_init_spec dedent template kwargs c) as (Hp & Ht & Hf & _).
  destruct (build_probes_spec dedent template ift) as (Hp' & Ht' & _).
  fold ift in Hp, Ht, Hf. rewrite Hp', Ht', Hp, Ht, Hf. split; reflexivity.
Qed.

(** C4. On the catalog of the single function f1, the assembly that
    [run_tracing] runs on the tracer the constructor built returns the very
    text of the first assembly, but it leaves the table as f1, f1 where it
    was f1: id 1, which no stub carries, now resolves to f1 where it raised
    an IndexError before. *)
Theorem second_assembly_doubles_table :
  let ift := IPFTracer_init Py.dedent Sample.template Sample.kwargs Sample.one_fn in
  let ift' := snd (build_probes Py.dedent Sample.template ift) in
  fst (build_probes Py.dedent Sample.template ift) = probes ift /\
  id_to_ename ift = ["f1"] /\
  id_to_ename ift' = ["f1"; "f1"] /\
  resolve_event_name ift 1 = Raise IndexError /\
  resolve_event_name ift' 1 = Ok "f1".
Proof. vm_compute. repeat split. Qed.

(** ** The filter options *)

(** C9. With every one of the eight filters left at any, the options are the
    eight accept-any symbols, one per filter and each behind its -D, and
    none of them defines an exact-match constant, whatever the name tables
    hold. *)
Theorem build_opts_all_any
  (IPv6Address_packed : string -> result (list byte)) (g : Protos)
  (version : string) (fns : catalog) (table : list string) (text : string) :
  let self := {| self_args := any_args version; functions := fns;
                 id_to_ename := table; probes := text |} in
  build_opts IPv6Address_packed g self =
    Ok ["-D"; "L3_PROTOCOL_ANY"; "-D"; "L4_PROTOCOL_ANY";
        "-D"; "SADDRV4_ANY"; "-D"; "DADDRV4_ANY";
        "-D"; "SADDRV6_ANY"; "-D"; "DADDRV6_ANY";
        "-D"; "SPORT_ANY"; "-D"; "DPORT_ANY"] /\
  forall opts, build_opts IPv6Address_packed g self = Ok opts ->
               existsb exact_match opts = false.
Proof.
  intros self. split; [reflexivity|].
  intros opts H. vm_compute in H. injection H as <-. reflexivity.
Qed.

(** ** Rendering *)

Lemma render_step_fold (str_list : list string -> string)
  (items : list (Flow.t * list string)) : forall st,
  fold_left (render_step str_list) items st =
  (fst st,
   (snd st ++ map (fun item => render_row str_list (fst item) (snd item)) items)%list).
Proof.
  induction items as [|item items IH]; intros [fl out]; simpl.
  - now rewrite app_nil_r.
  - rewrite IH. simpl. now rewrite <- app_assoc.
Qed.

Lemma with_port_zero (addr : string) (port : N) :
  with_port addr port = addr <-> port = 0.
Proof.
  unfold with_port. split.
  - intros H. destruct (port =? 0) eqn:E; [now apply N.eqb_eq|].
    apply append_same_l in H. discriminate.
  - intros ->. simpl. apply append_nil_r.
Qed.

(** C10. Rendering reads the flow table only: it returns the table it was
    given, with every list of names as it was; it prints one line per flow
    of the table, in the order of the table; and an address is printed
    without a port exactly when the port is zero. *)
Theorem render_is_pure_read
  (str_list : list string -> string) (flows : FlowTable) :
  fst (render str_list flows) = flows /\
  snd (render str_list flows) =
    map (fun item =>
           Flow.l4_protocol (fst item) ++ tab ++
           with_port (Flow.saddr (fst item)) (Flow.sport (fst item)) ++ tab ++
           "->" ++ tab ++
           with_port (Flow.daddr (fst item)) (Flow.dport (fst item)) ++ tab ++
           str_list (snd item)) flows /\
  List.length (snd (render str_list flows)) = List.length flows /\
  (forall addr port, with_port addr port = addr <-> port = 0) /\
  (forall addr port, with_port addr port = addr ++ ":" ++ str port <-> port <> 0).
Proof.
  unfold render. rewrite render_step_fold. simpl.
  split; [reflexivity|]. split; [reflexivity|].
  split; [apply length_map|]. split; [apply with_port_zero|].
  intros addr port. unfold with_port. split.
  - intros H ->. simpl in H. rewrite append_nil_r in H.
    symmetry in H. apply append_same_l in H. discriminate.
  - intros H. apply N.eqb_neq in H. now rewrite H.
Qed.

(** ** Dictionaries *)

Section DictFacts.
Context {K V : Type}.
Variable eqb : K -> K -> bool.
Hypothesis eqb_eq : forall k k', eqb k k' = true <-> k = k'.

Lemma dict_eqb_refl (k : K) : eqb k k = true.
Proof. now apply eqb_eq. Qed.

Lemma dict_get_set_same (d : dict K V) (k : K) (v : V) :
  dict_get eqb (dict_set eqb d k v) k = Some v.
Proof.
  induction d as [|[k0 v0] d IH]; simpl.
  - now rewrite dict_eqb_refl.
  - destruct (eqb k k0) eqn:E; simpl; rewrite E; [reflexivity | exact IH].
Qed.

Lemma dict_get_set_other (d : dict K V) (k k' : K) (v : V) :
  k' <> k -> dict_get eqb (dict_set eqb d k v) k' = dict_get eqb d k'.
Proof.
  intros Hne. assert (Hf : eqb k' k = false).
  { destruct (eqb k' k) eqn:E; [|reflexivity]. now apply eqb_eq in E. }
  induction d as [|[k0 v0] d IH]; simpl.
  - now rewrite Hf.
  - destruct (eqb k k0) eqn:E; simpl.
    + apply eqb_eq in E. subst k0. now rewrite Hf.
    + destruct (eqb k' k0); [reflexivity | exact IH].
Qed.

Lemma dict_set_set (d : dict K V) (k : K) (v v' : V) :
  dict_set eqb (dict_set eqb d k v) k v' = dict_set eqb d k v'.
Proof.
  induction d as [|[k0 v0] d IH]; simpl.
  - now rewrite dict_eqb_refl.
  - destruct (eqb k k0) eqn:E; simpl; rewrite E; [reflexivity | now rewrite IH].
Qed.

(** Writing a key keeps the order of the keys: a known key stays where it
    is, a new one is added at the end. *)
Lemma dict_keys_set (d : dict K V) (k : K) (v : V) :
  dict_keys (dict_set eqb d k v) =
  match dict_get eqb d k with
  | Some _ => dict_keys d
  | None => (dict_keys d ++ [k])%list
  end.
Proof.
  unfold dict_keys. induction d as [|[k0 v0] d IH]; simpl; [reflexivity|].
  destruct (eqb k k0) eqn:E; simpl; [reflexivity|].
  rewrite IH. now destruct (dict_get eqb d k).
Qed.
End DictFacts.

(** ** The flow table *)

Lemma Flow_eqb_eq (f f' : Flow.t) : Flow.eqb f f' = true <-> f = f'.
Proof.
  unfold Flow.eqb. split.
  - intros H. repeat (apply andb_prop in H; destruct H as [H ?]).
    destruct f, f'; simpl in *.
    repeat match goal with
           | E : String.eqb _ _ = true |- _ => apply String.eqb_eq in E
           | E : N.eqb _ _ = true |- _ => apply N.eqb_eq in E
           end.
    congruence.
  - intros <-. now rewrite !String.eqb_refl, !N.eqb_refl.
Qed.

Lemma mem_In (n : string) (l : list string) :
  existsb (String.eqb n) l = true <-> In n l.
Proof.
  rewrite existsb_exists. split.
  - intros [x [Hx E]]. apply String.eqb_eq in E. now subst.
  - intros H. exists n. split; [exact H | apply String.eqb_refl].
Qed.

(** The names of a flow after [record]: unchanged when the name is among
    them, the name appended otherwise. *)
Lemma names_of_record_same (flows : FlowTable) (flow : Flow.t) (n : string) :
  names_of (record flows flow n) flow =
  if existsb (String.eqb n) (names_of flows flow)
  then names_of flows flow
  else (names_of flows flow ++ [n])%list.
Proof.
  unfold names_of at 1. unfold record.
  rewrite (dict_get_set_same Flow.eqb Flow_eqb_eq). reflexivity.
Qed.

Lemma names_of_record_other (flows : FlowTable) (flow f' : Flow.t) (n : string) :
  f' <> flow -> names_of (record flows flow n) f' = names_of flows f'.
Proof.
  intros H. unfold names_of, record.
  now rewrite (dict_get_set_other Flow.eqb Flow_eqb_eq).
Qed.

Lemma record_twice (flows : FlowTable) (flow : Flow.t) (n : string) :
  record (record flows flow n) flow n = record flows flow n.
Proof.
  unfold record at 1. fold (names_of (record flows flow n) flow).
  rewrite names_of_record_same.
  assert (E : existsb (String.eqb n)
                (if existsb (String.eqb n) (names_of flows flow)
                 then names_of flows flow
                 else (names_of flows flow ++ [n])%list) = true).
  { destruct (existsb _ (names_of flows flow)) eqn:E; [exact E|].
    apply mem_In, in_or_app. right. now left. }
  rewrite E. unfold record. fold (names_of flows flow).
  apply (dict_set_set Flow.eqb Flow_eqb_eq).
Qed.

(** No list of names of a reachable table holds a name twice. *)
Lemma reachable_NoDup (flows : FlowTable) :
  reachable flows -> forall flow, NoDup (names_of flows flow).
Proof.
  induction 1 as [|flows f n _ IH]; intros flow.
  - constructor.
  - destruct (Flow.eqb flow f) eqn:E.
    + apply Flow_eqb_eq in E. subst flow. rewrite names_of_record_same.
      destruct (existsb _ (names_of flows f)) eqn:M; [apply IH|].
      apply NoDup_app; [apply IH | repeat constructor; intros [] |].
      intros a Ha [<-|[]]. apply mem_In in Ha. congruence.
    + rewrite names_of_record_other; [apply IH|].
      intros ->. rewrite (proj2 (Flow_eqb_eq f f) eq_refl) in E. discriminate.
Qed.

Lemma reachable_fold (flow : Flow.t) (ns : list string) : forall flows,
  reachable flows -> reachable (fold_left (fun t n => record t flow n) ns flows).
Proof.
  induction ns as [|n ns IH]; intros flows H; simpl; [exact H|].
  apply IH. now constructor.
Qed.

(** Recording a run of names for one flow appends the new ones in the order
    they are first seen. *)
Lemma names_of_fold_same (flow : Flow.t) (ns : list string) : forall flows,
  names_of (fold_left (fun t n => record t flow n) ns flows) flow =
  (names_of flows flow ++ first_seen (names_of flows flow) ns)%list.
Proof.
  induction ns as [|n ns IH]; intros flows; simpl.
  - now rewrite app_nil_r.
  - rewrite IH, names_of_record_same.
    destruct (existsb _ (names_of flows flow)); [reflexivity|].
    now rewrite <- app_assoc.
Qed.

Lemma names_of_fold_other (flow f' : Flow.t) (ns : list string) : forall flows,
  f' <> flow ->
  names_of (fold_left (fun t n => record t flow n) ns flows) f' = names_of flows f'.
Proof.
  induction ns as [|n ns IH]; intros flows H; simpl; [reflexivity|].
  rewrite IH by exact H. now apply names_of_record_other.
Qed.

(** C7. In every flow table the tracer can hold, recording a pair of flow
    and name a second time changes nothing, so that the names of the flow
    hold the name exactly once; recording any run of names for a flow
    keeps the names it had, in their order, and appends the new ones once
    each in the order they are first seen; the names of every other flow
    stay as they are. *)
Theorem record_idempotent
  (flows : FlowTable) (flow : Flow.t) (event_name : string)
  (Hreach : reachable flows) :
  record (record flows flow event_name) flow event_name =
    record flows flow event_name /\
  count_occ string_dec
    (names_of (record (record flows flow event_name) flow event_name) flow)
    event_name = 1%nat /\
  forall ns : list string,
    let flows' := fold_left (fun t n => record t flow n) ns flows in
    names_of flows' flow =
      (names_of flows flow ++ first_seen (names_of flows flow) ns)%list /\
    NoDup (names_of flows' flow) /\
    forall f', f' <> flow -> names_of flows' f' = names_of flows f'.
Proof.
  split; [apply record_twice|]. split.
  - rewrite record_twice.
    apply NoDup_count_occ'.
    + apply reachable_NoDup. now constructor.
    + rewrite names_of_record_same.
      destruct (existsb _ (names_of flows flow)) eqn:M.
      * now apply mem_In.
      * apply in_or_app. right. now left.
  - intros ns flows'. split; [apply names_of_fold_same|]. split.
    + apply reachable_NoDup. now apply reachable_fold.
    + intros f' H. now apply names_of_fold_other.
Qed.

(** ** Byte order *)

Lemma land_shiftl_small (a b k : N) : b < 2 ^ k -> N.land (N.shiftl a k) b = 0.
Proof.
  intros H. apply N.bits_inj. intros n.
  rewrite N.land_spec, N.bits_0.
  destruct (N.lt_ge_cases n k) as [Hn|Hn].
  - now rewrite N.shiftl_spec_low.
  - rewrite <- (N.mod_small b (2 ^ k)) by exact H.
    rewrite N.mod_pow2_bits_high by exact Hn. apply Bool.andb_false_r.
Qed.

Lemma lor_shiftl_add (a b k : N) : b < 2 ^ k -> N.lor (N.shiftl a k) b = a * 2 ^ k + b.
Proof.
  intros H. rewrite <- N.lxor_lor, <- N.add_nocarry_lxor, N.shiftl_mul_pow2;
    auto using land_shiftl_small.
Qed.

Lemma swap32_spec (x : N) :
  swap32 x = (x mod 256) * 16777216 + (x / 256 mod 256) * 65536 +
             (x / 65536 mod 256) * 256 + x / 16777216 mod 256.
Proof.
  unfold swap32. change 255 with (N.ones 8).
  rewrite !N.land_ones, !N.shiftr_div_pow2.
  change (2 ^ 8) with 256. change (2 ^ 16) with 65536. change (2 ^ 24) with 16777216.
  set (A := x mod 256). set (B := x / 256 mod 256).
  set (C := x / 65536 mod 256). set (D := x / 16777216 mod 256).
  assert (HA : A < 256) by (apply N.mod_lt; discriminate).
  assert (HB : B < 256) by (apply N.mod_lt; discriminate).
  assert (HC : C < 256) by (apply N.mod_lt; discriminate).
  assert (HD : D < 256) by (apply N.mod_lt; discriminate).
  rewrite (lor_shiftl_add C D 8) by exact HD.
  replace (N.shiftl A 24) with (N.shiftl (N.shiftl A 8) 16)
    by (rewrite N.shiftl_shiftl; reflexivity).
  replace (N.lor (N.shiftl (N.shiftl A 8) 16) (N.shiftl B 16))
    with (N.shiftl (N.lor (N.shiftl A 8) B) 16)
    by (rewrite N.shiftl_lor; reflexivity).
  rewrite (lor_shiftl_add A B 8) by exact HB.
  rewrite lor_shiftl_add.
  - change (2 ^ 8) with 256. change (2 ^ 16) with 65536. lia.
  - change (2 ^ 8) with 256. change (2 ^ 16) with 65536. lia.
Qed.

Lemma swap16_spec (x : N) : swap16 x = (x mod 256) * 256 + x / 256 mod 256.
Proof.
  unfold swap16. change 255 with (N.ones 8).
  rewrite !N.land_ones, !N.shiftr_div_pow2, lor_shiftl_add.
  - reflexivity.
  - apply N.mod_lt. discriminate.
Qed.

Lemma to_N_byte_of_N (n : N) : Byte.to_N (byte_of_N n) = n mod 256.
Proof.
  unfold byte_of_N. destruct (Byte.of_N (n mod 256)) eqn:E.
  - now apply Byte.to_of_N.
  - apply Byte.of_N_None_iff in E.
    assert (n mod 256 < 256) by (apply N.mod_lt; discriminate). lia.
Qed.

Lemma byte_split (a y : N) : a < 256 ->
  (a + 256 * y) mod 256 = a /\ (a + 256 * y) / 256 = y.
Proof. intros H. divmod. Qed.

Lemma swap32_lt (x : N) : swap32 x < 4294967296.
Proof.
  rewrite swap32_spec.
  assert (x mod 256 < 256) by (apply N.mod_lt; discriminate).
  assert (x / 256 mod 256 < 256) by (apply N.mod_lt; discriminate).
  assert (x / 65536 mod 256 < 256) by (apply N.mod_lt; discriminate).
  assert (x / 16777216 mod 256 < 256) by (apply N.mod_lt; discriminate).
  lia.
Qed.

Lemma swap16_lt (x : N) : swap16 x < 65536.
Proof.
  rewrite swap16_spec.
  assert (x mod 256 < 256) by (apply N.mod_lt; discriminate).
  assert (x / 256 mod 256 < 256) by (apply N.mod_lt; discriminate).
  lia.
Qed.

(** The four bytes of a 32-bit value, most significant first, make it up. *)
Lemma bytes_of_word (ip : N) : ip < 4294967296 ->
  (ip / 16777216 mod 256) * 16777216 + (ip / 65536 mod 256) * 65536 +
  (ip / 256 mod 256) * 256 + ip mod 256 = ip.
Proof.
  intros H.
  change 16777216 with (256 * (256 * 256)). change 65536 with (256 * 256).
  rewrite <- !N.Div0.div_div.
  set (a := ip / 256). set (b := a / 256). set (c := b / 256).
  assert (Hc : c < 256).
  { subst c b a. rewrite !N.Div0.div_div. apply N.Div0.div_lt_upper_bound. exact H. }
  rewrite (N.mod_small c) by exact Hc.
  pose proof (N.div_mod ip 256). pose proof (N.div_mod a 256).
  pose proof (N.div_mod b 256). fold a in H0. fold b in H1. fold c in H2.
  lia.
Qed.

Lemma swap32_packed4 (ip : N) : ip < 4294967296 ->
  swap32 (from_bytes_little (packed4 ip)) = ip.
Proof.
  intros H. rewrite swap32_spec. unfold packed4, from_bytes_little.
  rewrite !to_N_byte_of_N, !N.shiftr_div_pow2.
  change (2 ^ 8) with 256. change (2 ^ 16) with 65536. change (2 ^ 24) with 16777216.
  set (p0 := ip / 16777216 mod 256). set (p1 := ip / 65536 mod 256).
  set (p2 := ip / 256 mod 256). set (p3 := ip mod 256).
  assert (H0 : p0 < 256) by (apply N.mod_lt; discriminate).
  assert (H1 : p1 < 256) by (apply N.mod_lt; discriminate).
  assert (H2 : p2 < 256) by (apply N.mod_lt; discriminate).
  assert (H3 : p3 < 256) by (apply N.mod_lt; discriminate).
  rewrite N.mul_0_r, N.add_0_r.
  set (x := p0 + 256 * (p1 + 256 * (p2 + 256 * p3))).
  assert (E0 : x mod 256 = p0) by apply (byte_split p0 _ H0).
  assert (D0 : x / 256 = p1 + 256 * (p2 + 256 * p3)) by apply (byte_split p0 _ H0).
  assert (E1 : x / 256 mod 256 = p1) by (rewrite D0; apply (byte_split p1 _ H1)).
  assert (D1 : x / 65536 = p2 + 256 * p3).
  { change 65536 with (256 * 256). rewrite <- N.Div0.div_div, D0.
    apply (byte_split p1 _ H1). }
  assert (E2 : x / 65536 mod 256 = p2) by (rewrite D1; apply (byte_split p2 _ H2)).
  assert (D2 : x / 16777216 = p3).
  { change 16777216 with (65536 * 256). rewrite <- N.Div0.div_div, D1.
    apply (byte_split p2 _ H2). }
  rewrite E0, E1, E2, D2, (N.mod_small p3) by exact H3.
  subst p0 p1 p2 p3. now apply bytes_of_word.
Qed.

(** ** The name tables *)

Lemma bind_Ok {A B : Type} (c : result A) (k : A -> result B) (b : B) :
  bind c k = Ok b -> exists a, c = Ok a /\ k a = Ok b.
Proof. destruct c; simpl; intros H; [eauto | discriminate]. Qed.

Lemma field_0 (spl : list string) (s : string) :
  field spl 0 = Ok s -> hd_error spl = Some s.
Proof. destruct spl; simpl; intros H; [discriminate | now injection H as ->]. Qed.

(** A step of [init_ethertypes_mapping] adds no key but the first field of
    its line. *)
Lemma ethertypes_step_absent (host : byteorder) (g g' : Protos)
  (spl : list string) (k : string) :
  ethertypes_step host g spl = Ok g' ->
  hd_error spl <> Some k ->
  dict_get String.eqb (L3_PROTO_TO_ID g) k = None ->
  dict_get String.eqb (L3_PROTO_TO_ID g') k = None.
Proof.
  unfold ethertypes_step. destruct (skipped spl).
  - intros [= <-]. auto.
  - intros H Hhd Habs.
    apply bind_Ok in H as [s1 [_ H]]. apply bind_Ok in H as [n [_ H]].
    apply bind_Ok in H as [h [_ H]]. apply bind_Ok in H as [s0 [Hs0 H]].
    injection H as <-. simpl.
    rewrite (dict_get_set_other String.eqb String.eqb_eq); [exact Habs|].
    intros ->. apply Hhd. now apply field_0.
Qed.

Lemma init_ethertypes_absent (host : byteorder) (k : string) (file : lines) :
  forall g g',
  init_ethertypes_mapping host file g = Ok g' ->
  (forall spl, In spl file -> hd_error spl <> Some k) ->
  dict_get String.eqb (L3_PROTO_TO_ID g) k = None ->
  dict_get String.eqb (L3_PROTO_TO_ID g') k = None.
Proof.
  induction file as [|spl file IH]; simpl; intros g g' H Hfile Habs.
  - now injection H as <-.
  - apply bind_Ok in H as [g1 [Hstep H]].
    apply (IH g1 g' H).
    + intros spl' Hin. apply Hfile. now right.
    + apply (ethertypes_step_absent host g g1 spl k Hstep); [|exact Habs].
      apply Hfile. now left.
Qed.

(** Every identifier of the name table is a key of the reverse table. *)
Lemma ethertypes_step_reverse (host : byteorder) (g g' : Protos)
  (spl : list string) :
  ethertypes_step host g spl = Ok g' ->
  (forall k v, dict_get String.eqb (L3_PROTO_TO_ID g) k = Some v ->
               dict_get String.eqb (ID_TO_L3_PROTO g) v <> None) ->
  forall k v, dict_get String.eqb (L3_PROTO_TO_ID g') k = Some v ->
              dict_get String.eqb (ID_TO_L3_PROTO g') v <> None.
Proof.
  unfold ethertypes_step. destruct (skipped spl).
  - intros [= <-]. auto.
  - intros H Hinv k v.
    apply bind_Ok in H as [s1 [_ H]]. apply bind_Ok in H as [n [_ H]].
    apply bind_Ok in H as [h [_ H]]. apply bind_Ok in H as [s0 [Hs0 H]].
    injection H as <-. simpl.
    destruct (String.eqb_spec k s0) as [->|Hk].
    + rewrite (dict_get_set_same String.eqb String.eqb_eq). intros [= <-].
      now rewrite (dict_get_set_same String.eqb String.eqb_eq).
    + rewrite (dict_get_set_other String.eqb String.eqb_eq) by exact Hk.
      intros Hget. destruct (String.eqb_spec v (str h)) as [->|Hv].
      * now rewrite (dict_get_set_same String.eqb String.eqb_eq).
      * rewrite (dict_get_set_other String.eqb String.eqb_eq) by exact Hv.
        now apply (Hinv k).
Qed.

Lemma init_ethertypes_reverse (host : byteorder) (file : lines) :
  forall g g',
  init_ethertypes_mapping host file g = Ok g' ->
  (forall k v, dict_get String.eqb (L3_PROTO_TO_ID g) k = Some v ->
               dict_get String.eqb (ID_TO_L3_PROTO g) v <> None) ->
  forall k v, dict_get String.eqb (L3_PROTO_TO_ID g') k = Some v ->
              dict_get String.eqb (ID_TO_L3_PROTO g') v <> None.
Proof.
  induction file as [|spl file IH]; simpl; intros g g' H Hinv.
  - now injection H as <-.
  - apply bind_Ok in H as [g1 [Hstep H]].
    apply (IH g1 g' H). now apply (ethertypes_step_reverse host g g1 spl).
Qed.

(** [init_protocol_mapping] leaves the two ethertype tables alone. *)
Lemma init_protocol_l3 (file : lines) : forall g g',
  init_protocol_mapping file g = Ok g' ->
  L3_PROTO_TO_ID g' = L3_PROTO_TO_ID g /\ ID_TO_L3_PROTO g' = ID_TO_L3_PROTO g.
Proof.
  induction file as [|spl file IH]; simpl; intros g g' H.
  - now injection H as <-.
  - apply bind_Ok in H as [g1 [Hstep H]].
    destruct (IH g1 g' H) as [-> ->].
    unfold protocol_step in Hstep. destruct (skipped spl).
    + now injection Hstep as <-.
    + apply bind_Ok in Hstep as [s1 [_ Hstep]].
      apply bind_Ok in Hstep as [s2 [_ Hstep]].
      now injection Hstep as <-.
Qed.

Lemma build_opts_l3_raises (pk : string -> result (list byte)) (g : Protos)
  (self : IPFTracer) (e : exn) :
  build_l3_protocol_opt g (l3proto (self_args self)) = Raise e ->
  build_opts pk g self = Raise e.
Proof. unfold build_opts. now intros ->. Qed.

(** C5. When the filter value for l3proto is 4 or 6 and no line of the
    ethertypes file has that value as its first field (the file is keyed by
    names such as IPv4 and IPv6), the name table built from the file lacks
    the key, compiling the L3 option raises a KeyError, and start-up
    aborts: [main] raises, with that KeyError when the two files load. *)
Theorem l3_filter_aborts_startup
  (host : byteorder) (dedent : string -> string) (template : string)
  (IPv6Address_packed : string -> result (list byte))
  (kwargs : Args) (c : catalog) (ethertypes protocols : lines)
  (Hchoice : l3proto kwargs = "4" \/ l3proto kwargs = "6")
  (Hnames : forall spl, In spl ethertypes ->
                        hd_error spl <> Some (l3proto kwargs)) :
  (forall g0 g,
     init_ethertypes_mapping host ethertypes Protos_empty = Ok g0 ->
     init_protocol_mapping protocols g0 = Ok g ->
     dict_get String.eqb (L3_PROTO_TO_ID g) (l3proto kwargs) = None /\
     build_l3_protocol_opt g (l3proto kwargs) = Raise KeyError /\
     main host dedent template IPv6Address_packed kwargs c ethertypes protocols
       = Raise KeyError) /\
  raises (main host dedent template IPv6Address_packed kwargs c
            ethertypes protocols).
Proof.
  assert (Hmain : forall g0 g,
     init_ethertypes_mapping host ethertypes Protos_empty = Ok g0 ->
     init_protocol_mapping protocols g0 = Ok g ->
     dict_get String.eqb (L3_PROTO_TO_ID g) (l3proto kwargs) = None /\
     build_l3_protocol_opt g (l3proto kwargs) = Raise KeyError /\
     main host dedent template IPv6Address_packed kwargs c ethertypes protocols
       = Raise KeyError).
  { intros g0 g H0 H1.
    assert (Habs : dict_get String.eqb (L3_PROTO_TO_ID g) (l3proto kwargs) = None).
    { destruct (init_protocol_l3 protocols g0 g H1) as [-> _].
      now apply (init_ethertypes_absent host _ ethertypes Protos_empty g0). }
    assert (Hopt : build_l3_protocol_opt g (l3proto kwargs) = Raise KeyError).
    { unfold build_l3_protocol_opt, dict_lookup. rewrite Habs.
      destruct Hchoice as [-> | ->]; reflexivity. }
    split; [exact Habs|]. split; [exact Hopt|].
    unfold main. rewrite H0. simpl. rewrite H1. simpl. unfold run_tracing.
    pose proof (build_probes_spec dedent template
                  (IPFTracer_init dedent template kwargs c)) as (_ & _ & _ & Ha).
    destruct (IPFTracer_init_spec dedent template kwargs c) as (_ & _ & _ & Hk).
    rewrite Hk in Ha.
    destruct (build_probes dedent template _) as [text ift'].
    simpl in Ha.
    rewrite (build_opts_l3_raises IPv6Address_packed g ift' KeyError);
      [reflexivity | now rewrite Ha]. }
  split; [exact Hmain|].
  destruct (init_ethertypes_mapping host ethertypes Protos_empty) as [g0|e] eqn:H0.
  - destruct (init_protocol_mapping protocols g0) as [g|e] eqn:H1.
    + exists KeyError. now apply (Hmain g0 g).
    + exists e. unfold main. rewrite H0. simpl. now rewrite H1.
  - exists e. unfold main. now rewrite H0.
Qed.

(** ** The event decoder *)

(** At most four bytes load as a 32-bit value, in either byte order. *)
Lemma load_lt (host : byteorder) (bs : list byte) :
  (List.length bs <= 4)%nat -> load host bs < 4294967296.
Proof.
  intros H.
  destruct bs as [|a [|b [|c [|d [|e bs]]]]];
    [ | pose proof (Byte.to_N_bounded a)
      | pose proof (Byte.to_N_bounded a); pose proof (Byte.to_N_bounded b)
      | pose proof (Byte.to_N_bounded a); pose proof (Byte.to_N_bounded b);
        pose proof (Byte.to_N_bounded c)
      | pose proof (Byte.to_N_bounded a); pose proof (Byte.to_N_bounded b);
        pose proof (Byte.to_N_bounded c); pose proof (Byte.to_N_bounded d)
      | simpl in H; lia ];
    destruct host; cbv [load from_bytes_little from_bytes_big fold_left]; lia.
Qed.

Lemma decode_v4_ok (host : byteorder) (raw : N) :
  raw < 4294967296 ->
  decode_v4 host raw =
  Ok (IPv4Address (match host with
                   | LittleEndian => swap32 raw
                   | BigEndian => raw
                   end)).
Proof.
  intros H. unfold decode_v4, ntohl. apply N.ltb_lt in H. rewrite H. simpl.
  unfold IPv4Address_of_int.
  destruct host.
  - pose proof (swap32_lt raw) as Hs. apply N.ltb_lt in Hs. now rewrite Hs.
  - now rewrite H.
Qed.

Section DecoderFacts.
Variable host : byteorder.
Variable IPv6Address_str : list byte -> string.
Variable g : Protos.
Variable ift : IPFTracer.
Variable flows : FlowTable.
Variable event : EventData.t.

(** An event id at or beyond the end of the table leaves the callback as
    an IndexError, whatever else the event holds. *)
Lemma handle_event_bad_id :
  (List.length (id_to_ename ift) <= N.to_nat (EventData.event_id event))%nat ->
  handle_event host IPv6Address_str g ift flows event = Raise IndexError.
Proof.
  intros H. unfold handle_event, resolve_event_name.
  apply nth_error_None in H. now rewrite H.
Qed.

(** With both ethertypes configured and an event id the table answers, an
    event of any other ethertype is reported and dropped. *)
Lemma handle_event_unsupported_l3 (event_name id4 id6 : string) :
  resolve_event_name ift (EventData.event_id event) = Ok event_name ->
  dict_get String.eqb (L3_PROTO_TO_ID g) "IPv4" = Some id4 ->
  dict_get String.eqb (L3_PROTO_TO_ID g) "IPv6" = Some id6 ->
  str (EventData.l3_protocol event) <> id4 ->
  str (EventData.l3_protocol event) <> id6 ->
  handle_event host IPv6Address_str g ift flows event =
    Ok (flows, ["Unsupported l3 protocol " ++ str (EventData.l3_protocol event)]).
Proof.
  intros Hname H4 H6 Hn4 Hn6. unfold handle_event. rewrite Hname. simpl.
  unfold decode_addrs, dict_lookup. rewrite H4. simpl.
  apply String.eqb_neq in Hn4. rewrite Hn4, H6. simpl.
  apply String.eqb_neq in Hn6. now rewrite Hn6.
Qed.

(** An IPv4 event whose protocol number the protocol table lacks leaves the
    callback as a KeyError. *)
Lemma handle_event_l4_miss (event_name l3_name : string) :
  resolve_event_name ift (EventData.event_id event) = Ok event_name ->
  dict_get String.eqb (L3_PROTO_TO_ID g) "IPv4" =
    Some (str (EventData.l3_protocol event)) ->
  dict_get String.eqb (ID_TO_L3_PROTO g) (str (EventData.l3_protocol event)) =
    Some l3_name ->
  dict_get String.eqb (ID_TO_L4_PROTO g) (str (EventData.l4_protocol event)) =
    None ->
  handle_event host IPv6Address_str g ift flows event = Raise KeyError.
Proof.
  intros Hname H4 H3 Hl4. unfold handle_event. rewrite Hname. simpl.
  unfold decode_addrs, dict_lookup. rewrite H4. simpl.
  rewrite String.eqb_refl.
  unfold EventData.v4_saddr, EventData.v4_daddr.
  rewrite !decode_v4_ok by (apply load_lt, firstn_le_length).
  simpl. rewrite H3. simpl. now rewrite Hl4.
Qed.
End DecoderFacts.

(** The same for the tables [main] loads: the reverse ethertype table
    answers every identifier of the name table, so the lookup that fails is
    the one of the protocol number. *)
Lemma handle_event_l4_miss_loaded (host : byteorder)
  (IPv6Address_str : list byte -> string) (ethertypes protocols : lines)
  (g0 g : Protos) (ift : IPFTracer) (flows : FlowTable) (event : EventData.t)
  (event_name : string) :
  init_ethertypes_mapping host ethertypes Protos_empty = Ok g0 ->
  init_protocol_mapping protocols g0 = Ok g ->
  resolve_event_name ift (EventData.event_id event) = Ok event_name ->
  dict_get String.eqb (L3_PROTO_TO_ID g) "IPv4" =
    Some (str (EventData.l3_protocol event)) ->
  dict_get String.eqb (ID_TO_L4_PROTO g) (str (EventData.l4_protocol event)) =
    None ->
  handle_event host IPv6Address_str g ift flows event = Raise KeyError.
Proof.
  intros H0 H1 Hname H4 Hl4.
  destruct (init_protocol_l3 protocols g0 g H1) as [E3 E3'].
  assert (Hrev : dict_get String.eqb (ID_TO_L3_PROTO g)
                   (str (EventData.l3_protocol event)) <> None).
  { rewrite E3'. rewrite E3 in H4.
    apply (init_ethertypes_reverse host ethertypes Protos_empty g0 H0)
      with (k := "IPv4"); [|exact H4].
    intros k v Hk. discriminate. }
  destruct (dict_get String.eqb (ID_TO_L3_PROTO g)
              (str (EventData.l3_protocol event))) as [l3_name|] eqn:E;
    [|congruence].
  now apply (handle_event_l4_miss host IPv6Address_str g ift flows event
               event_name l3_name).
Qed.

(** [handle_event] writes to the flow table through [record] only. *)
Lemma handle_event_reachable (host : byteorder)
  (IPv6Address_str : list byte -> string) (g : Protos) (ift : IPFTracer)
  (flows flows' : FlowTable) (event : EventData.t) (out : list string) :
  reachable flows ->
  handle_event host IPv6Address_str g ift flows event = Ok (flows', out) ->
  reachable flows'.
Proof.
  intros Hr H. unfold handle_event in H.
  apply bind_Ok in H as [event_name [_ H]].
  apply bind_Ok in H as [[[saddr daddr]|] [_ H]].
  - apply bind_Ok in H as [l3 [_ H]]. apply bind_Ok in H as [l4 [_ H]].
    apply bind_Ok in H as [sp [_ H]]. apply bind_Ok in H as [dp [_ H]].
    injection H as <- _. now constructor.
  - now injection H as <- _.
Qed.

(** C2. On the tables of the sample files and the tracer of the sample
    catalog, as [main] sets them up on a little-endian host: an event whose
    id the table does not answer leaves [handle_event] as an IndexError, and
    an IPv4 event with protocol number 253, which the protocols file lacks,
    leaves it as a KeyError; neither prints a diagnostic. An ARP event, in
    contrast, is reported and dropped. *)
Theorem decode_failures_raise :
  main LittleEndian Py.dedent Sample.template Py.IPv6Address_packed
    Sample.kwargs Sample.fns Sample.ethertypes Sample.protocols =
  Ok {| globals := Sample.g; tracer := Sample.ift;
        bpf_text := probes Sample.ift;
        cflags := ["-D"; "L3_PROTOCOL_ANY"; "-D"; "L4_PROTOCOL_ANY";
                   "-D"; "SADDRV4_ANY"; "-D"; "DADDRV4_ANY";
                   "-D"; "SADDRV6_ANY"; "-D"; "DADDRV6_ANY";
                   "-D"; "SPORT_ANY"; "-D"; "DPORT_ANY"] |} /\
  List.length (id_to_ename Sample.ift) = 6%nat /\
  handle_event LittleEndian Py.IPv6Address_str Sample.g Sample.ift []
    Sample.ev_bad_id = Raise IndexError /\
  handle_event LittleEndian Py.IPv6Address_str Sample.g Sample.ift []
    Sample.ev_l4_miss = Raise KeyError /\
  handle_event LittleEndian Py.IPv6Address_str Sample.g Sample.ift []
    Sample.ev_arp = Ok ([], ["Unsupported l3 protocol 1544"]).
Proof.
  split; [vm_compute; reflexivity|].
  split; [vm_compute; reflexivity|].
  split; [vm_compute; reflexivity|].
  split; vm_compute; reflexivity.
Qed.

(** An event id below the number of functions resolves on the tracer
    [run_tracing] works with. *)
Lemma resolve_below (dedent : string -> string) (template : string)
  (kwargs : Args) (c : catalog) (eid : N) :
  (N.to_nat eid < List.length (flatten c))%nat ->
  exists event_name,
    resolve_event_name
      (snd (build_probes dedent template
              (IPFTracer_init dedent template kwargs c))) eid = Ok event_name.
Proof.
  intros Hid. unfold resolve_event_name.
  destruct (build_probes_again dedent template kwargs c) as [_ Ht].
  destruct (IPFTracer_init_spec dedent template kwargs c) as (_ & Hn & _).
  cbv zeta in Ht. rewrite Ht, Hn.
  destruct (nth_error _ _) as [n|] eqn:E; [eauto|].
  apply nth_error_None in E. rewrite length_app, length_map in E. lia.
Qed.

(** C6. On the tracer [main] hands to [run_tracing], for every event a stub
    can send (the stubs carry the ids 0, ..., N-1 of the N functions of the
    catalog) and with both ethertypes configured: an event whose L3
    identifier is neither the one of IPv4 nor the one of IPv6 is dropped.
    [handle_event] returns, it prints the diagnostic, and the flow table it
    returns is the table it was given, whatever that table holds. *)
Theorem unsupported_l3_is_dropped (host : byteorder)
  (dedent : string -> string) (template : string)
  (IPv6Address_str : list byte -> string)
  (kwargs : Args) (c : catalog) (g : Protos) (flows : FlowTable)
  (event : EventData.t) (id4 id6 : string)
  (Hid : (N.to_nat (EventData.event_id event) < List.length (flatten c))%nat)
  (Hv4 : dict_get String.eqb (L3_PROTO_TO_ID g) "IPv4" = Some id4)
  (Hv6 : dict_get String.eqb (L3_PROTO_TO_ID g) "IPv6" = Some id6)
  (Hn4 : str (EventData.l3_protocol event) <> id4)
  (Hn6 : str (EventData.l3_protocol event) <> id6) :
  handle_event host IPv6Address_str g
    (snd (build_probes dedent template
            (IPFTracer_init dedent template kwargs c))) flows event =
  Ok (flows, ["Unsupported l3 protocol " ++ str (EventData.l3_protocol event)]).
Proof.
  destruct (resolve_below dedent template kwargs c _ Hid) as [event_name Hname].
  eapply handle_event_unsupported_l3; eassumption.
Qed.

(** ** Addresses *)

Lemma split_nonempty (c : ascii) (s : string) : split c s <> [].
Proof.
  destruct s as [|a s]; simpl; [discriminate|].
  destruct (Ascii.eqb a c); [discriminate|].
  destruct (split c s); discriminate.
Qed.

Lemma join_cons (sep s : string) (l : list string) :
  l <> [] -> join sep (s :: l) = s ++ sep ++ join sep l.
Proof. destruct l; [congruence | reflexivity]. Qed.

Lemma join_split (c : ascii) (s : string) :
  join (String c EmptyString) (split c s) = s.
Proof.
  induction s as [|a s IH]; simpl; [reflexivity|].
  destruct (Ascii.eqb_spec a c) as [->|Hne].
  - rewrite join_cons by apply split_nonempty. simpl. now rewrite IH.
  - pose proof (split_nonempty c s) as Hs.
    destruct (split c s) as [|w ws]; [congruence|].
    destruct ws as [|w' ws]; simpl in *; now rewrite <- IH.
Qed.

(** A string without the separator splits into itself; one that starts
    with such a string and the separator splits after it. *)
Lemma split_none (c : ascii) (s : string) :
  Py.has_char c s = false -> split c s = [s].
Proof.
  induction s as [|a s IH]; simpl; [reflexivity|].
  intros H. apply orb_false_iff in H as [Ha Hs].
  rewrite Ha, IH by exact Hs. reflexivity.
Qed.

Lemma split_app (c : ascii) (s rest : string) :
  Py.has_char c s = false ->
  split c (s ++ String c rest) = s :: split c rest.
Proof.
  induction s as [|a s IH]; simpl; intros H.
  - now rewrite Ascii.eqb_refl.
  - apply orb_false_iff in H as [Ha Hs].
    rewrite Ha, IH by exact Hs. reflexivity.
Qed.

Lemma str_byte_no_comma (b : byte) : Py.has_char "," (str_byte b) = false.
Proof. destruct b; reflexivity. Qed.

Lemma read_byte_str (b : byte) : read_byte (str_byte b) = Some b.
Proof. destruct b; reflexivity. Qed.

Lemma split_join_bytes (p : list byte) :
  p <> [] -> split "," (join "," (map str_byte p)) = map str_byte p.
Proof.
  induction p as [|b p IH]; [congruence|]. intros _.
  destruct p as [|b' p].
  - simpl. apply split_none, str_byte_no_comma.
  - change (map str_byte (b :: b' :: p))
      with (str_byte b :: map str_byte (b' :: p)).
    rewrite join_cons by discriminate.
    change ("," ++ join "," (map str_byte (b' :: p)))
      with (String "," (join "," (map str_byte (b' :: p)))).
    rewrite split_app by apply str_byte_no_comma.
    now rewrite IH.
Qed.

Lemma read_bytes_of_str (p : list byte) :
  read_bytes_of (map str_byte p) = Some p.
Proof.
  induction p as [|b p IH]; simpl; [reflexivity|].
  now rewrite read_byte_str, IH.
Qed.

Lemma read_bytes_join (p : list byte) :
  p <> [] -> read_bytes (join "," (map str_byte p)) = Some p.
Proof.
  intros H. unfold read_bytes. rewrite split_join_bytes by exact H.
  apply read_bytes_of_str.
Qed.

(** An octet the library accepts is written the way [str] writes it. *)
Lemma parse_octet_canonical (s : string) (n : N) :
  parse_octet s = Some n -> str n = s /\ n < 256.
Proof.
  unfold parse_octet. destruct s as [|c s']; [discriminate|].
  destruct (NilEmpty.uint_of_string (String c s')) as [d|] eqn:E; [|discriminate].
  destruct (3 <? _)%nat; [discriminate|].
  destruct (Ascii.eqb c "0" && negb (String.eqb (String c s') "0")) eqn:Z;
    [discriminate|].
  destruct (255 <? N.of_uint d) eqn:L; [discriminate|].
  intros [= <-]. apply N.ltb_ge in L. split; [|lia].
  unfold str. rewrite DecimalN.Unsigned.to_of.
  pose proof (NilEmpty.sus _ _ E) as Hs.
  destruct d; simpl in Hs; try discriminate; try (simpl; exact Hs).
  injection Hs as Hc Hs. subst c.
  destruct s'; [|simpl in Z; discriminate].
  destruct d; simpl in Hs; try discriminate. reflexivity.
Qed.

Lemma byte_split_r (a y : N) : a < 256 ->
  (256 * y + a) mod 256 = a /\ (256 * y + a) / 256 = y.
Proof. intros H. divmod. Qed.

(** The bytes of the integer four octets make up are these octets. *)
Lemma packed4_octets (n0 n1 n2 n3 : N) :
  n0 < 256 -> n1 < 256 -> n2 < 256 -> n3 < 256 ->
  let ip := fold_left (fun acc n => 256 * acc + n) [n0; n1; n2; n3] 0 in
  ip < 4294967296 /\
  map Byte.to_N (packed4 ip) = [n0; n1; n2; n3].
Proof.
  intros H0 H1 H2 H3 ip. subst ip. cbv [fold_left].
  rewrite N.mul_0_r, N.add_0_l.
  set (x2 := 256 * n0 + n1). set (x1 := 256 * x2 + n2). set (x := 256 * x1 + n3).
  split; [subst x x1 x2; lia|].
  unfold packed4. cbv [map]. rewrite !to_N_byte_of_N, !N.shiftr_div_pow2.
  change (2 ^ 8) with 256. change (2 ^ 16) with (256 * 256).
  change (2 ^ 24) with (256 * 256 * 256).
  rewrite <- !N.Div0.div_div.
  assert (E3 : x mod 256 = n3) by apply (byte_split_r n3 x1 H3).
  assert (D3 : x / 256 = x1) by apply (byte_split_r n3 x1 H3).
  assert (E2 : x1 mod 256 = n2) by apply (byte_split_r n2 x2 H2).
  assert (D2 : x1 / 256 = x2) by apply (byte_split_r n2 x2 H2).
  assert (E1 : x2 mod 256 = n1) by apply (byte_split_r n1 n0 H1).
  assert (D1 : x2 / 256 = n0) by apply (byte_split_r n1 n0 H1).
  rewrite D3, D2, D1, E3, E2, E1, (N.mod_small n0) by exact H0.
  reflexivity.
Qed.

Lemma str_byte_of_N (n : N) : n < 256 -> str_byte (byte_of_N n) = str n.
Proof.
  intros H. unfold str_byte. now rewrite to_N_byte_of_N, N.mod_small.
Qed.

Lemma Ok_inj {A : Type} (a b : A) : Ok a = Ok b -> a = b.
Proof. congruence. Qed.

(** What [IPv4Address_of_str] accepts: four canonical octets joined by
    dots, which are the bytes of the integer it returns. *)
Lemma IPv4Address_of_str_spec (a : string) (ip : N) :
  IPv4Address_of_str a = Ok ip ->
  ip < 4294967296 /\ IPv4Address_str ip = a.
Proof.
  unfold IPv4Address_of_str.
  pose proof (join_split "." a) as Hjs.
  destruct (split "." a) as [|s0 [|s1 [|s2 [|s3 [|s4 l]]]]]; try discriminate.
  unfold parse_octets.
  destruct (parse_octet s0) as [n0|] eqn:E0; [|discriminate].
  destruct (parse_octet s1) as [n1|] eqn:E1; [|discriminate].
  destruct (parse_octet s2) as [n2|] eqn:E2; [|discriminate].
  destruct (parse_octet s3) as [n3|] eqn:E3; [|discriminate].
  intros H. apply Ok_inj in H. subst ip.
  apply parse_octet_canonical in E0 as [S0 B0], E1 as [S1 B1],
    E2 as [S2 B2], E3 as [S3 B3].
  destruct (packed4_octets n0 n1 n2 n3 B0 B1 B2 B3) as [Hlt Hbytes].
  split; [exact Hlt|].
  unfold IPv4Address_str.
  match goal with
  | |- context [map str_byte ?p] =>
      replace (map str_byte p) with (map str (map Byte.to_N p))
        by (rewrite map_map; reflexivity)
  end.
  rewrite Hbytes. simpl map. now rewrite S0, S1, S2, S3.
Qed.

(** X22. On a little-endian host, for every IPv4 address the library
    accepts: the filter compiler emits the decimal form of the packed bytes
    loaded as a little-endian integer, and the decoder, given that integer
    as the raw 32-bit field, converts it from network to host order into the
    very address, whose dotted-decimal text is the original one. *)
Theorem ipv4_round_trip_little_endian
  (IPv6Address_str : list byte -> string) (a : string) (ip : N)
  (Ha : IPv4Address_of_str a = Ok ip) :
  exists raw,
    raw = from_bytes_little (packed4 ip) /\
    inet_addr4 a = Ok (str raw) /\
    decode_v4 LittleEndian raw = Ok (IPv4Address ip) /\
    ipaddr_str IPv6Address_str (IPv4Address ip) = a.
Proof.
  destruct (IPv4Address_of_str_spec a ip Ha) as [Hlt Htext].
  exists (from_bytes_little (packed4 ip)). split; [reflexivity|]. split.
  - unfold inet_addr4. now rewrite Ha.
  - split; [|exact Htext].
    rewrite decode_v4_ok.
    + now rewrite swap32_packed4.
    + apply (load_lt LittleEndian). reflexivity.
Qed.

(** ** The statements at sample inputs *)

(** The round trip of 10.0.0.1 on a little-endian host. *)
Lemma ipv4_round_trip_little_endian_witness :
  IPv4Address_of_str "10.0.0.1" = Ok 167772161 /\
  exists raw,
    raw = from_bytes_little (packed4 167772161) /\
    inet_addr4 "10.0.0.1" = Ok (str raw) /\
    decode_v4 LittleEndian raw = Ok (IPv4Address 167772161) /\
    ipaddr_str Py.IPv6Address_str (IPv4Address 167772161) = "10.0.0.1".
Proof.
  split; [reflexivity|].
  apply (ipv4_round_trip_little_endian Py.IPv6Address_str "10.0.0.1" 167772161).
  reflexivity.
Defined.

(** A text that is not in the standard form is not reproduced:
    0:0:0:0:0:0:0:1 is encoded as fifteen zeros and a one, which decode as
    ::1. *)
Lemma ipv6_text_not_reproduced :
  Py.IPv6Address_packed "0:0:0:0:0:0:0:1" = Ok Sample.loopback6 /\
  inet_addr6 Py.IPv6Address_packed "0:0:0:0:0:0:0:1" =
    Ok "0,0,0,0,0,0,0,0,0,0,0,0,0,0,0,1" /\
  read_bytes "0,0,0,0,0,0,0,0,0,0,0,0,0,0,0,1" = Some Sample.loopback6 /\
  ipaddr_str Py.IPv6Address_str (IPv6Address Sample.loopback6) = "::1" /\
  "::1" <> "0:0:0:0:0:0:0:1" /\
  is_standard6 "0:0:0:0:0:0:0:1" = false.
Proof. repeat split; try (vm_compute; reflexivity). discriminate. Qed.

(** With the sample files, [--l3proto 4] aborts start-up. *)
Lemma l3_filter_aborts_startup_witness :
  raises (main LittleEndian Py.dedent Sample.template Py.IPv6Address_packed
            (Sample.kwargs_l3 "4") Sample.fns Sample.ethertypes
            Sample.protocols).
Proof.
  apply (l3_filter_aborts_startup LittleEndian Py.dedent Sample.template
           Py.IPv6Address_packed (Sample.kwargs_l3 "4") Sample.fns
           Sample.ethertypes Sample.protocols).
  - left. reflexivity.
  - intros spl [<-|[<-|[<-|[<-|[<-|[]]]]]]; discriminate.
Defined.

(** A flow seen in [ip_rcv], then twice in [tcp_v4_rcv]. *)
Lemma record_idempotent_witness :
  reachable (record [] Sample.flow_tcp "ip_rcv") /\
  record (record (record [] Sample.flow_tcp "ip_rcv") Sample.flow_tcp "tcp_v4_rcv")
    Sample.flow_tcp "tcp_v4_rcv" =
  [(Sample.flow_tcp, ["ip_rcv"; "tcp_v4_rcv"])].
Proof.
  assert (H : reachable (record [] Sample.flow_tcp "ip_rcv"))
    by (constructor; constructor).
  split; [exact H|].
  destruct (record_idempotent _ Sample.flow_tcp "tcp_v4_rcv" H) as [E _].
  rewrite E. reflexivity.
Defined.

(** An ARP frame seen in [ip_rcv] while the table holds the sample flow. *)
Lemma unsupported_l3_is_dropped_witness :
  handle_event LittleEndian Py.IPv6Address_str Sample.g Sample.ift
    [(Sample.flow_tcp, ["ip_rcv"])] Sample.ev_arp =
  Ok ([(Sample.flow_tcp, ["ip_rcv"])], ["Unsupported l3 protocol 1544"]).
Proof.
  apply (unsupported_l3_is_dropped LittleEndian Py.dedent Sample.template
           Py.IPv6Address_str Sample.kwargs Sample.fns Sample.g
           [(Sample.flow_tcp, ["ip_rcv"])] Sample.ev_arp "8" "56710").
  - vm_compute. lia.
  - reflexivity.
  - reflexivity.
  - vm_compute. discriminate.
  - vm_compute. discriminate.
Defined.

(** * Further properties *)

(** ** Fields in network order, on either host *)

Lemma to_N_lt (b : byte) : Byte.to_N b < 256.
Proof. pose proof (Byte.to_N_bounded b). lia. Qed.

Lemma swap16_bytes (hi lo : N) : hi < 256 -> lo < 256 ->
  swap16 (256 * hi + lo) = 256 * lo + hi.
Proof.
  intros Hhi Hlo. rewrite swap16_spec.
  destruct (byte_split_r lo hi Hlo) as [-> ->].
  rewrite (N.mod_small hi) by exact Hhi. lia.
Qed.

(** The two bytes of a 16-bit field in network order, the value ctypes
    reads and the conversions of [socket]. *)
Lemma load_16 (host : byteorder) (hi lo : byte) :
  htons host (Z.of_N (from_bytes_big [hi; lo])) = Ok (load host [hi; lo]) /\
  ntohs host (load host [hi; lo]) = Ok (from_bytes_big [hi; lo]) /\
  from_bytes_big [hi; lo] = 256 * Byte.to_N hi + Byte.to_N lo.
Proof.
  pose proof (to_N_lt hi) as Hhi. pose proof (to_N_lt lo) as Hlo.
  assert (Hbig : from_bytes_big [hi; lo] = 256 * Byte.to_N hi + Byte.to_N lo).
  { cbv [from_bytes_big fold_left]. lia. }
  assert (Hlittle : from_bytes_little [hi; lo] = 256 * Byte.to_N lo + Byte.to_N hi).
  { cbv [from_bytes_little]. lia. }
  assert (Hr : forall x : N, x < 65536 ->
                 ((0 <=? Z.of_N x) && (Z.of_N x <? 65536))%Z = true).
  { intros x Hx. apply andb_true_intro. split; [apply Z.leb_le | apply Z.ltb_lt]; lia. }
  split; [|split; [|exact Hbig]].
  - unfold htons. rewrite Hr by lia. rewrite N2Z.id.
    destruct host; unfold load; [|reflexivity].
    now rewrite Hbig, Hlittle, swap16_bytes.
  - unfold ntohs, htons. destruct host; unfold load.
    + rewrite Hr by lia. rewrite N2Z.id.
      now rewrite Hbig, Hlittle, swap16_bytes.
    + rewrite Hr by lia. now rewrite N2Z.id.
Qed.

(** X1. A 16-bit field that holds the bytes hi, lo in network order is read
    by ctypes, on either host, as the value [socket.htons] gives for the
    number 256*hi + lo, and [socket.ntohs] brings what ctypes reads back to
    that number. So the identifier [init_ethertypes_mapping] stores for an
    ethertype is the value of [event.l3_protocol] for frames of that
    ethertype, and the ports of a flow are the port numbers of the packet. *)
Theorem network_order_16 (host : byteorder) (hi lo : byte) :
  htons host (Z.of_N (from_bytes_big [hi; lo])) = Ok (load host [hi; lo]) /\
  ntohs host (load host [hi; lo]) = Ok (from_bytes_big [hi; lo]) /\
  from_bytes_big [hi; lo] = 256 * Byte.to_N hi + Byte.to_N lo.
Proof. apply load_16. Qed.

Lemma swap32_bytes (b0 b1 b2 b3 : N) :
  b0 < 256 -> b1 < 256 -> b2 < 256 -> b3 < 256 ->
  swap32 (b0 + 256 * (b1 + 256 * (b2 + 256 * b3))) =
  256 * (256 * (256 * b0 + b1) + b2) + b3.
Proof.
  intros H0 H1 H2 H3. rewrite swap32_spec.
  set (x := b0 + 256 * (b1 + 256 * (b2 + 256 * b3))).
  assert (E0 : x mod 256 = b0) by apply (byte_split b0 _ H0).
  assert (D0 : x / 256 = b1 + 256 * (b2 + 256 * b3)) by apply (byte_split b0 _ H0).
  assert (E1 : x / 256 mod 256 = b1) by (rewrite D0; apply (byte_split b1 _ H1)).
  assert (D1 : x / 65536 = b2 + 256 * b3).
  { change 65536 with (256 * 256). rewrite <- N.Div0.div_div, D0.
    apply (byte_split b1 _ H1). }
  assert (E2 : x / 65536 mod 256 = b2) by (rewrite D1; apply (byte_split b2 _ H2)).
  assert (D2 : x / 16777216 = b3).
  { change 16777216 with (65536 * 256). rewrite <- N.Div0.div_div, D1.
    apply (byte_split b2 _ H2). }
  rewrite E0, E1, E2, D2, (N.mod_small b3) by exact H3. lia.
Qed.

Lemma to_N_inj (a b : byte) : Byte.to_N a = Byte.to_N b -> a = b.
Proof.
  intros H. pose proof (Byte.of_to_N a) as Ha. rewrite H, Byte.of_to_N in Ha.
  congruence.
Qed.

Lemma map_to_N_inj (l l' : list byte) :
  map Byte.to_N l = map Byte.to_N l' -> l = l'.
Proof.
  revert l'. induction l as [|a l IH]; intros [|b l'] H; try discriminate.
  - reflexivity.
  - simpl in H. injection H as Hab Hl. f_equal; [now apply to_N_inj | now apply IH].
Qed.

(** The packed form of the address four bytes in network order denote is
    these four bytes. *)
Lemma packed4_from_bytes_big (b0 b1 b2 b3 : byte) :
  from_bytes_big [b0; b1; b2; b3] < 4294967296 /\
  packed4 (from_bytes_big [b0; b1; b2; b3]) = [b0; b1; b2; b3].
Proof.
  destruct (packed4_octets (Byte.to_N b0) (Byte.to_N b1) (Byte.to_N b2)
              (Byte.to_N b3) (to_N_lt b0) (to_N_lt b1) (to_N_lt b2) (to_N_lt b3))
    as [Hlt Hb].
  split; [exact Hlt|]. apply map_to_N_inj. exact Hb.
Qed.

(** The decoder on the value ctypes reads from four bytes in network
    order. *)
Lemma decode_v4_load (host : byteorder)
  (IPv6Address_str : list byte -> string) (b0 b1 b2 b3 : byte) :
  exists ip,
    decode_v4 host (load host [b0; b1; b2; b3]) = Ok (IPv4Address ip) /\
    packed4 ip = [b0; b1; b2; b3] /\
    ipaddr_str IPv6Address_str (IPv4Address ip) =
      str_byte b0 ++ "." ++ str_byte b1 ++ "." ++ str_byte b2 ++ "." ++
      str_byte b3.
Proof.
  destruct (packed4_from_bytes_big b0 b1 b2 b3) as [Hlt Hp].
  exists (from_bytes_big [b0; b1; b2; b3]). split.
  - rewrite decode_v4_ok by (apply load_lt; simpl; lia).
    destruct host; unfold load; [|reflexivity].
    f_equal. f_equal. cbv [from_bytes_little from_bytes_big fold_left].
    rewrite N.mul_0_r, N.add_0_r, N.add_0_l.
    apply swap32_bytes; apply to_N_lt.
  - split; [exact Hp|]. simpl. unfold IPv4Address_str. rewrite Hp. reflexivity.
Qed.

(** X2. On either host, the decoder turns a 32-bit field that holds the
    bytes b0, b1, b2, b3 in network order into the address b0.b1.b2.b3: the
    byte order in which ctypes reads the field and [socket.ntohl] cancel. *)
Theorem decode_v4_any_host (host : byteorder)
  (IPv6Address_str : list byte -> string) (b0 b1 b2 b3 : byte) :
  exists ip,
    decode_v4 host (load host [b0; b1; b2; b3]) = Ok (IPv4Address ip) /\
    packed4 ip = [b0; b1; b2; b3] /\
    ipaddr_str IPv6Address_str (IPv4Address ip) =
      str_byte b0 ++ "." ++ str_byte b1 ++ "." ++ str_byte b2 ++ "." ++
      str_byte b3.
Proof. apply decode_v4_load. Qed.

(** The two byte orders read the same number from four bytes only when the
    bytes read the same in both directions. *)
Lemma load_orders_agree (b0 b1 b2 b3 : byte) :
  load LittleEndian [b0; b1; b2; b3] = load BigEndian [b0; b1; b2; b3] <->
  b0 = b3 /\ b1 = b2.
Proof.
  cbv [load from_bytes_little from_bytes_big fold_left].
  pose proof (to_N_lt b0). pose proof (to_N_lt b1).
  pose proof (to_N_lt b2). pose proof (to_N_lt b3).
  split.
  - intros H3. split; apply to_N_inj; lia.
  - intros [-> ->]. lia.
Qed.

(** C3. The round trip of an IPv4 address through the filter compiler and
    the decoder fails on a big-endian host. [inet_addr4] emits the packed
    bytes loaded as a little-endian integer on every host, while the
    decoder recovers the address from the field as the host reads it, on
    either host, and the two byte orders agree on palindromes only. For
    10.0.0.1 the filter constant is 16777226; a big-endian host reads
    167772161 from the bytes of the packet, and decodes the filter constant
    as 1.0.0.10. *)
Theorem ipv4_filter_constant_not_host_order :
  (forall a ip,
     IPv4Address_of_str a = Ok ip ->
     inet_addr4 a = Ok (str (load LittleEndian (packed4 ip)))) /\
  (forall host b0 b1 b2 b3,
     exists ip,
       decode_v4 host (load host [b0; b1; b2; b3]) = Ok (IPv4Address ip) /\
       packed4 ip = [b0; b1; b2; b3]) /\
  (forall b0 b1 b2 b3,
     load LittleEndian [b0; b1; b2; b3] = load BigEndian [b0; b1; b2; b3] <->
     b0 = b3 /\ b1 = b2) /\
  IPv4Address_of_str "10.0.0.1" = Ok 167772161 /\
  packed4 167772161 = [x0a; x00; x00; x01] /\
  inet_addr4 "10.0.0.1" = Ok "16777226" /\
  load BigEndian [x0a; x00; x00; x01] = 167772161 /\
  decode_v4 BigEndian 16777226 = Ok (IPv4Address 16777226) /\
  ipaddr_str Py.IPv6Address_str (IPv4Address 16777226) = "1.0.0.10".
Proof.
  split; [intros a ip Ha; unfold inet_addr4; now rewrite Ha|].
  split.
  { intros host b0 b1 b2 b3.
    destruct (decode_v4_load host Py.IPv6Address_str b0 b1 b2 b3)
      as (ip & Hd & Hp & _).
    exists ip. now split. }
  split; [apply load_orders_agree|].
  repeat split; vm_compute; reflexivity.
Qed.

(** ** Loading the name tables *)

Lemma string_get_set (d : dict string string) (k k' v : string) :
  dict_get String.eqb (dict_set String.eqb d k' v) k =
  if String.eqb k k' then Some v else dict_get String.eqb d k.
Proof.
  destruct (String.eqb_spec k k') as [->|Hne].
  - apply (dict_get_set_same String.eqb String.eqb_eq).
  - now apply (dict_get_set_other String.eqb String.eqb_eq).
Qed.

Lemma field_nth (spl : list string) (i : nat) (s : string) :
  field spl i = Ok s <-> nth_error spl i = Some s.
Proof.
  unfold field. destruct (nth_error spl i); split; congruence.
Qed.

(** What a step of [init_protocol_mapping] that returns has done. *)
Lemma protocol_step_Ok (g g1 : Protos) (spl : list string) :
  protocol_step g spl = Ok g1 ->
  (protocol_binding spl = None /\ g1 = g) \/
  (exists s2 s1,
     protocol_binding spl = Some (s2, s1) /\
     g1 = {| L3_PROTO_TO_ID := L3_PROTO_TO_ID g;
             ID_TO_L3_PROTO := ID_TO_L3_PROTO g;
             L4_PROTO_TO_ID := dict_set String.eqb (L4_PROTO_TO_ID g) s2 s1;
             ID_TO_L4_PROTO := dict_set String.eqb (ID_TO_L4_PROTO g) s1 s2 |}).
Proof.
  unfold protocol_step, protocol_binding. destruct (skipped spl).
  - intros [= <-]. now left.
  - intros H. apply bind_Ok in H as [s1 [H1 H]].
    apply bind_Ok in H as [s2 [H2 H]]. injection H as <-.
    apply field_nth in H1, H2. rewrite H1, H2. right. now exists s2, s1.
Qed.

(** The tables [init_protocol_mapping] leaves, by the bindings of the file. *)
Lemma init_protocol_content (file : lines) (g g' : Protos)
  (Hload : init_protocol_mapping file g = Ok g') :
  (forall k,
     dict_get String.eqb (L4_PROTO_TO_ID g') k =
     match assoc_last (bindings protocol_binding file) k with
     | Some v => Some v
     | None => dict_get String.eqb (L4_PROTO_TO_ID g) k
     end) /\
  (forall k,
     dict_get String.eqb (ID_TO_L4_PROTO g') k =
     match assoc_last (map swap_pair (bindings protocol_binding file)) k with
     | Some v => Some v
     | None => dict_get String.eqb (ID_TO_L4_PROTO g) k
     end) /\
  L3_PROTO_TO_ID g' = L3_PROTO_TO_ID g /\
  ID_TO_L3_PROTO g' = ID_TO_L3_PROTO g.
Proof.
  revert g g' Hload. induction file as [|spl file IH]; simpl; intros g g' H.
  - injection H as <-. repeat split.
  - apply bind_Ok in H as [g1 [Hstep H]].
    destruct (IH g1 g' H) as (I1 & I2 & I3 & I4).
    unfold bindings. simpl flat_map. fold (bindings protocol_binding file).
    destruct (protocol_step_Ok g g1 spl Hstep)
      as [[-> ->]|(s2 & s1 & -> & ->)]; simpl in *.
    + repeat split; assumption.
    + repeat split; try assumption; intros k;
        [rewrite I1 | rewrite I2];
        destruct (assoc_last _ k); try reflexivity;
        simpl; rewrite string_get_set; destruct (String.eqb k _); reflexivity.
Qed.

(** X3. When [init_protocol_mapping] returns, the name table holds for
    every name the number of the last line of the file that binds this name
    (its third field; the number is its second field), the reverse table
    holds for every number the name of the last line with that number, what
    the tables held for other keys is kept, and the ethertype tables are
    left alone. Skipped lines bind nothing. *)
Theorem init_protocol_mapping_last_wins (file : lines) (g g' : Protos)
  (Hload : init_protocol_mapping file g = Ok g') :
  (forall k,
     dict_get String.eqb (L4_PROTO_TO_ID g') k =
     match assoc_last (bindings protocol_binding file) k with
     | Some v => Some v
     | None => dict_get String.eqb (L4_PROTO_TO_ID g) k
     end) /\
  (forall k,
     dict_get String.eqb (ID_TO_L4_PROTO g') k =
     match assoc_last (map swap_pair (bindings protocol_binding file)) k with
     | Some v => Some v
     | None => dict_get String.eqb (ID_TO_L4_PROTO g) k
     end) /\
  L3_PROTO_TO_ID g' = L3_PROTO_TO_ID g /\
  ID_TO_L3_PROTO g' = ID_TO_L3_PROTO g.
Proof. now apply init_protocol_content. Qed.

Lemma protocol_step_result (g : Protos) (spl : list string) :
  (protocol_line_ok spl = true /\ exists g1, protocol_step g spl = Ok g1) \/
  (protocol_line_ok spl = false /\ protocol_step g spl = Raise IndexError).
Proof.
  unfold protocol_line_ok, protocol_step, field.
  destruct (skipped spl); simpl; [left; eauto|].
  destruct spl as [|a [|b [|c spl]]]; simpl; try (right; now split).
  left. eauto.
Qed.

Lemma init_protocol_cases (file : lines) (g : Protos) :
  (forallb protocol_line_ok file = true <->
   exists g', init_protocol_mapping file g = Ok g') /\
  (forallb protocol_line_ok file = false <->
   init_protocol_mapping file g = Raise IndexError).
Proof.
  revert g. induction file as [|spl file IH]; intros g; simpl.
  - split; split; intros H; try discriminate; eauto.
  - destruct (protocol_step_result g spl) as [[-> [g1 ->]]|[-> ->]]; simpl.
    + apply IH.
    + split; split; intros H; try discriminate; try reflexivity.
      destruct H as [g' H]. discriminate.
Qed.

(** X4. [init_protocol_mapping] returns exactly when every line of the file
    is skipped (no field, or a first field that is the sign # alone) or has
    three fields at least; otherwise it raises an IndexError. *)
Theorem init_protocol_mapping_result (file : lines) (g : Protos) :
  (forallb protocol_line_ok file = true <->
   exists g', init_protocol_mapping file g = Ok g') /\
  (forallb protocol_line_ok file = false <->
   init_protocol_mapping file g = Raise IndexError).
Proof. apply init_protocol_cases. Qed.

(** What a step of [init_ethertypes_mapping] that returns has done. *)
Lemma ethertypes_step_Ok (host : byteorder) (g g1 : Protos) (spl : list string) :
  ethertypes_step host g spl = Ok g1 ->
  (ethertype_binding host spl = None /\ g1 = g) \/
  (exists s0 ident,
     ethertype_binding host spl = Some (s0, ident) /\
     g1 = {| L3_PROTO_TO_ID := dict_set String.eqb (L3_PROTO_TO_ID g) s0 ident;
             ID_TO_L3_PROTO := dict_set String.eqb (ID_TO_L3_PROTO g) ident s0;
             L4_PROTO_TO_ID := L4_PROTO_TO_ID g;
             ID_TO_L4_PROTO := ID_TO_L4_PROTO g |}).
Proof.
  unfold ethertypes_step, ethertype_binding. destruct (skipped spl).
  - intros [= <-]. now left.
  - intros H. apply bind_Ok in H as [s1 [H1 H]].
    apply bind_Ok in H as [z [Hz H]]. apply bind_Ok in H as [h [Hh H]].
    apply bind_Ok in H as [s0 [H0 H]]. injection H as <-.
    apply field_nth in H0, H1. rewrite H0, H1, Hz, Hh.
    right. now exists s0, (str h).
Qed.

(** The tables [init_ethertypes_mapping] leaves, by the bindings of the file. *)
Lemma init_ethertypes_content (host : byteorder) (file : lines)
  (g g' : Protos) (Hload : init_ethertypes_mapping host file g = Ok g') :
  (forall k,
     dict_get String.eqb (L3_PROTO_TO_ID g') k =
     match assoc_last (bindings (ethertype_binding host) file) k with
     | Some v => Some v
     | None => dict_get String.eqb (L3_PROTO_TO_ID g) k
     end) /\
  (forall k,
     dict_get String.eqb (ID_TO_L3_PROTO g') k =
     match assoc_last (map swap_pair (bindings (ethertype_binding host) file)) k with
     | Some v => Some v
     | None => dict_get String.eqb (ID_TO_L3_PROTO g) k
     end) /\
  L4_PROTO_TO_ID g' = L4_PROTO_TO_ID g /\
  ID_TO_L4_PROTO g' = ID_TO_L4_PROTO g.
Proof.
  revert g g' Hload. induction file as [|spl file IH]; simpl; intros g g' H.
  - injection H as <-. repeat split.
  - apply bind_Ok in H as [g1 [Hstep H]].
    destruct (IH g1 g' H) as (I1 & I2 & I3 & I4).
    unfold bindings. simpl flat_map. fold (bindings (ethertype_binding host) file).
    destruct (ethertypes_step_Ok host g g1 spl Hstep)
      as [[-> ->]|(s0 & ident & -> & ->)]; simpl in *.
    + repeat split; assumption.
    + repeat split; try assumption; intros k;
        [rewrite I1 | rewrite I2];
        destruct (assoc_last _ k); try reflexivity;
        simpl; rewrite string_get_set; destruct (String.eqb k _); reflexivity.
Qed.

(** X5. When [init_ethertypes_mapping] returns, the name table holds for
    every ethertype name the identifier of the last line of the file that
    binds this name (its first field; the identifier is the decimal form of
    its second field read as a hexadecimal number and passed through
    [socket.htons]), the reverse table holds for every identifier the name
    of the last line with that identifier, what the tables held for other
    keys is kept, and the protocol tables are left alone. *)
Theorem init_ethertypes_mapping_last_wins (host : byteorder) (file : lines)
  (g g' : Protos) (Hload : init_ethertypes_mapping host file g = Ok g') :
  (forall k,
     dict_get String.eqb (L3_PROTO_TO_ID g') k =
     match assoc_last (bindings (ethertype_binding host) file) k with
     | Some v => Some v
     | None => dict_get String.eqb (L3_PROTO_TO_ID g) k
     end) /\
  (forall k,
     dict_get String.eqb (ID_TO_L3_PROTO g') k =
     match assoc_last (map swap_pair (bindings (ethertype_binding host) file)) k with
     | Some v => Some v
     | None => dict_get String.eqb (ID_TO_L3_PROTO g) k
     end) /\
  L4_PROTO_TO_ID g' = L4_PROTO_TO_ID g /\
  ID_TO_L4_PROTO g' = ID_TO_L4_PROTO g.
Proof. now apply init_ethertypes_content. Qed.

Lemma int16_raise (s : string) (e : exn) : int16 s = Raise e -> e = ValueError.
Proof.
  unfold int16.
  match goal with
  | |- context [match ?r with Some _ => _ | None => _ end] => destruct r
  end; congruence.
Qed.

(** [int(s, 16)] reads the decimal digits of every script: the Arabic-Indic
    digit three, U+0663 with the UTF-8 bytes 217 and 163, is 3, alone and
    after the ASCII prefix, next to the ASCII spelling of the ethertype of
    IPv4. *)
Lemma int16_digits_of_other_scripts :
  int16 (String (ascii_of_N 217) (String (ascii_of_N 163) EmptyString)) =
    Ok 3%Z /\
  int16 ("0x" ++ String (ascii_of_N 217) (String (ascii_of_N 163) "f")) =
    Ok 63%Z /\
  int16 "0800" = Ok 2048%Z /\
  int16 (String (ascii_of_N 195) (String (ascii_of_N 169) EmptyString)) =
    Raise ValueError.
Proof. repeat split; vm_compute; reflexivity. Qed.

Lemma ethertypes_step_result (host : byteorder) (g : Protos) (spl : list string) :
  (ethertype_line_ok spl = true /\ exists g1, ethertypes_step host g spl = Ok g1) \/
  (ethertype_line_ok spl = false /\
   exists e, ethertypes_step host g spl = Raise e /\
             (e = IndexError \/ e = ValueError \/ e = OverflowError)).
Proof.
  unfold ethertype_line_ok, ethertypes_step, field.
  destruct (skipped spl) eqn:Hs; simpl; [left; eauto|].
  destruct spl as [|s0 [|s1 spl]]; simpl.
  - right. split; [reflexivity|]. exists IndexError. auto.
  - right. split; [reflexivity|]. exists IndexError. auto.
  - destruct (int16 s1) as [z|e] eqn:Hz; simpl.
    + unfold htons. destruct ((0 <=? z) && (z <? 65536))%Z; simpl.
      * left. eauto.
      * right. split; [reflexivity|]. exists OverflowError. auto.
    + right. split; [reflexivity|]. exists e. split; [reflexivity|].
      apply int16_raise in Hz. auto.
Qed.

Lemma init_ethertypes_cases (host : byteorder) (file : lines)
  (g : Protos) :
  (forallb ethertype_line_ok file = true <->
   exists g', init_ethertypes_mapping host file g = Ok g') /\
  (forallb ethertype_line_ok file = false <->
   exists e, init_ethertypes_mapping host file g = Raise e) /\
  (forall e, init_ethertypes_mapping host file g = Raise e ->
             e = IndexError \/ e = ValueError \/ e = OverflowError).
Proof.
  revert g. induction file as [|spl file IH]; intros g; simpl.
  - split; [|split].
    + split; eauto.
    + split; intros H; [discriminate | destruct H; discriminate].
    + intros e H. discriminate.
  - destruct (ethertypes_step_result host g spl)
      as [[-> [g1 ->]]|[-> (e & -> & He)]]; simpl.
    + apply IH.
    + split; [|split].
      * split; intros H; [discriminate | destruct H; discriminate].
      * split; eauto.
      * intros e' [= <-]. exact He.
Qed.

(** X6. [init_ethertypes_mapping] returns exactly when every line of the
    file is skipped or has a second field that is a hexadecimal number
    between 0 and 65535; otherwise it raises an IndexError (no second
    field), a ValueError (not a hexadecimal number) or an OverflowError
    (negative or beyond 16 bits). *)
Theorem init_ethertypes_mapping_result (host : byteorder) (file : lines)
  (g : Protos) :
  (forallb ethertype_line_ok file = true <->
   exists g', init_ethertypes_mapping host file g = Ok g') /\
  (forallb ethertype_line_ok file = false <->
   exists e, init_ethertypes_mapping host file g = Raise e) /\
  (forall e, init_ethertypes_mapping host file g = Raise e ->
             e = IndexError \/ e = ValueError \/ e = OverflowError).
Proof. apply init_ethertypes_cases. Qed.

(** ** The callback *)

Lemma bind_Raise {A B : Type} (c : result A) (k : A -> result B) (e : exn) :
  bind c k = Raise e ->
  c = Raise e \/ exists a, c = Ok a /\ k a = Raise e.
Proof. destruct c; simpl; intros H; [right; eauto | left; congruence]. Qed.

Lemma dict_lookup_raise {K V : Type} (eqb : K -> K -> bool) (d : dict K V)
  (k : K) (e : exn) : dict_lookup eqb d k = Raise e -> e = KeyError.
Proof. unfold dict_lookup. destruct (dict_get eqb d k); congruence. Qed.

Lemma dict_lookup_Ok {K V : Type} (eqb : K -> K -> bool) (d : dict K V)
  (k : K) (v : V) : dict_lookup eqb d k = Ok v <-> dict_get eqb d k = Some v.
Proof. unfold dict_lookup. destruct (dict_get eqb d k); split; congruence. Qed.

(** [socket.ntohs] on a value ctypes read from a 16-bit field returns; on
    any other value it raises an OverflowError. *)
Lemma ntohs_result (host : byteorder) (x : N) :
  (x < 65536 /\ exists y, ntohs host x = Ok y) \/
  (65536 <= x /\ ntohs host x = Raise OverflowError).
Proof.
  unfold ntohs, htons. destruct (N.lt_ge_cases x 65536) as [H|H].
  - left. split; [exact H|].
    replace ((0 <=? Z.of_N x) && (Z.of_N x <? 65536))%Z with true; [eauto|].
    symmetry. apply andb_true_intro. split; [apply Z.leb_le | apply Z.ltb_lt]; lia.
  - right. split; [exact H|].
    replace ((0 <=? Z.of_N x) && (Z.of_N x <? 65536))%Z with false; [reflexivity|].
    symmetry. apply andb_false_intro2. apply Z.ltb_ge. lia.
Qed.

Lemma decode_addrs_raise (host : byteorder) (g : Protos) (event : EventData.t)
  (e : exn) : decode_addrs host g event = Raise e -> e = KeyError.
Proof.
  unfold decode_addrs. intros H.
  apply bind_Raise in H as [H|[id4 [_ H]]];
    [now apply dict_lookup_raise in H|].
  destruct (String.eqb _ id4).
  - unfold EventData.v4_saddr, EventData.v4_daddr in H.
    rewrite !decode_v4_ok in H by (apply load_lt, firstn_le_length).
    discriminate.
  - apply bind_Raise in H as [H|[id6 [_ H]]];
      [now apply dict_lookup_raise in H|].
    destruct (String.eqb _ id6); discriminate.
Qed.

(** What a call of [handle_event] that returns has done: it has printed the
    diagnostic and kept the table, or it has printed nothing and recorded
    the name of the event for one flow. *)
Lemma handle_event_Ok_inv (host : byteorder)
  (IPv6Address_str : list byte -> string) (g : Protos) (ift : IPFTracer)
  (flows flows' : FlowTable) (event : EventData.t) (out : list string) :
  handle_event host IPv6Address_str g ift flows event = Ok (flows', out) ->
  exists event_name,
    resolve_event_name ift (EventData.event_id event) = Ok event_name /\
    ((flows' = flows /\
      out = ["Unsupported l3 protocol " ++ str (EventData.l3_protocol event)]) \/
     (out = [] /\ exists flow, flows' = record flows flow event_name)).
Proof.
  intros H. unfold handle_event in H.
  apply bind_Ok in H as [event_name [Hname H]]. exists event_name.
  split; [exact Hname|].
  apply bind_Ok in H as [[[saddr daddr]|] [_ H]].
  - apply bind_Ok in H as [l3 [_ H]]. apply bind_Ok in H as [l4 [_ H]].
    apply bind_Ok in H as [sp [_ H]]. apply bind_Ok in H as [dp [_ H]].
    injection H as <- <-. right. split; [reflexivity|]. eauto.
  - injection H as <- <-. now left.
Qed.

(** X7. A call of [handle_event] that returns changes the names of at most
    one flow, and only by appending the name of the event when it is not
    among them: with the diagnostic for an unsupported L3 protocol the table
    is the one it was; without it nothing is printed, one flow has its
    names left as they are or extended by the name the event id resolves
    to, and the names of every other flow are untouched. *)
Theorem handle_event_effect (host : byteorder)
  (IPv6Address_str : list byte -> string) (g : Protos) (ift : IPFTracer)
  (flows flows' : FlowTable) (event : EventData.t) (out : list string)
  (Hret : handle_event host IPv6Address_str g ift flows event = Ok (flows', out)) :
  exists event_name,
    resolve_event_name ift (EventData.event_id event) = Ok event_name /\
    ((flows' = flows /\
      out = ["Unsupported l3 protocol " ++ str (EventData.l3_protocol event)]) \/
     (out = [] /\
      exists flow,
        names_of flows' flow =
          (if existsb (String.eqb event_name) (names_of flows flow)
           then names_of flows flow
           else (names_of flows flow ++ [event_name])%list) /\
        forall f, f <> flow -> names_of flows' f = names_of flows f)).
Proof.
  destruct (handle_event_Ok_inv _ _ _ _ _ _ _ _ Hret)
    as (event_name & Hname & [[-> ->]|[-> [flow ->]]]);
    exists event_name; (split; [exact Hname|]).
  - now left.
  - right. split; [reflexivity|]. exists flow. split.
    + apply names_of_record_same.
    + intros f Hf. now apply names_of_record_other.
Qed.

(** X8. The exceptions of [handle_event]: it raises an IndexError exactly
    when the event id is not below the length of the id-to-name table;
    every other exception is a KeyError (a table lacks a key) or, for a
    port that is no 16-bit value, an OverflowError of [socket.ntohs]. *)
Theorem handle_event_exceptions (host : byteorder)
  (IPv6Address_str : list byte -> string) (g : Protos) (ift : IPFTracer)
  (flows : FlowTable) (event : EventData.t) :
  (handle_event host IPv6Address_str g ift flows event = Raise IndexError <->
   (List.length (id_to_ename ift) <= N.to_nat (EventData.event_id event))%nat) /\
  (forall e,
     handle_event host IPv6Address_str g ift flows event = Raise e ->
     e = IndexError \/ e = KeyError \/
     (e = OverflowError /\
      (65536 <= EventData.sport event \/ 65536 <= EventData.dport event))).
Proof.
  assert (Hother : forall e,
     handle_event host IPv6Address_str g ift flows event = Raise e ->
     (e = IndexError /\
      (List.length (id_to_ename ift) <= N.to_nat (EventData.event_id event))%nat) \/
     e = KeyError \/
     (e = OverflowError /\
      (65536 <= EventData.sport event \/ 65536 <= EventData.dport event))).
  { intros e H. unfold handle_event in H.
    apply bind_Raise in H as [H|[event_name [_ H]]].
    { left. unfold resolve_event_name in H.
      destruct (nth_error _ _) eqn:E; [discriminate|].
      injection H as <-. split; [reflexivity|]. now apply nth_error_None. }
    right.
    apply bind_Raise in H as [H|[a [_ H]]];
      [left; now apply decode_addrs_raise in H|].
    destruct a as [[saddr daddr]|]; [|discriminate].
    apply bind_Raise in H as [H|[l3 [_ H]]];
      [left; now apply dict_lookup_raise in H|].
    apply bind_Raise in H as [H|[l4 [_ H]]];
      [left; now apply dict_lookup_raise in H|].
    apply bind_Raise in H as [H|[sp [_ H]]].
    { right. destruct (ntohs_result host (EventData.sport event))
        as [[_ [y Hy]]|[Hge Hr]]; [congruence|].
      rewrite Hr in H. injection H as <-. auto. }
    apply bind_Raise in H as [H|[dp [_ H]]]; [|discriminate].
    right. destruct (ntohs_result host (EventData.dport event))
      as [[_ [y Hy]]|[Hge Hr]]; [congruence|].
    rewrite Hr in H. injection H as <-. auto. }
  split.
  - split.
    + intros H. destruct (Hother _ H) as [[_ Hlen]|[Hk|[Ho _]]];
        [exact Hlen | discriminate | discriminate].
    + apply handle_event_bad_id.
  - intros e H. destruct (Hother e H) as [[-> _]|[->|Ho]]; auto.
Qed.

(** The part of [handle_event] after the name and the addresses are known. *)
Lemma handle_event_recorded (host : byteorder)
  (IPv6Address_str : list byte -> string) (g : Protos) (ift : IPFTracer)
  (flows : FlowTable) (event : EventData.t)
  (event_name l3_name l4_name : string) (saddr daddr : ipaddr) (sp dp : N) :
  resolve_event_name ift (EventData.event_id event) = Ok event_name ->
  decode_addrs host g event = Ok (Some (saddr, daddr)) ->
  dict_get String.eqb (ID_TO_L3_PROTO g) (str (EventData.l3_protocol event)) =
    Some l3_name ->
  dict_get String.eqb (ID_TO_L4_PROTO g) (str (EventData.l4_protocol event)) =
    Some l4_name ->
  ntohs host (EventData.sport event) = Ok sp ->
  ntohs host (EventData.dport event) = Ok dp ->
  handle_event host IPv6Address_str g ift flows event =
    Ok (record flows
          {| Flow.l3_protocol := l3_name; Flow.l4_protocol := l4_name;
             Flow.saddr := ipaddr_str IPv6Address_str saddr;
             Flow.daddr := ipaddr_str IPv6Address_str daddr;
             Flow.sport := sp; Flow.dport := dp |}
          event_name, []).
Proof.
  intros Hname Haddrs H3 H4 Hsp Hdp. unfold handle_event.
  rewrite Hname. simpl. rewrite Haddrs. simpl.
  unfold dict_lookup. rewrite H3. simpl. rewrite H4. simpl.
  rewrite Hsp. simpl. rewrite Hdp. reflexivity.
Qed.

(** The flow an IPv4 event is recorded under. *)
Lemma handle_event_ipv4_flow (host : byteorder)
  (IPv6Address_str : list byte -> string) (g : Protos) (ift : IPFTracer)
  (flows : FlowTable) (event : EventData.t)
  (event_name l3_name l4_name : string)
  (b0 b1 b2 b3 c0 c1 c2 c3 sh sl dh dl : byte) (rest : list byte)
  (Hname : resolve_event_name ift (EventData.event_id event) = Ok event_name)
  (Hv4 : dict_get String.eqb (L3_PROTO_TO_ID g) "IPv4" =
           Some (str (EventData.l3_protocol event)))
  (Hl3 : dict_get String.eqb (ID_TO_L3_PROTO g)
           (str (EventData.l3_protocol event)) = Some l3_name)
  (Hl4 : dict_get String.eqb (ID_TO_L4_PROTO g)
           (str (EventData.l4_protocol event)) = Some l4_name)
  (Haddrs : EventData.addrs event =
              b0 :: b1 :: b2 :: b3 :: c0 :: c1 :: c2 :: c3 :: rest)
  (Hsport : EventData.sport event = load host [sh; sl])
  (Hdport : EventData.dport event = load host [dh; dl]) :
  handle_event host IPv6Address_str g ift flows event =
    Ok (record flows
          {| Flow.l3_protocol := l3_name; Flow.l4_protocol := l4_name;
             Flow.saddr := str_byte b0 ++ "." ++ str_byte b1 ++ "." ++
                           str_byte b2 ++ "." ++ str_byte b3;
             Flow.daddr := str_byte c0 ++ "." ++ str_byte c1 ++ "." ++
                           str_byte c2 ++ "." ++ str_byte c3;
             Flow.sport := 256 * Byte.to_N sh + Byte.to_N sl;
             Flow.dport := 256 * Byte.to_N dh + Byte.to_N dl |}
          event_name, []).
Proof.
  destruct (decode_v4_load host IPv6Address_str b0 b1 b2 b3)
    as (ips & Hds & _ & Hss).
  destruct (decode_v4_load host IPv6Address_str c0 c1 c2 c3)
    as (ipd & Hdd & _ & Hsd).
  destruct (load_16 host sh sl) as (_ & Hsp & Hsv).
  destruct (load_16 host dh dl) as (_ & Hdp & Hdv).
  rewrite <- Hss, <- Hsd, <- Hsv, <- Hdv.
  apply handle_event_recorded; try assumption.
  - unfold decode_addrs, dict_lookup. rewrite Hv4. simpl.
    rewrite String.eqb_refl.
    unfold EventData.v4_saddr, EventData.v4_daddr. rewrite Haddrs.
    cbv [firstn skipn]. rewrite Hds. simpl. rewrite Hdd. reflexivity.
  - now rewrite Hsport.
  - now rewrite Hdport.
Qed.

(** X9. On either host, an IPv4 event is recorded under the flow the packet
    belongs to. When the event id resolves, the L3 field is the identifier
    of IPv4, both reverse tables answer, the union starts with the source
    bytes b and the destination bytes c in network order, and the port
    fields were read from the bytes sh, sl and dh, dl in network order, then
    [handle_event] prints nothing and records the event name for the flow
    with the two table names, the addresses b0.b1.b2.b3 and c0.c1.c2.c3 and
    the ports 256*sh + sl and 256*dh + dl. *)
Theorem handle_event_ipv4 (host : byteorder)
  (IPv6Address_str : list byte -> string) (g : Protos) (ift : IPFTracer)
  (flows : FlowTable) (event : EventData.t)
  (event_name l3_name l4_name : string)
  (b0 b1 b2 b3 c0 c1 c2 c3 sh sl dh dl : byte) (rest : list byte)
  (Hname : resolve_event_name ift (EventData.event_id event) = Ok event_name)
  (Hv4 : dict_get String.eqb (L3_PROTO_TO_ID g) "IPv4" =
           Some (str (EventData.l3_protocol event)))
  (Hl3 : dict_get String.eqb (ID_TO_L3_PROTO g)
           (str (EventData.l3_protocol event)) = Some l3_name)
  (Hl4 : dict_get String.eqb (ID_TO_L4_PROTO g)
           (str (EventData.l4_protocol event)) = Some l4_name)
  (Haddrs : EventData.addrs event =
              b0 :: b1 :: b2 :: b3 :: c0 :: c1 :: c2 :: c3 :: rest)
  (Hsport : EventData.sport event = load host [sh; sl])
  (Hdport : EventData.dport event = load host [dh; dl]) :
  handle_event host IPv6Address_str g ift flows event =
    Ok (record flows
          {| Flow.l3_protocol := l3_name; Flow.l4_protocol := l4_name;
             Flow.saddr := str_byte b0 ++ "." ++ str_byte b1 ++ "." ++
                           str_byte b2 ++ "." ++ str_byte b3;
             Flow.daddr := str_byte c0 ++ "." ++ str_byte c1 ++ "." ++
                           str_byte c2 ++ "." ++ str_byte c3;
             Flow.sport := 256 * Byte.to_N sh + Byte.to_N sl;
             Flow.dport := 256 * Byte.to_N dh + Byte.to_N dl |}
          event_name, []).
Proof. eapply handle_event_ipv4_flow; eassumption. Qed.

(** X10. On either host, an IPv6 event is recorded under the flow whose
    addresses are the texts of the first and of the second 16 bytes of the
    union: when the event id resolves, the L3 field is the identifier of
    IPv6 and not the one of IPv4, both reverse tables answer, the union is
    p followed by q with 16 bytes each, and the port fields were read from
    bytes in network order, [handle_event] prints nothing and records the
    event name for that flow. *)
Theorem handle_event_ipv6 (host : byteorder)
  (IPv6Address_str : list byte -> string) (g : Protos) (ift : IPFTracer)
  (flows : FlowTable) (event : EventData.t)
  (event_name id4 l3_name l4_name : string)
  (p q : list byte) (sh sl dh dl : byte)
  (Hname : resolve_event_name ift (EventData.event_id event) = Ok event_name)
  (Hv4 : dict_get String.eqb (L3_PROTO_TO_ID g) "IPv4" = Some id4)
  (Hnot4 : str (EventData.l3_protocol event) <> id4)
  (Hv6 : dict_get String.eqb (L3_PROTO_TO_ID g) "IPv6" =
           Some (str (EventData.l3_protocol event)))
  (Hl3 : dict_get String.eqb (ID_TO_L3_PROTO g)
           (str (EventData.l3_protocol event)) = Some l3_name)
  (Hl4 : dict_get String.eqb (ID_TO_L4_PROTO g)
           (str (EventData.l4_protocol event)) = Some l4_name)
  (Haddrs : EventData.addrs event = (p ++ q)%list)
  (Hp : List.length p = 16%nat) (Hq : List.length q = 16%nat)
  (Hsport : EventData.sport event = load host [sh; sl])
  (Hdport : EventData.dport event = load host [dh; dl]) :
  handle_event host IPv6Address_str g ift flows event =
    Ok (record flows
          {| Flow.l3_protocol := l3_name; Flow.l4_protocol := l4_name;
             Flow.saddr := IPv6Address_str p;
             Flow.daddr := IPv6Address_str q;
             Flow.sport := 256 * Byte.to_N sh + Byte.to_N sl;
             Flow.dport := 256 * Byte.to_N dh + Byte.to_N dl |}
          event_name, []).
Proof.
  destruct (load_16 host sh sl) as (_ & Hsp & Hsv).
  destruct (load_16 host dh dl) as (_ & Hdp & Hdv).
  rewrite <- Hsv, <- Hdv.
  apply (handle_event_recorded host IPv6Address_str g ift flows event
           event_name l3_name l4_name (IPv6Address p) (IPv6Address q));
    try assumption.
  - unfold decode_addrs, dict_lookup. rewrite Hv4. simpl.
    apply String.eqb_neq in Hnot4. rewrite Hnot4, Hv6. simpl.
    rewrite String.eqb_refl.
    unfold EventData.v6_saddr, EventData.v6_daddr. rewrite Haddrs.
    assert (Hs : firstn 16 (p ++ q) = p).
    { rewrite <- Hp, firstn_app, Nat.sub_diag, firstn_all. apply app_nil_r. }
    assert (Hk : skipn 16 (p ++ q) = q).
    { rewrite <- Hp, skipn_app, Nat.sub_diag, skipn_all. reflexivity. }
    assert (Hd : firstn 16 (skipn 16 (p ++ q)) = q).
    { rewrite Hk, <- Hq. apply firstn_all. }
    now rewrite Hs, Hd.
  - now rewrite Hsport.
  - now rewrite Hdport.
Qed.

(** ** The rows of the flow table *)

Section DictRows.
Context {K V : Type}.
Variable eqb : K -> K -> bool.
Hypothesis eqb_eq : forall k k', eqb k k' = true <-> k = k'.

Lemma dict_get_None_keys (d : dict K V) (k : K) :
  dict_get eqb d k = None <-> ~ In k (dict_keys d).
Proof.
  unfold dict_keys. induction d as [|[k0 v0] d IH]; simpl.
  - split; auto.
  - destruct (eqb k k0) eqn:E.
    + apply eqb_eq in E. subst k0. split; [discriminate | intros H; exfalso; auto].
    + rewrite IH. split.
      * intros H [H0|H0]; [|auto]. subst k0.
        rewrite (proj2 (eqb_eq k k) eq_refl) in E. discriminate.
      * intros H H0. apply H. now right.
Qed.

Lemma dict_get_Some_In (d : dict K V) (k : K) (v : V) :
  dict_get eqb d k = Some v -> In (k, v) d.
Proof.
  induction d as [|[k0 v0] d IH]; simpl; [discriminate|].
  destruct (eqb k k0) eqn:E.
  - apply eqb_eq in E. subst k0. intros [= ->]. now left.
  - intros H. right. now apply IH.
Qed.

Lemma dict_set_In (d : dict K V) (k : K) (v : V) (item : K * V) :
  In item (dict_set eqb d k v) -> In item d \/ item = (k, v).
Proof.
  induction d as [|[k0 v0] d IH]; simpl.
  - intros [<-|[]]. now right.
  - destruct (eqb k k0) eqn:E; simpl.
    + apply eqb_eq in E. subst k0. intros [<-|H]; [now right | left; now right].
    + intros [<-|H]; [left; now left|].
      destruct (IH H) as [H'|H']; [left; now right | now right].
Qed.
End DictRows.

(** The flows of the table after [record]: those it had, in their order,
    and the flow recorded as the last one when it was not among them. *)
Lemma record_keys (flows : FlowTable) (flow : Flow.t) (n : string) :
  dict_keys (record flows flow n) =
  (dict_keys flows ++
   match dict_get Flow.eqb flows flow with
   | Some _ => []
   | None => [flow]
   end)%list.
Proof.
  unfold record. rewrite (dict_keys_set Flow.eqb).
  destruct (dict_get Flow.eqb flows flow); [now rewrite app_nil_r | reflexivity].
Qed.

Lemma record_keys_NoDup (flows : FlowTable) (flow : Flow.t) (n : string) :
  NoDup (dict_keys flows) -> NoDup (dict_keys (record flows flow n)).
Proof.
  intros H. rewrite record_keys.
  destruct (dict_get Flow.eqb flows flow) eqn:E; [now rewrite app_nil_r|].
  apply (dict_get_None_keys Flow.eqb Flow_eqb_eq) in E.
  apply NoDup_app; [exact H | repeat constructor; intros [] |].
  intros a Ha [<-|[]]. now apply E.
Qed.

(** What a row shows: a list of names that is not empty, holds no name
    twice and holds names of the id-to-name table only. *)
Lemma record_rows (table : list string) (flows : FlowTable) (flow : Flow.t)
  (n : string) :
  In n table ->
  Forall (fun item => snd item <> [] /\ NoDup (snd item) /\ incl (snd item) table)
         flows ->
  Forall (fun item => snd item <> [] /\ NoDup (snd item) /\ incl (snd item) table)
         (record flows flow n).
Proof.
  intros Hn Hall. apply Forall_forall. intros item Hin.
  unfold record in Hin.
  apply (dict_set_In Flow.eqb Flow_eqb_eq) in Hin as [Hin| ->].
  - revert item Hin. now apply Forall_forall.
  - simpl.
    assert (Hold : NoDup (names_of flows flow) /\ incl (names_of flows flow) table).
    { unfold names_of. destruct (dict_get Flow.eqb flows flow) as [l|] eqn:E.
      - apply (dict_get_Some_In Flow.eqb Flow_eqb_eq) in E.
        rewrite Forall_forall in Hall. now destruct (Hall _ E) as (_ & H1 & H2).
      - split; [constructor | intros a []]. }
    fold (names_of flows flow). destruct Hold as [Hnd Hincl].
    destruct (existsb _ (names_of flows flow)) eqn:M.
    + apply mem_In in M. repeat split; try assumption.
      intros E. rewrite E in M. destruct M.
    + repeat split.
      * intros E. apply app_eq_nil in E as [_ E]. discriminate.
      * apply NoDup_app; [exact Hnd | repeat constructor; intros [] |].
        intros a Ha [<-|[]]. apply mem_In in Ha. congruence.
      * intros a Ha. apply in_app_or in Ha as [Ha|[<-|[]]]; auto.
Qed.

Lemma resolve_In (ift : IPFTracer) (eid : N) (n : string) :
  resolve_event_name ift eid = Ok n -> In n (id_to_ename ift).
Proof.
  unfold resolve_event_name. destruct (nth_error _ _) eqn:E; [|discriminate].
  intros [= <-]. now apply nth_error_In in E.
Qed.

(** X11. In every flow table a run of the callback builds from the empty
    one, the rows belong to pairwise distinct flows, and every row shows a
    list of function names that is not empty, holds no name twice and holds
    names of the id-to-name table of the tracer only. *)
Theorem traced_rows (host : byteorder)
  (IPv6Address_str : list byte -> string) (g : Protos) (ift : IPFTracer)
  (flows : FlowTable)
  (Hrun : traced host IPv6Address_str g ift flows) :
  NoDup (dict_keys flows) /\
  Forall (fun item => snd item <> [] /\ NoDup (snd item) /\
                      incl (snd item) (id_to_ename ift)) flows.
Proof.
  induction Hrun as [|flows flows' event out _ [IHk IHr] Hret].
  - split; constructor.
  - destruct (handle_event_Ok_inv _ _ _ _ _ _ _ _ Hret)
      as (event_name & Hname & [[-> _]|[_ [flow ->]]]).
    + now split.
    + split; [now apply record_keys_NoDup|].
      apply record_rows; [now apply (resolve_In ift _ _ Hname) | exact IHr].
Qed.

(** X12. A call of [handle_event] that returns keeps the rows of the table
    in their order: the flows of the table afterwards are those it had, in
    the same positions, followed by at most one flow that it did not
    have. *)
Theorem handle_event_keeps_rows (host : byteorder)
  (IPv6Address_str : list byte -> string) (g : Protos) (ift : IPFTracer)
  (flows flows' : FlowTable) (event : EventData.t) (out : list string)
  (Hret : handle_event host IPv6Address_str g ift flows event = Ok (flows', out)) :
  dict_keys flows' = dict_keys flows \/
  exists flow,
    ~ In flow (dict_keys flows) /\
    dict_keys flows' = (dict_keys flows ++ [flow])%list.
Proof.
  destruct (handle_event_Ok_inv _ _ _ _ _ _ _ _ Hret)
    as (event_name & _ & [[-> _]|[_ [flow ->]]]); [now left|].
  rewrite record_keys.
  destruct (dict_get Flow.eqb flows flow) eqn:E.
  - left. apply app_nil_r.
  - right. exists flow. split; [|reflexivity].
    now apply (dict_get_None_keys Flow.eqb Flow_eqb_eq).
Qed.

(** ** Assembly and listing *)

Lemma again_spec (dedent : string -> string) (template : string)
  (kwargs : Args) (c : catalog) (k : nat) :
  let again := fun t => snd (build_probes dedent template t) in
  let ift_k := Nat.iter k again (IPFTracer_init dedent template kwargs c) in
  functions ift_k = c /\
  List.length (id_to_ename ift_k) = ((k + 1) * List.length (flatten c))%nat /\
  exists rest, id_to_ename ift_k = (map name (flatten c) ++ rest)%list.
Proof.
  intros again. induction k as [|k IH].
  - change (Nat.iter 0 again (IPFTracer_init dedent template kwargs c))
      with (IPFTracer_init dedent template kwargs c).
    destruct (IPFTracer_init_spec dedent template kwargs c) as (_ & Ht & Hf & _).
    split; [exact Hf|]. rewrite Ht, length_map. split; [simpl; lia|].
    exists []. now rewrite app_nil_r.
  - change (Nat.iter (S k) again (IPFTracer_init dedent template kwargs c))
      with (again (Nat.iter k again (IPFTracer_init dedent template kwargs c))).
    set (t := Nat.iter k again (IPFTracer_init dedent template kwargs c)) in *.
    cbv zeta in IH. destruct IH as (Hf & Hlen & rest & Ht).
    destruct (build_probes_spec dedent template t) as (_ & Ht' & Hf' & _).
    unfold again. rewrite Hf', Ht', Hf. split; [reflexivity|].
    rewrite length_app, length_map, Hlen. split; [lia|].
    exists (rest ++ map name (flatten c))%list. now rewrite Ht, <- app_assoc.
Qed.

(** X13. Probe assembly may be repeated any number of times on a tracer:
    every assembly returns the text of the first one, and after k further
    assemblies every id of a stub still resolves to the name of the
    function of that stub, while the table has grown to k + 1 times the
    number of functions. *)
Theorem repeated_assembly (dedent : string -> string) (template : string)
  (kwargs : Args) (c : catalog) (k : nat) :
  let ift := IPFTracer_init dedent template kwargs c in
  let ift_k := Nat.iter k (fun t => snd (build_probes dedent template t)) ift in
  fst (build_probes dedent template ift_k) = probes ift /\
  List.length (id_to_ename ift_k) = ((k + 1) * List.length (flatten c))%nat /\
  map (fun ie => resolve_event_name ift_k (fst ie)) (enumerate (flatten c)) =
    map (fun ie => Ok (name (snd ie))) (enumerate (flatten c)).
Proof.
  intros ift ift_k.
  destruct (again_spec dedent template kwargs c k) as (Hf & Hlen & rest & Ht).
  fold ift in Hf, Hlen, Ht. fold ift_k in Hf, Hlen, Ht.
  destruct (build_probes_spec dedent template ift_k) as (Hp & _).
  destruct (IPFTracer_init_spec dedent template kwargs c) as (Hp0 & _).
  fold ift in Hp0. split; [now rewrite Hp, Hf, Hp0|]. split; [exact Hlen|].
  now apply resolve_enumerate with (rest := rest).
Qed.

Lemma list_inner_fold (l : list entry) (acc : list string) :
  fold_left (fun out e => (out ++ [append "  " (name e)])%list) l acc =
  (acc ++ map (fun e => append "  " (name e)) l)%list.
Proof.
  revert acc. induction l as [|e l IH]; intros acc; simpl.
  - now rewrite app_nil_r.
  - now rewrite IH, <- app_assoc.
Qed.

Lemma list_outer_fold (c : catalog) (acc : list string) :
  fold_left
    (fun out gl =>
       fold_left (fun out e => (out ++ [append "  " (name e)])%list) (snd gl)
                 (out ++ [fst gl])%list) c acc =
  (acc ++ flat_map (fun gl => fst gl :: map (fun e => append "  " (name e)) (snd gl))
                   c)%list.
Proof.
  revert acc. induction c as [|gl c IH]; intros acc; simpl.
  - now rewrite app_nil_r.
  - rewrite IH, list_inner_fold, <- !app_assoc. reflexivity.
Qed.

Lemma map_flat_map {A B C : Type} (f : B -> C) (g : A -> list B) (l : list A) :
  map f (flat_map g l) = flat_map (fun x => map f (g x)) l.
Proof.
  induction l as [|x l IH]; cbn [flat_map map]; [reflexivity|].
  now rewrite map_app, IH.
Qed.

Lemma listing_length (c : catalog) :
  List.length
    (flat_map (fun gl => fst gl :: map (fun e => append "  " (name e)) (snd gl)) c) =
  (List.length c + List.length (flatten c))%nat.
Proof.
  unfold flatten. induction c as [|gl c IH]; [reflexivity|].
  cbn [flat_map]. change (List.length (gl :: c)) with (S (List.length c)).
  change (List.length ((fst gl :: map (fun e => append "  " (name e)) (snd gl)) ++
            flat_map (fun gl => fst gl :: map (fun e => append "  " (name e)) (snd gl)) c))
    with (S (List.length (map (fun e => append "  " (name e)) (snd gl) ++
            flat_map (fun gl => fst gl :: map (fun e => append "  " (name e)) (snd gl)) c))).
  rewrite !length_app, length_map, IH. lia.
Qed.

(** X14. The listing of [--list] prints the heading, then for every group
    its name followed by the names of its functions, indented by two
    blanks; the function lines, taken in the order they are printed, are
    the entries of the id-to-name table in the order of the ids, so the
    k-th function listed is the one with event id k. *)
Theorem list_functions_order (dedent : string -> string) (template : string)
  (kwargs : Args) (c : catalog) :
  let ift := IPFTracer_init dedent template kwargs c in
  list_functions ift =
    "Available groups and functions" ::
    flat_map (fun gl => fst gl :: map (fun e => append "  " (name e)) (snd gl)) c /\
  flat_map (fun gl => map (fun e => append "  " (name e)) (snd gl)) c =
    map (append "  ") (id_to_ename ift) /\
  List.length (list_functions ift) =
    (1 + List.length c + List.length (id_to_ename ift))%nat.
Proof.
  intros ift.
  destruct (IPFTracer_init_spec dedent template kwargs c) as (_ & Ht & Hf & _).
  fold ift in Ht, Hf.
  assert (Hl : list_functions ift =
    "Available groups and functions" ::
    flat_map (fun gl => fst gl :: map (fun e => append "  " (name e)) (snd gl)) c).
  { unfold list_functions. rewrite Hf, list_outer_fold. reflexivity. }
  split; [exact Hl|]. split.
  - rewrite Ht, map_map. symmetry. apply map_flat_map.
  - rewrite Hl, Ht, length_map. cbn [List.length]. now rewrite listing_length.
Qed.

(** ** The filter options, again *)

Lemma build_l3_protocol_opt_Ok (g : Protos) (p : string) (o : list string) :
  build_l3_protocol_opt g p = Ok o ->
  exists x, o = ["-D"; "L3_PROTOCOL" ++ x] /\
            option_of p (dict_lookup String.eqb (L3_PROTO_TO_ID g)) x.
Proof.
  unfold build_l3_protocol_opt, option_of.
  destruct (String.eqb_spec p "any") as [->|Hne].
  - intros [= <-]. exists "_ANY". split; [reflexivity | now left].
  - intros H. apply bind_Ok in H as [v [Hv H]]. injection H as <-.
    exists ("=" ++ v). split; [reflexivity|]. right. split; [exact Hne|]. eauto.
Qed.

Lemma build_l4_protocol_opt_Ok (g : Protos) (p : string) (o : list string) :
  build_l4_protocol_opt g p = Ok o ->
  exists x, o = ["-D"; "L4_PROTOCOL" ++ x] /\
            option_of p (dict_lookup String.eqb (L4_PROTO_TO_ID g)) x.
Proof.
  unfold build_l4_protocol_opt, option_of.
  destruct (String.eqb_spec p "any") as [->|Hne].
  - intros [= <-]. exists "_ANY". split; [reflexivity | now left].
  - intros H. apply bind_Ok in H as [v [Hv H]]. injection H as <-.
    exists ("=" ++ v). split; [reflexivity|]. right. split; [exact Hne|]. eauto.
Qed.

Lemma build_addr4_opt_Ok (addr direction : string) (o : list string) :
  build_addr4_opt addr direction = Ok o ->
  exists x, o = ["-D"; direction ++ "ADDRV4" ++ x] /\ option_of addr inet_addr4 x.
Proof.
  unfold build_addr4_opt, option_of.
  destruct (String.eqb_spec addr "any") as [->|Hne].
  - intros [= <-]. exists "_ANY". split; [reflexivity | now left].
  - intros H. apply bind_Ok in H as [v [Hv H]]. injection H as <-.
    exists ("=" ++ v). split; [reflexivity|]. right. split; [exact Hne|]. eauto.
Qed.

Lemma build_addr6_opt_Ok (pk : string -> result (list byte))
  (addr direction : string) (o : list string) :
  build_addr6_opt pk addr direction = Ok o ->
  exists x, o = ["-D"; direction ++ "ADDRV6" ++ x] /\
            option_of addr (inet_addr6 pk) x.
Proof.
  unfold build_addr6_opt, option_of.
  destruct (String.eqb_spec addr "any") as [->|Hne].
  - intros [= <-]. exists "_ANY". split; [reflexivity | now left].
  - intros H. apply bind_Ok in H as [v [Hv H]]. injection H as <-.
    exists ("=" ++ v). split; [reflexivity|]. right. split; [exact Hne|]. eauto.
Qed.

Lemma build_port_opt_spec (port direction : string) :
  build_port_opt port direction =
  ["-D"; direction ++ "PORT" ++
         (if String.eqb port "any" then "_ANY" else "=" ++ port)].
Proof. unfold build_port_opt. now destruct (String.eqb port "any"). Qed.

(** X15. When [build_opts] returns, its result is the list of sixteen
    strings: -D before each of the eight symbols L3_PROTOCOL, L4_PROTOCOL,
    SADDRV4, DADDRV4, SADDRV6, DADDRV6, SPORT and DPORT, in this order,
    every symbol ending in _ANY when its argument is any and in = and a
    value otherwise. The value is the table entry of the name for the two
    protocols, the integer of [inet_addr4] and the byte list of
    [inet_addr6] for the addresses, and for a port the text of the
    argument as it was given, whatever it is. *)
Theorem build_opts_shape (IPv6Address_packed : string -> result (list byte))
  (g : Protos) (self : IPFTracer) (opts : list string)
  (Hopts : build_opts IPv6Address_packed g self = Ok opts) :
  let a := self_args self in
  exists l3 l4 s4 d4 s6 d6,
    opts = ["-D"; "L3_PROTOCOL" ++ l3; "-D"; "L4_PROTOCOL" ++ l4;
            "-D"; "SADDRV4" ++ s4; "-D"; "DADDRV4" ++ d4;
            "-D"; "SADDRV6" ++ s6; "-D"; "DADDRV6" ++ d6;
            "-D"; "SPORT" ++ (if String.eqb (sport a) "any" then "_ANY"
                              else "=" ++ sport a);
            "-D"; "DPORT" ++ (if String.eqb (dport a) "any" then "_ANY"
                              else "=" ++ dport a)] /\
    option_of (l3proto a) (dict_lookup String.eqb (L3_PROTO_TO_ID g)) l3 /\
    option_of (l4proto a) (dict_lookup String.eqb (L4_PROTO_TO_ID g)) l4 /\
    option_of (saddr4 a) inet_addr4 s4 /\
    option_of (daddr4 a) inet_addr4 d4 /\
    option_of (saddr6 a) (inet_addr6 IPv6Address_packed) s6 /\
    option_of (daddr6 a) (inet_addr6 IPv6Address_packed) d6.
Proof.
  intros a. unfold build_opts in Hopts. fold a in Hopts.
  apply bind_Ok in Hopts as [o1 [H1 H]]. apply bind_Ok in H as [o2 [H2 H]].
  apply bind_Ok in H as [o3 [H3 H]]. apply bind_Ok in H as [o4 [H4 H]].
  apply bind_Ok in H as [o5 [H5 H]]. apply bind_Ok in H as [o6 [H6 H]].
  injection H as <-.
  apply build_l3_protocol_opt_Ok in H1 as (l3 & -> & P1).
  apply build_l4_protocol_opt_Ok in H2 as (l4 & -> & P2).
  apply build_addr4_opt_Ok in H3 as (s4 & -> & P3).
  apply build_addr4_opt_Ok in H4 as (d4 & -> & P4).
  apply build_addr6_opt_Ok in H5 as (s6 & -> & P5).
  apply build_addr6_opt_Ok in H6 as (d6 & -> & P6).
  rewrite !build_port_opt_spec.
  exists l3, l4, s4, d4, s6, d6. repeat split; assumption.
Qed.

(** The six options that can fail decide how [build_opts] fails. *)
Lemma build_opts_raise_ports (pk : string -> result (list byte)) (g : Protos)
  (self : IPFTracer) (s d : string) (e : exn) :
  build_opts pk g (with_args self (with_ports (self_args self) s d)) = Raise e <->
  build_opts pk g self = Raise e.
Proof.
  unfold build_opts, with_args, with_ports. simpl.
  destruct (build_l3_protocol_opt g _); simpl; [|reflexivity].
  destruct (build_l4_protocol_opt g _); simpl; [|reflexivity].
  destruct (build_addr4_opt (saddr4 _) _); simpl; [|reflexivity].
  destruct (build_addr4_opt (daddr4 _) _); simpl; [|reflexivity].
  destruct (build_addr6_opt pk (saddr6 _) _); simpl; [|reflexivity].
  destruct (build_addr6_opt pk (daddr6 _) _); simpl; [|reflexivity].
  split; discriminate.
Qed.

(** X16. A port filter is never checked: [build_opts] raises the same
    exception, or none, whatever texts are given for sport and dport. *)
Theorem build_opts_ignores_ports (IPv6Address_packed : string -> result (list byte))
  (g : Protos) (self : IPFTracer) (s d : string) :
  (forall e,
     build_opts IPv6Address_packed g
       (with_args self (with_ports (self_args self) s d)) = Raise e <->
     build_opts IPv6Address_packed g self = Raise e) /\
  ((exists opts,
      build_opts IPv6Address_packed g
        (with_args self (with_ports (self_args self) s d)) = Ok opts) <->
   (exists opts, build_opts IPv6Address_packed g self = Ok opts)).
Proof.
  split; [intros e; apply build_opts_raise_ports|].
  pose proof (build_opts_raise_ports IPv6Address_packed g self s d) as Hr.
  destruct (build_opts IPv6Address_packed g
              (with_args self (with_ports (self_args self) s d))) as [o|e] eqn:E1;
    destruct (build_opts IPv6Address_packed g self) as [o'|e'] eqn:E2.
  - split; eauto.
  - discriminate (proj2 (Hr e') eq_refl).
  - discriminate (proj1 (Hr e) eq_refl).
  - split; intros [o H]; discriminate.
Qed.


(** ** The IPv4 filter constant *)

Lemma inet_addr4_Ok (a v : string) :
  inet_addr4 a = Ok v ->
  exists ip, IPv4Address_of_str a = Ok ip /\ ip < 4294967296 /\
             IPv4Address_str ip = a /\ v = str (from_bytes_little (packed4 ip)).
Proof.
  unfold inet_addr4. intros H. apply bind_Ok in H as [ip [Hip H]].
  apply Ok_inj in H. destruct (IPv4Address_of_str_spec a ip Hip) as [Hlt Ht].
  exists ip. repeat split; auto.
Qed.

(** X17. When [inet_addr4] returns for an address text, the text is a
    dotted quad n0.n1.n2.n3 of four decimal numbers below 256 written
    without leading zeros, the constant returned is the decimal form of
    n0 + 256*n1 + 65536*n2 + 16777216*n3, and no other address text gives
    the same constant. *)
Theorem inet_addr4_value (a v : string) (Hret : inet_addr4 a = Ok v) :
  (exists n0 n1 n2 n3,
     n0 < 256 /\ n1 < 256 /\ n2 < 256 /\ n3 < 256 /\
     a = str n0 ++ "." ++ str n1 ++ "." ++ str n2 ++ "." ++ str n3 /\
     v = str (n0 + 256 * n1 + 65536 * n2 + 16777216 * n3)) /\
  (forall b, inet_addr4 b = Ok v -> b = a).
Proof.
  destruct (inet_addr4_Ok a v Hret) as (ip & Hip & Hlt & Ht & Hv).
  split.
  - unfold IPv4Address_str, packed4 in Ht. unfold packed4 in Hv.
    cbv [map join] in Ht. cbv [from_bytes_little] in Hv.
    unfold str_byte in Ht.
    exists (Byte.to_N (byte_of_N (N.shiftr ip 24))),
           (Byte.to_N (byte_of_N (N.shiftr ip 16))),
           (Byte.to_N (byte_of_N (N.shiftr ip 8))),
           (Byte.to_N (byte_of_N ip)).
    repeat split; try apply to_N_lt.
    + now symmetry.
    + rewrite Hv. f_equal. lia.
  - intros b Hb. destruct (inet_addr4_Ok b v Hb) as (ip' & _ & Hlt' & Ht' & Hv').
    rewrite Hv in Hv'. apply str_inj in Hv'.
    rewrite <- Ht, <- Ht'. f_equal.
    rewrite <- (swap32_packed4 ip Hlt), <- (swap32_packed4 ip' Hlt').
    now rewrite Hv'.
Qed.

(** ** The L4 filter and the protocols file *)

(** X18. With the tables [main] loads, a filter value for l4proto other
    than any is looked up among the third fields of the lines of the
    protocols file: the option is L4_PROTOCOL= and the second field of the
    last line that has the value as its third field, and a KeyError when no
    line has. *)
Theorem l4_filter_by_third_field (host : byteorder)
  (ethertypes protocols : lines) (g0 g : Protos) (p : string)
  (Heth : init_ethertypes_mapping host ethertypes Protos_empty = Ok g0)
  (Hprot : init_protocol_mapping protocols g0 = Ok g)
  (Hp : p <> "any") :
  build_l4_protocol_opt g p =
  match assoc_last (bindings protocol_binding protocols) p with
  | Some v => Ok ["-D"; "L4_PROTOCOL=" ++ v]
  | None => Raise KeyError
  end.
Proof.
  destruct (init_ethertypes_content host ethertypes Protos_empty g0 Heth)
    as (_ & _ & E4 & _).
  destruct (init_protocol_content protocols g0 g Hprot) as (H4 & _).
  unfold build_l4_protocol_opt, dict_lookup.
  apply String.eqb_neq in Hp. rewrite Hp, H4, E4. simpl.
  now destruct (assoc_last _ p).
Qed.

(** ** Two events of one flow *)




(** * Instances on the sample inputs *)

(** X3 on the sample protocols file, loaded after the sample ethertypes
    file. *)
Lemma init_protocol_mapping_last_wins_witness :
  init_protocol_mapping Sample.protocols g_ethertypes = Ok Sample.g /\
  (forall k,
     dict_get String.eqb (L4_PROTO_TO_ID Sample.g) k =
     match assoc_last (bindings protocol_binding Sample.protocols) k with
     | Some v => Some v
     | None => dict_get String.eqb (L4_PROTO_TO_ID g_ethertypes) k
     end) /\
  (forall k,
     dict_get String.eqb (ID_TO_L4_PROTO Sample.g) k =
     match assoc_last (map swap_pair (bindings protocol_binding Sample.protocols)) k with
     | Some v => Some v
     | None => dict_get String.eqb (ID_TO_L4_PROTO g_ethertypes) k
     end) /\
  L3_PROTO_TO_ID Sample.g = L3_PROTO_TO_ID g_ethertypes /\
  ID_TO_L3_PROTO Sample.g = ID_TO_L3_PROTO g_ethertypes.
Proof.
  split; [reflexivity|].
  apply (init_protocol_mapping_last_wins Sample.protocols g_ethertypes Sample.g).
  reflexivity.
Defined.

(** X5 on the sample ethertypes file and a little-endian host. *)
Lemma init_ethertypes_mapping_last_wins_witness :
  init_ethertypes_mapping LittleEndian Sample.ethertypes Protos_empty =
    Ok g_ethertypes /\
  (forall k,
     dict_get String.eqb (L3_PROTO_TO_ID g_ethertypes) k =
     match assoc_last (bindings (ethertype_binding LittleEndian) Sample.ethertypes) k with
     | Some v => Some v
     | None => dict_get String.eqb (L3_PROTO_TO_ID Protos_empty) k
     end) /\
  (forall k,
     dict_get String.eqb (ID_TO_L3_PROTO g_ethertypes) k =
     match assoc_last (map swap_pair
                         (bindings (ethertype_binding LittleEndian)
                            Sample.ethertypes)) k with
     | Some v => Some v
     | None => dict_get String.eqb (ID_TO_L3_PROTO Protos_empty) k
     end) /\
  L4_PROTO_TO_ID g_ethertypes = L4_PROTO_TO_ID Protos_empty /\
  ID_TO_L4_PROTO g_ethertypes = ID_TO_L4_PROTO Protos_empty.
Proof.
  split; [vm_compute; reflexivity|].
  apply (init_ethertypes_mapping_last_wins LittleEndian Sample.ethertypes
           Protos_empty g_ethertypes).
  vm_compute. reflexivity.
Defined.

(** X7 on the first event of the sample flow. *)
Lemma handle_event_effect_witness :
  handle_event LittleEndian Py.IPv6Address_str Sample.g Sample.ift []
    Sample.ev_tcp = Ok ([(Sample.flow_tcp, ["ip_rcv"])], []) /\
  exists event_name,
    resolve_event_name Sample.ift (EventData.event_id Sample.ev_tcp) =
      Ok event_name /\
    (([(Sample.flow_tcp, ["ip_rcv"])] = [] /\
      (@nil string) = ["Unsupported l3 protocol " ++
            str (EventData.l3_protocol Sample.ev_tcp)]) \/
     ((@nil string) = [] /\
      exists flow,
        names_of [(Sample.flow_tcp, ["ip_rcv"])] flow =
          (if existsb (String.eqb event_name) (names_of [] flow)
           then names_of [] flow
           else (names_of [] flow ++ [event_name])%list) /\
        forall f, f <> flow ->
                  names_of [(Sample.flow_tcp, ["ip_rcv"])] f = names_of [] f)).
Proof.
  split; [vm_compute; reflexivity|].
  apply (handle_event_effect LittleEndian Py.IPv6Address_str Sample.g
           Sample.ift [] [(Sample.flow_tcp, ["ip_rcv"])] Sample.ev_tcp []).
  vm_compute. reflexivity.
Defined.

(** X9 on the sample segment from 10.0.0.1:1234 to 10.0.0.2:80, as a
    little-endian host reads it. *)
Lemma handle_event_ipv4_witness :
  handle_event LittleEndian Py.IPv6Address_str Sample.g Sample.ift []
    Sample.ev_tcp =
  Ok (record [] {| Flow.l3_protocol := "IPv4"; Flow.l4_protocol := "TCP";
                   Flow.saddr := "10.0.0.1"; Flow.daddr := "10.0.0.2";
                   Flow.sport := 1234; Flow.dport := 80 |} "ip_rcv", []).
Proof.
  apply (handle_event_ipv4 LittleEndian Py.IPv6Address_str Sample.g Sample.ift
           [] Sample.ev_tcp "ip_rcv" "IPv4" "TCP"
           x0a x00 x00 x01 x0a x00 x00 x02 x04 xd2 x00 x50 (repeat x00 24));
    vm_compute; reflexivity.
Defined.

(** X10 on a segment from ::1 to 2001:db8:1:2:3:4:5:6. *)
Lemma handle_event_ipv6_witness :
  handle_event LittleEndian Py.IPv6Address_str Sample.g Sample.ift []
    ev_tcp6 =
  Ok (record [] {| Flow.l3_protocol := "IPv6"; Flow.l4_protocol := "TCP";
                   Flow.saddr := Py.IPv6Address_str Sample.loopback6;
                   Flow.daddr := Py.IPv6Address_str Sample.doc6;
                   Flow.sport := 1234; Flow.dport := 80 |} "ip_rcv", []).
Proof.
  apply (handle_event_ipv6 LittleEndian Py.IPv6Address_str Sample.g Sample.ift
           [] ev_tcp6 "ip_rcv" "8" "IPv6" "TCP"
           Sample.loopback6 Sample.doc6 x04 xd2 x00 x50);
    try (vm_compute; reflexivity).
  vm_compute. discriminate.
Defined.

(** X11 on the table after the first event of the sample flow. *)
Lemma traced_rows_witness :
  traced LittleEndian Py.IPv6Address_str Sample.g Sample.ift
    [(Sample.flow_tcp, ["ip_rcv"])] /\
  NoDup (dict_keys [(Sample.flow_tcp, ["ip_rcv"])]) /\
  Forall (fun item => snd item <> [] /\ NoDup (snd item) /\
                      incl (snd item) (id_to_ename Sample.ift))
    [(Sample.flow_tcp, ["ip_rcv"])].
Proof.
  assert (H : traced LittleEndian Py.IPv6Address_str Sample.g Sample.ift
                [(Sample.flow_tcp, ["ip_rcv"])]).
  { apply (traced_event _ _ _ _ [] _ Sample.ev_tcp []); [constructor|].
    vm_compute. reflexivity. }
  split; [exact H|].
  exact (traced_rows LittleEndian Py.IPv6Address_str Sample.g Sample.ift _ H).
Defined.

(** X12 on the first event of the sample flow: one new row. *)
Lemma handle_event_keeps_rows_witness :
  handle_event LittleEndian Py.IPv6Address_str Sample.g Sample.ift []
    Sample.ev_tcp = Ok ([(Sample.flow_tcp, ["ip_rcv"])], []) /\
  (dict_keys [(Sample.flow_tcp, ["ip_rcv"])] = dict_keys (@nil (Flow.t * list string)) \/
   exists flow,
     ~ In flow (dict_keys (@nil (Flow.t * list string))) /\
     dict_keys [(Sample.flow_tcp, ["ip_rcv"])] =
       (dict_keys (@nil (Flow.t * list string)) ++ [flow])%list).
Proof.
  split; [vm_compute; reflexivity|].
  apply (handle_event_keeps_rows LittleEndian Py.IPv6Address_str Sample.g
           Sample.ift [] [(Sample.flow_tcp, ["ip_rcv"])] Sample.ev_tcp []).
  vm_compute. reflexivity.
Defined.

(** X15 on the arguments [--l4proto TCP --saddr4 10.0.0.1 --dport 80]. *)
Lemma build_opts_shape_witness :
  build_opts Py.IPv6Address_packed Sample.g
    (with_args Sample.ift Sample.kwargs_tcp) = Ok opts_tcp /\
  exists l3 l4 s4 d4 s6 d6,
    opts_tcp =
      ["-D"; "L3_PROTOCOL" ++ l3; "-D"; "L4_PROTOCOL" ++ l4;
       "-D"; "SADDRV4" ++ s4; "-D"; "DADDRV4" ++ d4;
       "-D"; "SADDRV6" ++ s6; "-D"; "DADDRV6" ++ d6;
       "-D"; "SPORT_ANY"; "-D"; "DPORT=80"] /\
    option_of "any" (dict_lookup String.eqb (L3_PROTO_TO_ID Sample.g)) l3 /\
    option_of "TCP" (dict_lookup String.eqb (L4_PROTO_TO_ID Sample.g)) l4 /\
    option_of "10.0.0.1" inet_addr4 s4 /\
    option_of "any" inet_addr4 d4 /\
    option_of "any" (inet_addr6 Py.IPv6Address_packed) s6 /\
    option_of "any" (inet_addr6 Py.IPv6Address_packed) d6.
Proof.
  split; [vm_compute; reflexivity|].
  apply (build_opts_shape Py.IPv6Address_packed Sample.g
           (with_args Sample.ift Sample.kwargs_tcp) opts_tcp).
  vm_compute. reflexivity.
Defined.

(** X17 on the address 10.0.0.1. *)
Lemma inet_addr4_value_witness :
  inet_addr4 "10.0.0.1" = Ok "16777226" /\
  (exists n0 n1 n2 n3,
     n0 < 256 /\ n1 < 256 /\ n2 < 256 /\ n3 < 256 /\
     "10.0.0.1" = str n0 ++ "." ++ str n1 ++ "." ++ str n2 ++ "." ++ str n3 /\
     "16777226" = str (n0 + 256 * n1 + 65536 * n2 + 16777216 * n3)) /\
  (forall b, inet_addr4 b = Ok "16777226" -> b = "10.0.0.1").
Proof.
  split; [vm_compute; reflexivity|].
  apply (inet_addr4_value "10.0.0.1" "16777226").
  vm_compute. reflexivity.
Defined.

(** X18 on the sample files and the filter [--l4proto TCP]. *)
Lemma l4_filter_by_third_field_witness :
  init_ethertypes_mapping LittleEndian Sample.ethertypes Protos_empty =
    Ok g_ethertypes /\
  init_protocol_mapping Sample.protocols g_ethertypes = Ok Sample.g /\
  build_l4_protocol_opt Sample.g "TCP" =
  match assoc_last (bindings protocol_binding Sample.protocols) "TCP" with
  | Some v => Ok ["-D"; "L4_PROTOCOL=" ++ v]
  | None => Raise KeyError
  end.
Proof.
  split; [vm_compute; reflexivity|]. split; [vm_compute; reflexivity|].
  apply (l4_filter_by_third_field LittleEndian Sample.ethertypes
           Sample.protocols g_ethertypes Sample.g "TCP").
  - vm_compute. reflexivity.
  - vm_compute. reflexivity.
  - discriminate.
Defined.


(** * Start-up as a whole *)

(** [build_opts] reads the arguments of the tracer and the tables, and
    nothing else. *)
Lemma build_opts_args (pk : string -> result (list byte)) (g : Protos)
  (self self' : IPFTracer) :
  self_args self = self_args self' ->
  build_opts pk g self = build_opts pk g self'.
Proof. unfold build_opts. now intros ->. Qed.

(** What [run_tracing] hands to [BPF] when it gets there. *)
Lemma run_tracing_Ok (dedent : string -> string) (template : string)
  (pk : string -> result (list byte)) (g : Protos) (ift : IPFTracer)
  (s : Session) :
  run_tracing dedent template pk g ift = Ok s ->
  globals s = g /\
  tracer s = snd (build_probes dedent template ift) /\
  bpf_text s = template ++ cat (stubs dedent (functions ift)) /\
  build_opts pk g ift = Ok (cflags s).
Proof.
  unfold run_tracing.
  destruct (build_probes_spec dedent template ift) as (Ht & _ & _ & Ha).
  destruct (build_probes dedent template ift) as [text ift']. simpl in *.
  intros H. apply bind_Ok in H as [opts [Ho H]]. apply Ok_inj in H. subst s.
  simpl. repeat split; try assumption.
  now rewrite <- (build_opts_args pk g ift' ift Ha).
Qed.

Lemma run_tracing_Raise (dedent : string -> string) (template : string)
  (pk : string -> result (list byte)) (g : Protos) (ift : IPFTracer)
  (e : exn) :
  run_tracing dedent template pk g ift = Raise e <->
  build_opts pk g ift = Raise e.
Proof.
  unfold run_tracing.
  destruct (build_probes_spec dedent template ift) as (_ & _ & _ & Ha).
  destruct (build_probes dedent template ift) as [text ift']. simpl in *.
  rewrite (build_opts_args pk g ift' ift Ha).
  destruct (build_opts pk g ift); simpl; split; congruence.
Qed.

Lemma main_Ok (host : byteorder) (dedent : string -> string)
  (template : string) (pk : string -> result (list byte))
  (kwargs : Args) (fns : catalog) (ethertypes protocols : lines)
  (s : Session) :
  main host dedent template pk kwargs fns ethertypes protocols = Ok s ->
  (exists g0,
     init_ethertypes_mapping host ethertypes Protos_empty = Ok g0 /\
     init_protocol_mapping protocols g0 = Ok (globals s)) /\
  bpf_text s = template ++ cat (stubs dedent fns) /\
  build_opts pk (globals s) (tracer s) = Ok (cflags s) /\
  self_args (tracer s) = kwargs /\
  functions (tracer s) = fns /\
  id_to_ename (tracer s) =
    (map name (flatten fns) ++ map name (flatten fns))%list.
Proof.
  unfold main. intros H.
  apply bind_Ok in H as [g0 [H0 H]]. apply bind_Ok in H as [g [H1 H]].
  apply run_tracing_Ok in H as (Hg & Ht & Hx & Ho).
  destruct (IPFTracer_init_spec dedent template kwargs fns) as (_ & Hn & Hf & Ha).
  destruct (build_probes_spec dedent template
              (IPFTracer_init dedent template kwargs fns))
    as (_ & Hn' & Hf' & Ha').
  rewrite Hf in Hx. rewrite Hn, Hf in Hn'. rewrite Hf in Hf'. rewrite Ha in Ha'.
  rewrite <- Ht in Hn', Hf', Ha'.
  split; [exists g0; now rewrite Hg|].
  split; [exact Hx|]. split; [|now repeat split].
  rewrite Hg, <- Ho. apply build_opts_args. now rewrite Ha', Ha.
Qed.

(** X20. What [main] hands to [BPF] when it gets there: the flags are the
    options [build_opts] compiles from the arguments with the tables of the
    two system files, loaded in the order ethertypes, protocols; the
    program text is the template followed by the stubs of the catalog, so
    it is the same text for every choice of filters and system files (the
    filters reach the program through the flags only); and the tracer
    holds the arguments, the catalog, and every function name twice. *)
Theorem main_session (host : byteorder) (dedent : string -> string)
  (template : string) (IPv6Address_packed : string -> result (list byte))
  (kwargs : Args) (fns : catalog) (ethertypes protocols : lines)
  (s : Session)
  (Hmain : main host dedent template IPv6Address_packed kwargs fns
             ethertypes protocols = Ok s) :
  (exists g0,
     init_ethertypes_mapping host ethertypes Protos_empty = Ok g0 /\
     init_protocol_mapping protocols g0 = Ok (globals s)) /\
  bpf_text s = template ++ cat (stubs dedent fns) /\
  build_opts IPv6Address_packed (globals s) (tracer s) = Ok (cflags s) /\
  self_args (tracer s) = kwargs /\
  functions (tracer s) = fns /\
  id_to_ename (tracer s) =
    (map name (flatten fns) ++ map name (flatten fns))%list /\
  (forall host' kwargs' ethertypes' protocols' s',
     main host' dedent template IPv6Address_packed kwargs' fns
       ethertypes' protocols' = Ok s' ->
     bpf_text s' = bpf_text s).
Proof.
  destruct (main_Ok _ _ _ _ _ _ _ _ _ Hmain) as (H1 & H2 & H3 & H4 & H5 & H6).
  repeat (split; [assumption|]).
  intros host' kwargs' ethertypes' protocols' s' H'.
  destruct (main_Ok _ _ _ _ _ _ _ _ _ H') as (_ & H2' & _).
  now rewrite H2, H2'.
Qed.

(** The options of a call without filters. *)
Lemma build_opts_any (pk : string -> result (list byte)) (g : Protos)
  (self : IPFTracer) (version : string) :
  self_args self = any_args version ->
  build_opts pk g self =
    Ok ["-D"; "L3_PROTOCOL_ANY"; "-D"; "L4_PROTOCOL_ANY";
        "-D"; "SADDRV4_ANY"; "-D"; "DADDRV4_ANY";
        "-D"; "SADDRV6_ANY"; "-D"; "DADDRV6_ANY";
        "-D"; "SPORT_ANY"; "-D"; "DPORT_ANY"].
Proof. unfold build_opts. now intros ->. Qed.

(** X21. Without any filter, [main] reaches [BPF] exactly when every line
    of the ethertypes file and every line of the protocols file is one
    its loader accepts, although no option refers to the tables then; it
    passes the eight accept-any flags, and when it raises, the exception is
    an IndexError, a ValueError or an OverflowError of a loader. *)
Theorem main_without_filters (host : byteorder) (dedent : string -> string)
  (template : string) (IPv6Address_packed : string -> result (list byte))
  (version : string) (fns : catalog) (ethertypes protocols : lines) :
  ((exists s, main host dedent template IPv6Address_packed (any_args version)
                fns ethertypes protocols = Ok s) <->
   forallb ethertype_line_ok ethertypes &&
   forallb protocol_line_ok protocols = true) /\
  (forall s, main host dedent template IPv6Address_packed (any_args version)
               fns ethertypes protocols = Ok s ->
             cflags s =
               ["-D"; "L3_PROTOCOL_ANY"; "-D"; "L4_PROTOCOL_ANY";
                "-D"; "SADDRV4_ANY"; "-D"; "DADDRV4_ANY";
                "-D"; "SADDRV6_ANY"; "-D"; "DADDRV6_ANY";
                "-D"; "SPORT_ANY"; "-D"; "DPORT_ANY"]) /\
  (forall e, main host dedent template IPv6Address_packed (any_args version)
               fns ethertypes protocols = Raise e ->
             e = IndexError \/ e = ValueError \/ e = OverflowError).
Proof.
  pose proof (init_ethertypes_cases host ethertypes Protos_empty)
    as (E1 & E2 & E3).
  destruct (IPFTracer_init_spec dedent template (any_args version) fns)
    as (_ & _ & _ & Ha).
  split; [|split].
  - split.
    + intros [s H]. destruct (main_Ok _ _ _ _ _ _ _ _ _ H) as ((g0 & H0 & H1) & _).
      apply andb_true_iff. split.
      * apply E1. eauto.
      * apply (init_protocol_cases protocols g0). eauto.
    + intros H. apply andb_true_iff in H as [He Hp].
      apply E1 in He as [g0 H0].
      apply (init_protocol_cases protocols g0) in Hp as [g H1].
      unfold main. rewrite H0. simpl. rewrite H1. simpl.
      destruct (run_tracing dedent template IPv6Address_packed g _) as [s|e] eqn:R;
        [eauto|].
      apply run_tracing_Raise in R.
      rewrite (build_opts_any _ _ _ version Ha) in R. discriminate.
  - intros s H. destruct (main_Ok _ _ _ _ _ _ _ _ _ H) as (_ & _ & Ho & Hk & _).
    rewrite (build_opts_any _ _ _ version Hk) in Ho. now apply Ok_inj in Ho.
  - intros e H. unfold main in H.
    apply bind_Raise in H as [H|[g0 [H0 H]]]; [now apply E3 in H|].
    apply bind_Raise in H as [H|[g [H1 H]]].
    + destruct (forallb protocol_line_ok protocols) eqn:F.
      * apply (init_protocol_cases protocols g0) in F as [g' F]. congruence.
      * apply (init_protocol_cases protocols g0) in F. left. congruence.
    + apply run_tracing_Raise in H.
      rewrite (build_opts_any _ _ _ version Ha) in H. discriminate.
Qed.

(** X20 on the sample files and the arguments
    [--l4proto TCP --saddr4 10.0.0.1 --dport 80]. *)
Lemma main_session_witness :
  main LittleEndian Py.dedent Sample.template Py.IPv6Address_packed
    Sample.kwargs_tcp Sample.fns Sample.ethertypes Sample.protocols =
    Ok session_tcp /\
  bpf_text session_tcp = Sample.template ++ cat (stubs Py.dedent Sample.fns) /\
  build_opts Py.IPv6Address_packed Sample.g (tracer session_tcp) = Ok opts_tcp /\
  id_to_ename (tracer session_tcp) =
    (map name (flatten Sample.fns) ++ map name (flatten Sample.fns))%list.
Proof.
  assert (H : main LittleEndian Py.dedent Sample.template
                Py.IPv6Address_packed Sample.kwargs_tcp Sample.fns
                Sample.ethertypes Sample.protocols = Ok session_tcp)
    by (vm_compute; reflexivity).
  split; [exact H|].
  destruct (main_session LittleEndian Py.dedent Sample.template
              Py.IPv6Address_packed Sample.kwargs_tcp Sample.fns
              Sample.ethertypes Sample.protocols session_tcp H)
    as (_ & H2 & H3 & _ & _ & H6 & _).
  split; [exact H2|]. split; [exact H3|exact H6].
Defined.

(** * The IPv6 text round trip *)

Lemma nibbles_In (x : N) : x < 16 -> In x nibbles.
Proof.
  intros H.
  assert (D : x = 0 \/ x = 1 \/ x = 2 \/ x = 3 \/ x = 4 \/ x = 5 \/ x = 6 \/
              x = 7 \/ x = 8 \/ x = 9 \/ x = 10 \/ x = 11 \/ x = 12 \/
              x = 13 \/ x = 14 \/ x = 15) by lia.
  unfold nibbles. simpl. intuition.
Qed.

Lemma hex16_table :
  forallb (fun a => forallb (fun b => forallb (fun c => forallb (fun d =>
    hex16_ok (4096 * a + 256 * b + 16 * c + d))
    nibbles) nibbles) nibbles) nibbles = true.
Proof. vm_compute. reflexivity. Qed.

Lemma hex16_ok_all (h : N) : h < 65536 -> hex16_ok h = true.
Proof.
  intros H.
  assert (E : h = 4096 * (h / 4096) + 256 * ((h / 256) mod 16) +
              16 * ((h / 16) mod 16) + h mod 16) by divmod.
  pose proof hex16_table as T.
  rewrite forallb_forall in T.
  specialize (T (h / 4096) ltac:(apply nibbles_In; divmod)).
  rewrite forallb_forall in T.
  specialize (T ((h / 256) mod 16) ltac:(apply nibbles_In; divmod)).
  rewrite forallb_forall in T.
  specialize (T ((h / 16) mod 16) ltac:(apply nibbles_In; divmod)).
  rewrite forallb_forall in T.
  specialize (T (h mod 16) ltac:(apply nibbles_In; divmod)).
  now rewrite <- E in T.
Qed.

Lemma hex16_group (h : N) : h < 65536 -> group_of (Py.hex16 h) h.
Proof.
  intros H. apply hex16_ok_all in H. unfold hex16_ok in H. cbv zeta in H.
  repeat (apply andb_true_iff in H as [H ?]).
  unfold group_of.
  repeat match goal with
         | X : negb _ = true |- _ => apply negb_true_iff in X
         end.
  repeat split; try assumption.
  - destruct (Py.parse_hextet (Py.hex16 h)) as [h'|]; [|discriminate].
    f_equal. now apply N.eqb_eq.
  - intros E. match goal with X : (_ || _) = true |- _ => rename X into O end.
    rewrite E in O. simpl in O. now apply N.eqb_eq.
Qed.

Lemma zeros_in_app (l : list string) (x : string) (s len : nat) :
  (s + len <= List.length l)%nat ->
  zeros_in l s len -> zeros_in (l ++ [x]) s len.
Proof.
  intros Hb Hz i Hi. rewrite nth_error_app1 by lia. now apply Hz.
Qed.

Lemma zeros_in_snoc (l : list string) (s len : nat) :
  (s + len = List.length l)%nat ->
  zeros_in l s len -> zeros_in (l ++ ["0"]) s (S len).
Proof.
  intros Hb Hz i Hi.
  destruct (Nat.eq_dec i (List.length l)) as [->|Hne].
  - rewrite nth_error_app2 by lia. now rewrite Nat.sub_diag.
  - rewrite nth_error_app1 by lia. apply Hz. lia.
Qed.

(** A run of zero groups lies within the list. *)
Lemma zeros_in_bound (l : list string) (s len : nat) :
  (1 <= len)%nat -> zeros_in l s len -> (s + len <= List.length l)%nat.
Proof.
  intros Hl Hz.
  assert (H : nth_error l (s + len - 1) <> None)
    by (rewrite (Hz (s + len - 1)%nat) by lia; discriminate).
  apply nth_error_Some in H. lia.
Qed.

(** A run of [l ++ [x]] that ends before [x] is a run of [l]. *)
Lemma zeros_in_front (l : list string) (x : string) (s len : nat) :
  (s + len <= List.length l)%nat ->
  zeros_in (l ++ [x]) s len -> zeros_in l s len.
Proof.
  intros Hb Hz i Hi. rewrite <- (Hz i Hi). symmetry.
  apply nth_error_app1. lia.
Qed.

(** A run of [l ++ [x]] that reaches [x] makes [x] a zero group. *)
Lemma zeros_in_last (l : list string) (x : string) (s len : nat) :
  (s + len = List.length l + 1)%nat -> (1 <= len)%nat ->
  zeros_in (l ++ [x]) s len -> x = "0".
Proof.
  intros Hb Hl Hz. specialize (Hz (List.length l) ltac:(lia)).
  rewrite nth_error_app2, Nat.sub_diag in Hz by lia. simpl in Hz. congruence.
Qed.

Lemma zeros_in_shorter (l : list string) (s len len' : nat) :
  (len' <= len)%nat -> zeros_in l s len -> zeros_in l s len'.
Proof. intros Hl Hz i Hi. apply Hz. lia. Qed.

(** Where a run of [l ++ [x]] of one group at least ends. *)
Lemma zeros_in_cases (l : list string) (x : string) (s len : nat) :
  (1 <= len)%nat -> zeros_in (l ++ [x]) s len ->
  (s + len <= List.length l)%nat \/ (s + len = List.length l + 1)%nat.
Proof.
  intros Hl Hz. apply zeros_in_bound in Hz; [|exact Hl].
  rewrite length_app in Hz. simpl in Hz. lia.
Qed.

Lemma runs_step_inv (l : list string) (r : Py.runs) (x : string) :
  runs_inv l r -> runs_inv (l ++ [x]) (Py.runs_step r x).
Proof.
  intros (Hi & Hb & Hz & Hm & Hc). unfold Py.runs_step, runs_inv.
  rewrite length_app. simpl List.length.
  destruct (String.eqb x "0") eqn:E.
  - apply String.eqb_eq in E. subst x.
    set (start := match Py.cur_start r with
                  | Some s => s
                  | None => Py.index r
                  end).
    assert (Hcur : (start + S (Py.cur_len r) = List.length l + 1)%nat /\
                   zeros_in (l ++ ["0"]) start (S (Py.cur_len r)) /\
                   (forall s len, (1 <= len)%nat ->
                      zeros_in (l ++ ["0"]) s len ->
                      (s + len = List.length l + 1)%nat -> (start <= s)%nat) /\
                   (S (Py.cur_len r) <= Py.best_len r ->
                    Py.best_start r <= start)%nat).
    { unfold start. destruct (Py.cur_start r) as [c|].
      - destruct Hc as (Hs & Hl1 & Hzs & Hmax).
        split; [lia|]. split; [now apply zeros_in_snoc|]. split; [|lia].
        intros s len Hl Hr He.
        destruct (Nat.eq_dec len 1) as [->|Hne]; [lia|].
        apply (Hmax s (len - 1)%nat); [lia| |lia].
        apply (zeros_in_front l "0"); [lia|].
        apply (zeros_in_shorter _ _ len); [lia|exact Hr].
      - destruct Hc as [Hc0 Hmax]. rewrite Hc0, Hi.
        split; [lia|]. split; [apply zeros_in_snoc; [lia|intros i Hi'; lia]|].
        split; [|lia].
        intros s len Hl Hr He.
        destruct (Nat.eq_dec len 1) as [->|Hne]; [lia|].
        exfalso. apply (Hmax s (len - 1)%nat); [lia| |lia].
        apply (zeros_in_front l "0"); [lia|].
        apply (zeros_in_shorter _ _ len); [lia|exact Hr]. }
    destruct Hcur as (Hs & Hzs & Hmax & Hbs).
    assert (Hold : forall s len, (1 <= len)%nat ->
                     zeros_in (l ++ ["0"]) s len ->
                     (s + len <= List.length l)%nat ->
                     (len <= Py.best_len r)%nat /\
                     (len = Py.best_len r -> (Py.best_start r <= s)%nat)).
    { intros s len Hl Hr He. apply Hm; [exact Hl|].
      now apply (zeros_in_front l "0"). }
    destruct (Nat.ltb (Py.best_len r) (S (Py.cur_len r))) eqn:L; simpl.
    + apply Nat.ltb_lt in L.
      split; [lia|]. split; [lia|]. split; [exact Hzs|]. split.
      * intros s len Hl Hr.
        destruct (zeros_in_cases l "0" s len Hl Hr) as [He|He].
        -- destruct (Hold s len Hl Hr He). lia.
        -- specialize (Hmax s len Hl Hr He). lia.
      * split; [lia|]. split; [lia|]. split; [exact Hzs|exact Hmax].
    + apply Nat.ltb_ge in L.
      split; [lia|]. split; [lia|]. split; [now apply zeros_in_app|]. split.
      * intros s len Hl Hr.
        destruct (zeros_in_cases l "0" s len Hl Hr) as [He|He].
        -- now apply Hold.
        -- specialize (Hmax s len Hl Hr He). specialize (Hbs L). lia.
      * split; [lia|]. split; [lia|]. split; [exact Hzs|exact Hmax].
  - apply String.eqb_neq in E. simpl.
    split; [lia|]. split; [lia|]. split; [now apply zeros_in_app|]. split.
    + intros s len Hl Hr.
      destruct (zeros_in_cases l x s len Hl Hr) as [He|He].
      * apply Hm; [exact Hl|]. now apply (zeros_in_front l x).
      * exfalso. apply E. now apply (zeros_in_last l x s len).
    + split; [reflexivity|]. intros s len Hl Hr He.
      apply E. apply (zeros_in_last l x s len); [lia|exact Hl|exact Hr].
Qed.

Lemma runs_fold_inv (l' l : list string) (r : Py.runs) :
  runs_inv l r -> runs_inv (l ++ l') (fold_left Py.runs_step l' r).
Proof.
  revert l r. induction l' as [|x l' IH]; intros l r H; simpl.
  - now rewrite app_nil_r.
  - replace (l ++ x :: l')%list with ((l ++ [x]) ++ l')%list
      by (rewrite <- app_assoc; reflexivity).
    apply IH. now apply runs_step_inv.
Qed.

(** What [_compress_hextets] returns: the groups as they are when no two
    zero groups follow one another, and otherwise the groups with the
    first of the longest runs of zero groups written as an empty group. *)
Lemma compress_hextets_chosen (hextets : list string) :
  (no_run hextets /\ Py.compress_hextets hextets = hextets) \/
  exists bs be,
    chosen_run hextets bs be /\
    Py.compress_hextets hextets = compressed bs be hextets.
Proof.
  unfold Py.compress_hextets.
  pose proof (runs_fold_inv hextets []
                {| Py.best_start := 0; Py.best_len := 0;
                   Py.cur_start := None; Py.cur_len := 0; Py.index := 0 |}) as H.
  change ([] ++ hextets)%list with hextets in H.
  destruct H as (_ & Hb & Hz & Hm & _).
  { unfold runs_inv. simpl. split; [reflexivity|]. split; [lia|].
    split; [intros i Hi; lia|]. split.
    - intros s len Hl Hr. apply zeros_in_bound in Hr; [|exact Hl].
      simpl in Hr. lia.
    - split; [reflexivity|]. intros s len Hl Hr.
      apply zeros_in_bound in Hr; [|exact Hl]. simpl in Hr. lia. }
  set (r := fold_left Py.runs_step hextets _) in *. cbv zeta.
  destruct (Nat.ltb 1 (Py.best_len r)) eqn:L.
  - apply Nat.ltb_lt in L. right.
    exists (Py.best_start r), (Py.best_start r + Py.best_len r)%nat.
    unfold chosen_run.
    replace (Py.best_start r + Py.best_len r - Py.best_start r)%nat
      with (Py.best_len r) by lia.
    split.
    { split; [lia|]. split; [exact Hz|].
      intros s len Hr. destruct len as [|len]; [lia|].
      apply Hm; [lia|exact Hr]. }
    unfold compressed.
    destruct (Nat.eqb (Py.best_start r + Py.best_len r) (List.length hextets)) eqn:E.
    + apply Nat.eqb_eq in E.
      rewrite firstn_app, skipn_app.
      replace (Py.best_start r - List.length hextets)%nat with 0%nat by lia.
      replace (Py.best_start r + Py.best_len r - List.length hextets)%nat
        with 0%nat by lia.
      simpl firstn. simpl skipn. rewrite app_nil_r.
      destruct (Nat.eqb (Py.best_start r) 0); reflexivity.
    + rewrite app_nil_r. destruct (Nat.eqb (Py.best_start r) 0); reflexivity.
  - apply Nat.ltb_ge in L. left. split; [|reflexivity].
    intros s Hr. destruct (Hm s 2%nat ltac:(lia) Hr). lia.
Qed.

(** The shape alone. *)
Lemma compress_hextets_shape (hextets : list string) :
  Py.compress_hextets hextets = hextets \/
  exists bs be,
    (bs + 2 <= be <= List.length hextets)%nat /\
    zeros_in hextets bs (be - bs) /\
    Py.compress_hextets hextets = compressed bs be hextets.
Proof.
  destruct (compress_hextets_chosen hextets)
    as [[_ E]|(bs & be & (Hb & Hz & _) & E)]; [now left|].
  right. exists bs, be. auto.
Qed.

(** The run the standard form leaves out is determined by the groups. *)
Lemma chosen_run_unique (gs : list string) (bs be bs' be' : nat) :
  chosen_run gs bs be -> chosen_run gs bs' be' -> bs = bs' /\ be = be'.
Proof.
  intros (Hb & Hz & Hm) (Hb' & Hz' & Hm').
  destruct (Hm _ _ Hz') as [L1 S1]. destruct (Hm' _ _ Hz) as [L2 S2]. lia.
Qed.

Lemma chosen_run_no_run (gs : list string) (bs be : nat) :
  chosen_run gs bs be -> no_run gs -> False.
Proof.
  intros (Hb & Hz & _) Hn. apply (Hn bs).
  apply (zeros_in_shorter _ _ (be - bs)); [lia|exact Hz].
Qed.

Lemma has_char_app (c : ascii) (a b : string) :
  Py.has_char c (a ++ b) = Py.has_char c a || Py.has_char c b.
Proof.
  induction a as [|x a IH]; simpl; [reflexivity|].
  rewrite IH. now rewrite orb_assoc.
Qed.

Lemma has_char_join (c : ascii) (sep : string) (l : list string) :
  Py.has_char c sep = false ->
  Forall (fun s => Py.has_char c s = false) l ->
  Py.has_char c (join sep l) = false.
Proof.
  intros Hsep H. induction H as [|s l Hs Hl IH]; [reflexivity|].
  destruct l as [|s' l]; [exact Hs|].
  rewrite join_cons by discriminate.
  rewrite !has_char_app, Hs, Hsep, IH. reflexivity.
Qed.

Lemma split_join (c : ascii) (l : list string) :
  l <> [] ->
  Forall (fun s => Py.has_char c s = false) l ->
  split c (join (String c EmptyString) l) = l.
Proof.
  intros Hne H. induction H as [|s l Hs Hl IH]; [congruence|].
  destruct l as [|s' l]; [now apply split_none|].
  rewrite join_cons by discriminate.
  change (String c EmptyString ++ join (String c EmptyString) (s' :: l))
    with (String c (join (String c EmptyString) (s' :: l))).
  rewrite split_app by exact Hs. f_equal. apply IH. discriminate.
Qed.

Lemma is_empty_join (sep a b : string) (l : list string) :
  Py.is_empty sep = false ->
  Py.is_empty (join sep (a :: b :: l)) = false.
Proof.
  intros H. rewrite join_cons by discriminate.
  destruct a; simpl; [|reflexivity].
  destruct sep; [discriminate|reflexivity].
Qed.


(** ** Reading back what was printed *)

Ltac read_parts N0 N1 N2 N3 N4 N5 N6 N7 D0 D1 D2 D3 D4 D5 D6 D7
                P0 P1 P2 P3 P4 P5 P6 P7 :=
  unfold Py.hextets_from_string;
  rewrite is_empty_join by reflexivity;
  rewrite split_join; [|discriminate|repeat constructor; assumption];
  cbv zeta; simpl List.length; simpl Nat.ltb;
  unfold Py.expand_ipv4_suffix; simpl last; cbv zeta;
  rewrite ?D0, ?D1, ?D2, ?D3, ?D4, ?D5, ?D6, ?D7;
  unfold Py.inner_empty; simpl List.length; simpl seq; simpl filter;
  rewrite ?N0, ?N1, ?N2, ?N3, ?N4, ?N5, ?N6, ?N7; simpl;
  rewrite ?N0, ?N1, ?N2, ?N3, ?N4, ?N5, ?N6, ?N7; simpl;
  rewrite ?P0, ?P1, ?P2, ?P3, ?P4, ?P5, ?P6, ?P7; simpl;
  reflexivity.

(** Eight groups written in full are read as they are. *)
Lemma parse_full (s0 s1 s2 s3 s4 s5 s6 s7 : string)
  (h0 h1 h2 h3 h4 h5 h6 h7 : N)
  (G0 : group_of s0 h0) (G1 : group_of s1 h1) (G2 : group_of s2 h2)
  (G3 : group_of s3 h3) (G4 : group_of s4 h4) (G5 : group_of s5 h5)
  (G6 : group_of s6 h6) (G7 : group_of s7 h7) :
  Py.hextets_from_string (join ":" [s0; s1; s2; s3; s4; s5; s6; s7]) =
  Some [h0; h1; h2; h3; h4; h5; h6; h7].
Proof.
  destruct G0 as (N0 & C0 & D0 & Pc0 & Sl0 & P0 & Z0 & K0).
  destruct G1 as (N1 & C1 & D1 & Pc1 & Sl1 & P1 & Z1 & K1).
  destruct G2 as (N2 & C2 & D2 & Pc2 & Sl2 & P2 & Z2 & K2).
  destruct G3 as (N3 & C3 & D3 & Pc3 & Sl3 & P3 & Z3 & K3).
  destruct G4 as (N4 & C4 & D4 & Pc4 & Sl4 & P4 & Z4 & K4).
  destruct G5 as (N5 & C5 & D5 & Pc5 & Sl5 & P5 & Z5 & K5).
  destruct G6 as (N6 & C6 & D6 & Pc6 & Sl6 & P6 & Z6 & K6).
  destruct G7 as (N7 & C7 & D7 & Pc7 & Sl7 & P7 & Z7 & K7).
  read_parts N0 N1 N2 N3 N4 N5 N6 N7 D0 D1 D2 D3 D4 D5 D6 D7
             P0 P1 P2 P3 P4 P5 P6 P7.
Qed.

(** Eight groups with a run of zero groups written as [::] are read as the
    eight groups. *)
Lemma parse_compressed (s0 s1 s2 s3 s4 s5 s6 s7 : string)
  (h0 h1 h2 h3 h4 h5 h6 h7 : N) (bs be : nat)
  (G0 : group_of s0 h0) (G1 : group_of s1 h1) (G2 : group_of s2 h2)
  (G3 : group_of s3 h3) (G4 : group_of s4 h4) (G5 : group_of s5 h5)
  (G6 : group_of s6 h6) (G7 : group_of s7 h7) :
  (bs + 2 <= be <= 8)%nat ->
  zeros_in [s0; s1; s2; s3; s4; s5; s6; s7] bs (be - bs) ->
  Py.hextets_from_string
    (join ":" (compressed bs be [s0; s1; s2; s3; s4; s5; s6; s7])) =
  Some [h0; h1; h2; h3; h4; h5; h6; h7].
Proof.
  intros Hb Hz.
  destruct G0 as (N0 & C0 & D0 & Pc0 & Sl0 & P0 & Z0 & K0).
  destruct G1 as (N1 & C1 & D1 & Pc1 & Sl1 & P1 & Z1 & K1).
  destruct G2 as (N2 & C2 & D2 & Pc2 & Sl2 & P2 & Z2 & K2).
  destruct G3 as (N3 & C3 & D3 & Pc3 & Sl3 & P3 & Z3 & K3).
  destruct G4 as (N4 & C4 & D4 & Pc4 & Sl4 & P4 & Z4 & K4).
  destruct G5 as (N5 & C5 & D5 & Pc5 & Sl5 & P5 & Z5 & K5).
  destruct G6 as (N6 & C6 & D6 & Pc6 & Sl6 & P6 & Z6 & K6).
  destruct G7 as (N7 & C7 & D7 & Pc7 & Sl7 & P7 & Z7 & K7).
  assert (Q0 : (bs <= 0 < be)%nat -> h0 = 0).
  { intros Q. apply Z0. specialize (Hz 0%nat ltac:(lia)). simpl in Hz. congruence. }
  assert (Q1 : (bs <= 1 < be)%nat -> h1 = 0).
  { intros Q. apply Z1. specialize (Hz 1%nat ltac:(lia)). simpl in Hz. congruence. }
  assert (Q2 : (bs <= 2 < be)%nat -> h2 = 0).
  { intros Q. apply Z2. specialize (Hz 2%nat ltac:(lia)). simpl in Hz. congruence. }
  assert (Q3 : (bs <= 3 < be)%nat -> h3 = 0).
  { intros Q. apply Z3. specialize (Hz 3%nat ltac:(lia)). simpl in Hz. congruence. }
  assert (Q4 : (bs <= 4 < be)%nat -> h4 = 0).
  { intros Q. apply Z4. specialize (Hz 4%nat ltac:(lia)). simpl in Hz. congruence. }
  assert (Q5 : (bs <= 5 < be)%nat -> h5 = 0).
  { intros Q. apply Z5. specialize (Hz 5%nat ltac:(lia)). simpl in Hz. congruence. }
  assert (Q6 : (bs <= 6 < be)%nat -> h6 = 0).
  { intros Q. apply Z6. specialize (Hz 6%nat ltac:(lia)). simpl in Hz. congruence. }
  assert (Q7 : (bs <= 7 < be)%nat -> h7 = 0).
  { intros Q. apply Z7. specialize (Hz 7%nat ltac:(lia)). simpl in Hz. congruence. }
  destruct bs as [|[|[|[|[|[|[|bs]]]]]]];
    destruct be as [|[|[|[|[|[|[|[|[|be]]]]]]]]];
    try (exfalso; lia);
    unfold compressed; cbn [firstn skipn Datatypes.app Nat.eqb List.length].
  all: try rewrite (Q0 ltac:(lia)); try rewrite (Q1 ltac:(lia));
       try rewrite (Q2 ltac:(lia)); try rewrite (Q3 ltac:(lia));
       try rewrite (Q4 ltac:(lia)); try rewrite (Q5 ltac:(lia));
       try rewrite (Q6 ltac:(lia)); try rewrite (Q7 ltac:(lia)).
  all: read_parts N0 N1 N2 N3 N4 N5 N6 N7 D0 D1 D2 D3 D4 D5 D6 D7
                  P0 P1 P2 P3 P4 P5 P6 P7.
Qed.

Lemma bytes_of_hextet (hi lo : byte) :
  byte_of_N (N.shiftr (256 * Byte.to_N hi + Byte.to_N lo) 8) = hi /\
  byte_of_N (256 * Byte.to_N hi + Byte.to_N lo) = lo.
Proof.
  pose proof (to_N_lt hi) as Hhi. pose proof (to_N_lt lo) as Hlo.
  destruct (byte_split_r (Byte.to_N lo) (Byte.to_N hi) Hlo) as [Hm Hd].
  split; apply to_N_inj; rewrite to_N_byte_of_N.
  - rewrite N.shiftr_div_pow2. change (2 ^ 8) with 256. rewrite Hd.
    now apply N.mod_small.
  - exact Hm.
Qed.

Lemma Forall_compressed (P : string -> Prop) (bs be : nat) (l : list string) :
  P EmptyString -> Forall P l -> Forall P (compressed bs be l).
Proof.
  intros H0 Hl. unfold compressed.
  assert (Hf : Forall P (firstn bs l)).
  { rewrite <- (firstn_skipn bs l) in Hl. now apply Forall_app in Hl. }
  assert (Hs : Forall P (skipn be l)).
  { rewrite <- (firstn_skipn be l) in Hl. now apply Forall_app in Hl. }
  repeat (apply Forall_app; split); try assumption.
  - destruct (Nat.eqb bs 0); repeat constructor; assumption.
  - constructor; [assumption|]. apply Forall_app. split; [assumption|].
    destruct (Nat.eqb be _); repeat constructor; assumption.
Qed.

(** A text of groups without [/] and [%] is an address without prefix
    length and scope. *)
Lemma packed_of_groups (parts : list string) :
  Forall (fun s => Py.has_char "/" s = false) parts ->
  Forall (fun s => Py.has_char "%" s = false) parts ->
  Py.IPv6Address_packed (join ":" parts) =
  match Py.hextets_from_string (join ":" parts) with
  | Some hs => Ok (flat_map (fun h => [byte_of_N (N.shiftr h 8); byte_of_N h]) hs)
  | None => Raise AddressValueError
  end.
Proof.
  intros Hs Hp. unfold Py.IPv6Address_packed, Py.split_scope_id.
  rewrite (has_char_join "/" ":" parts eq_refl Hs).
  rewrite (split_none "%" _ (has_char_join "%" ":" parts eq_refl Hp)).
  reflexivity.
Qed.

(** The library reads the text it prints for 16 bytes as these bytes. *)
Lemma packed_of_str (p : list byte) :
  List.length p = 16%nat ->
  Py.IPv6Address_packed (Py.IPv6Address_str p) = Ok p.
Proof.
  intros Hlen.
  do 16 (destruct p as [|? p]; [discriminate|]).
  destruct p; [|discriminate]. clear Hlen.
  unfold Py.IPv6Address_str. cbn [Py.hextets_of map].
  repeat match goal with
         | |- context [Py.hex16 (256 * Byte.to_N ?hi + Byte.to_N ?lo)] =>
             let G := fresh "G" in
             assert (G : group_of (Py.hex16 (256 * Byte.to_N hi + Byte.to_N lo))
                           (256 * Byte.to_N hi + Byte.to_N lo))
               by (apply hex16_group; pose proof (to_N_lt hi);
                   pose proof (to_N_lt lo); lia);
             generalize dependent (Py.hex16 (256 * Byte.to_N hi + Byte.to_N lo));
             intros ? ?
         end.
  match goal with
  | |- context [Py.compress_hextets ?l] =>
      assert (Hsl : Forall (fun s => Py.has_char "/" s = false) l)
        by (repeat constructor;
            match goal with G : group_of ?s _ |- _ ?s = _ => apply G end);
      assert (Hpc : Forall (fun s => Py.has_char "%" s = false) l)
        by (repeat constructor;
            match goal with G : group_of ?s _ |- _ ?s = _ => apply G end);
      destruct (compress_hextets_shape l) as [E|(bs & be & Hb & Hz & E)];
      rewrite E
  end.
  - rewrite packed_of_groups by assumption.
    erewrite parse_full by eassumption.
    cbn [flat_map Datatypes.app].
    repeat match goal with
           | |- context [byte_of_N (N.shiftr (256 * Byte.to_N ?hi + Byte.to_N ?lo) 8)] =>
               destruct (bytes_of_hextet hi lo) as [-> ->]
           end.
    reflexivity.
  - rewrite packed_of_groups
      by (apply Forall_compressed; [reflexivity | assumption]).
    erewrite parse_compressed by eassumption.
    cbn [flat_map Datatypes.app].
    repeat match goal with
           | |- context [byte_of_N (N.shiftr (256 * Byte.to_N ?hi + Byte.to_N ?lo) 8)] =>
               destruct (bytes_of_hextet hi lo) as [-> ->]
           end.
    reflexivity.
Qed.

Lemma Some_inj {A : Type} (a b : A) : Some a = Some b -> a = b.
Proof. congruence. Qed.

Lemma parse_hextets_length (l : list string) (hs : list N) :
  Py.parse_hextets l = Some hs -> List.length hs = List.length l.
Proof.
  revert hs. induction l as [|s l IH]; intros hs; simpl.
  - intros H. apply Some_inj in H. now subst.
  - destruct (Py.parse_hextet s); [|discriminate].
    destruct (Py.parse_hextets l) as [ns|]; [|discriminate].
    intros H. apply Some_inj in H. subst. simpl. f_equal. now apply IH.
Qed.

(** The library reads eight groups or nothing. *)
Lemma hextets_from_string_length (a : string) (hs : list N) :
  Py.hextets_from_string a = Some hs -> List.length hs = 8%nat.
Proof.
  unfold Py.hextets_from_string.
  destruct (Py.is_empty a); [discriminate|]. cbv zeta.
  destruct (Nat.ltb _ 3); [discriminate|].
  destruct (Py.expand_ipv4_suffix _) as [parts|]; [|discriminate].
  destruct (Nat.ltb 9 _); [discriminate|].
  destruct (Py.inner_empty parts) as [|k [|]] eqn:IE; [| |discriminate].
  - destruct (Nat.eqb (List.length parts) 8) eqn:E8; [|discriminate].
    simpl. destruct (_ || _); [discriminate|].
    intros H. apply parse_hextets_length in H. apply Nat.eqb_eq in E8. lia.
  - assert (Hk : In k (Py.inner_empty parts)) by (rewrite IE; now left).
    unfold Py.inner_empty in Hk. apply filter_In in Hk as [Hk _].
    apply in_seq in Hk.
    remember (if Py.is_empty (hd "x" parts) then (k - 1)%nat else k)
      as ph eqn:Eph.
    remember (if Py.is_empty (last parts "x")
              then (List.length parts - k - 2)%nat
              else (List.length parts - k - 1)%nat) as pl eqn:Epl.
    destruct (_ || _ || Nat.leb 8 (ph + pl)) eqn:C; [discriminate|].
    apply orb_false_iff in C as [_ C]. apply Nat.leb_gt in C.
    destruct (Py.parse_hextets (firstn ph parts)) as [hi|] eqn:Hhi; [|discriminate].
    destruct (Py.parse_hextets (skipn _ parts)) as [lo|] eqn:Hlo; [|discriminate].
    intros H. apply Some_inj in H. subst hs.
    apply parse_hextets_length in Hhi, Hlo.
    rewrite length_firstn in Hhi. rewrite length_skipn in Hlo.
    rewrite !length_app, repeat_length, Hhi, Hlo.
    assert (ph <= k)%nat
      by (rewrite Eph; destruct (Py.is_empty (hd "x" parts)); lia).
    assert (pl <= List.length parts)%nat
      by (rewrite Epl; destruct (Py.is_empty (last parts "x")); lia).
    lia.
Qed.

(** The library gives an address 16 bytes. *)
Lemma packed_length (addr : string) (p : list byte) :
  Py.IPv6Address_packed addr = Ok p -> List.length p = 16%nat.
Proof.
  unfold Py.IPv6Address_packed.
  destruct (Py.has_char "/" addr); [discriminate|].
  destruct (Py.split_scope_id addr) as [a|]; [|discriminate].
  destruct (Py.hextets_from_string a) as [hs|] eqn:H; [|discriminate].
  intros E. apply Ok_inj in E. subst p.
  apply hextets_from_string_length in H.
  do 8 (destruct hs as [|? hs]; [discriminate|]).
  destruct hs; [reflexivity|discriminate].
Qed.

(** The test of the standard form decides it. *)
Lemma is_standard6_spec (addr : string) :
  is_standard6 addr = true <-> standard_form6 addr.
Proof.
  unfold is_standard6, standard_form6. split.
  - destruct (Py.IPv6Address_packed addr) as [p|] eqn:E; [|discriminate].
    intros H. apply String.eqb_eq in H. exists p. split; [|exact H].
    now apply packed_length in E.
  - intros (q & Hq & <-). rewrite (packed_of_str q Hq).
    apply String.eqb_refl.
Qed.

(** ** The standard form, told by the text *)

Ltac digit_is d :=
  exists d; split; [reflexivity|];
  split; [reflexivity|];
  split; intros Q; first [reflexivity | discriminate Q].

(** A digit in lower case is the digit [hex_char] writes for its value. *)
Lemma lower_hex_digit (c : ascii) :
  lower_hex c = true ->
  exists d, d < 16 /\ c = Py.hex_char d /\
            (d = 0 -> c = "0"%char) /\ (c = "0"%char -> d = 0).
Proof.
  destruct c as [[] [] [] [] [] [] [] []]; intros H; vm_compute in H;
    try discriminate H;
    first [ digit_is 0 | digit_is 1 | digit_is 2 | digit_is 3 | digit_is 4
          | digit_is 5 | digit_is 6 | digit_is 7 | digit_is 8 | digit_is 9
          | digit_is 10 | digit_is 11 | digit_is 12 | digit_is 13
          | digit_is 14 | digit_is 15 ].
Qed.

(** The digits [hex16] writes for a number given by its digits. *)
Lemma hex16_digits (d1 d2 d3 d4 : N) :
  d1 < 16 -> d2 < 16 -> d3 < 16 -> d4 < 16 ->
  Py.hex16 (4096 * d1 + 256 * d2 + 16 * d3 + d4) =
  string_of_list_ascii (map Py.hex_char (Py.drop_zeros [d1; d2; d3; d4])).
Proof.
  intros H1 H2 H3 H4. unfold Py.hex16.
  set (n := 4096 * d1 + 256 * d2 + 16 * d3 + d4).
  assert (E1 : n / 4096 = d1) by (unfold n; divmod).
  assert (E2 : (n / 256) mod 16 = d2) by (unfold n; divmod).
  assert (E3 : (n / 16) mod 16 = d3) by (unfold n; divmod).
  assert (E4 : n mod 16 = d4) by (unfold n; divmod).
  now rewrite E1, E2, E3, E4.
Qed.

Lemma not_zero_char (c : ascii) (d : N) :
  (d = 0 -> c = "0"%char) -> negb (Ascii.eqb c "0") = true -> d <> 0.
Proof.
  intros Hd Hc E. rewrite (Hd E) in Hc. discriminate.
Qed.

Ltac first_char :=
  match goal with
  | X : (negb ?b || false) = true |- negb ?b = true =>
      now rewrite orb_false_r in X
  end.

Ltac split_andb :=
  repeat match goal with
         | X : (_ && _) = true |- _ => apply andb_true_iff in X as [? ?]
         end.

(** A group in the standard form is the text [hex16] writes for a number
    below 65536, and the other way round. *)
Lemma canonical_group_hex16 (s : string) :
  canonical_group s = true <-> exists h, h < 65536 /\ s = Py.hex16 h.
Proof.
  split.
  - destruct s as [|c1 [|c2 [|c3 [|c4 [|c5 t]]]]];
      unfold canonical_group;
      cbn [all_lower_hex String.length Nat.leb Py.is_empty];
      intros H; try discriminate H; split_andb; try discriminate.
    + destruct (lower_hex_digit c1 ltac:(assumption)) as (d1 & L1 & -> & _ & _).
      exists d1. split; [lia|].
      change d1 with (4096 * 0 + 256 * 0 + 16 * 0 + d1) at 2.
      rewrite hex16_digits by first [reflexivity | assumption].
      destruct d1; reflexivity.
    + destruct (lower_hex_digit c1 ltac:(assumption)) as (d1 & L1 & -> & Z1 & _).
      destruct (lower_hex_digit c2 ltac:(assumption)) as (d2 & L2 & -> & _ & _).
      assert (d1 <> 0) by (apply (not_zero_char _ _ Z1); first_char).
      exists (16 * d1 + d2). split; [lia|].
      change (16 * d1 + d2) with (4096 * 0 + 256 * 0 + 16 * d1 + d2).
      rewrite hex16_digits by first [reflexivity | assumption].
      destruct d1; [congruence|reflexivity].
    + destruct (lower_hex_digit c1 ltac:(assumption)) as (d1 & L1 & -> & Z1 & _).
      destruct (lower_hex_digit c2 ltac:(assumption)) as (d2 & L2 & -> & _ & _).
      destruct (lower_hex_digit c3 ltac:(assumption)) as (d3 & L3 & -> & _ & _).
      assert (d1 <> 0) by (apply (not_zero_char _ _ Z1); first_char).
      exists (256 * d1 + 16 * d2 + d3). split; [lia|].
      change (256 * d1 + 16 * d2 + d3)
        with (4096 * 0 + 256 * d1 + 16 * d2 + d3).
      rewrite hex16_digits by first [reflexivity | assumption].
      destruct d1; [congruence|reflexivity].
    + destruct (lower_hex_digit c1 ltac:(assumption)) as (d1 & L1 & -> & Z1 & _).
      destruct (lower_hex_digit c2 ltac:(assumption)) as (d2 & L2 & -> & _ & _).
      destruct (lower_hex_digit c3 ltac:(assumption)) as (d3 & L3 & -> & _ & _).
      destruct (lower_hex_digit c4 ltac:(assumption)) as (d4 & L4 & -> & _ & _).
      assert (d1 <> 0) by (apply (not_zero_char _ _ Z1); first_char).
      exists (4096 * d1 + 256 * d2 + 16 * d3 + d4). split; [lia|].
      rewrite hex16_digits by assumption.
      destruct d1; [congruence|reflexivity].
  - intros (h & Hh & ->). apply (hex16_group h Hh).
Qed.

Lemma hextet_of_bytes (h : N) :
  h < 65536 ->
  256 * Byte.to_N (byte_of_N (N.shiftr h 8)) + Byte.to_N (byte_of_N h) = h.
Proof.
  intros H. rewrite !to_N_byte_of_N, N.shiftr_div_pow2.
  change (2 ^ 8) with 256. divmod.
Qed.

(** The texts the library prints are the texts in the standard form. *)
Lemma standard_form6_canonical (addr : string) :
  standard_form6 addr <-> canonical6 addr.
Proof.
  split.
  - intros (q & Hq & <-).
    do 16 (destruct q as [|? q]; [discriminate|]).
    destruct q; [|discriminate]. clear Hq.
    unfold Py.IPv6Address_str. cbn [Py.hextets_of map].
    match goal with
    | |- context [Py.compress_hextets ?l] => set (gs := l)
    end.
    exists gs. split; [reflexivity|]. split.
    { unfold gs. repeat constructor;
        apply hex16_group;
        match goal with
        | |- 256 * Byte.to_N ?hi + Byte.to_N ?lo < _ =>
            pose proof (to_N_lt hi); pose proof (to_N_lt lo); lia
        end. }
    destruct (compress_hextets_chosen gs) as [[Hn E]|(bs & be & Hc & E)];
      rewrite E; [left; now split|right; eauto].
  - intros (gs & Hlen & Hall & Hcase).
    do 8 (destruct gs as [|? gs]; [discriminate|]).
    destruct gs; [|discriminate]. clear Hlen.
    repeat match goal with
           | X : Forall _ (_ :: _) |- _ => inversion X; subst; clear X
           end.
    repeat match goal with
           | X : canonical_group ?s = true |- _ =>
               let h := fresh "h" in
               let Hh := fresh "Hh" in
               apply canonical_group_hex16 in X as (h & Hh & ->)
           end.
    match type of Hcase with
    | context [join ":" (map ?f ?l)] => idtac
    | context [join ":" [Py.hex16 ?a; Py.hex16 ?b; Py.hex16 ?c; Py.hex16 ?d;
                         Py.hex16 ?e; Py.hex16 ?f; Py.hex16 ?g; Py.hex16 ?i]] =>
        exists (flat_map (fun h => [byte_of_N (N.shiftr h 8); byte_of_N h])
                  [a; b; c; d; e; f; g; i])
    end.
    split; [reflexivity|].
    unfold Py.IPv6Address_str. cbn [flat_map Datatypes.app Py.hextets_of map].
    rewrite !hextet_of_bytes by assumption.
    match goal with
    | |- context [Py.compress_hextets ?l] =>
        destruct (compress_hextets_chosen l) as [[Hn E]|(bs' & be' & Hc' & E)];
        rewrite E
    end.
    + destruct Hcase as [[_ ->]|(bs & be & Hc & _)]; [reflexivity|].
      destruct (chosen_run_no_run _ _ _ Hc Hn).
    + destruct Hcase as [[Hn _]|(bs & be & Hc & ->)].
      * destruct (chosen_run_no_run _ _ _ Hc' Hn).
      * destruct (chosen_run_unique _ _ _ _ _ Hc Hc') as [-> ->]. reflexivity.
Qed.

(** C8. For every IPv6 address the library accepts, with packed bytes p:
    p has 16 bytes; the filter compiler emits the decimal values of the
    bytes of p in their order, separated by commas; reading these values
    back gives p; the decoder, on an IPv6 event whose union starts with p,
    takes p as the source address; the text it prints is the text of the
    library for p, which the library reads as p again; and this text is
    the original text exactly when the original is in the standard form:
    eight groups of lower-case digits without leading zeros, with the
    first of the longest runs of two or more zero groups, when there is
    one, written as [::]. The texts in the standard form are the texts the
    library prints, and [is_standard6] tests for them. *)
Theorem ipv6_bytes_keep_order (addr : string) (p : list byte)
  (Hp : Py.IPv6Address_packed addr = Ok p) :
  List.length p = 16%nat /\
  inet_addr6 Py.IPv6Address_packed addr = Ok (join "," (map str_byte p)) /\
  read_bytes (join "," (map str_byte p)) = Some p /\
  (forall host g event id4 q,
     dict_get String.eqb (L3_PROTO_TO_ID g) "IPv4" = Some id4 ->
     str (EventData.l3_protocol event) <> id4 ->
     dict_get String.eqb (L3_PROTO_TO_ID g) "IPv6" =
       Some (str (EventData.l3_protocol event)) ->
     EventData.addrs event = (p ++ q)%list ->
     decode_addrs host g event =
       Ok (Some (IPv6Address p, IPv6Address (firstn 16 q)))) /\
  Py.IPv6Address_packed (ipaddr_str Py.IPv6Address_str (IPv6Address p)) = Ok p /\
  (ipaddr_str Py.IPv6Address_str (IPv6Address p) = addr <-> canonical6 addr) /\
  (canonical6 addr <-> standard_form6 addr) /\
  (canonical6 addr <-> is_standard6 addr = true).
Proof.
  pose proof (packed_length addr p Hp) as Hlen.
  split; [exact Hlen|].
  split; [unfold inet_addr6; now rewrite Hp|]. split.
  { apply read_bytes_join. intros ->. discriminate. }
  split.
  { intros host g event id4 q H4 Hn4 H6 Haddrs.
    unfold decode_addrs, dict_lookup. rewrite H4. simpl.
    apply String.eqb_neq in Hn4. rewrite Hn4, H6. simpl.
    rewrite String.eqb_refl.
    unfold EventData.v6_saddr, EventData.v6_daddr. rewrite Haddrs.
    assert (Hs : firstn 16 (p ++ q) = p).
    { rewrite <- Hlen, firstn_app, Nat.sub_diag, firstn_all. apply app_nil_r. }
    assert (Hd : skipn 16 (p ++ q) = q).
    { rewrite <- Hlen, skipn_app, Nat.sub_diag, skipn_all. reflexivity. }
    now rewrite Hs, Hd. }
  change (ipaddr_str Py.IPv6Address_str (IPv6Address p))
    with (Py.IPv6Address_str p).
  split; [now apply packed_of_str|].
  assert (Hstd : Py.IPv6Address_str p = addr <-> standard_form6 addr).
  { split.
    - intros H. exists p. now split.
    - intros (q & Hq & Hstr).
      pose proof (packed_of_str q Hq) as Hround.
      rewrite Hstr, Hp in Hround. apply Ok_inj in Hround. now subst q. }
  pose proof (standard_form6_canonical addr) as Hcan.
  pose proof (is_standard6_spec addr) as Htest.
  split; [|split].
  - rewrite Hstd. exact Hcan.
  - symmetry. exact Hcan.
  - rewrite <- Hcan. symmetry. exact Htest.
Qed.

(** The address 2001:db8:1:2:3:4:5:6 is written in the standard form and
    comes back as it was given. *)
Lemma ipv6_bytes_keep_order_witness :
  Py.IPv6Address_packed "2001:db8:1:2:3:4:5:6" = Ok Sample.doc6 /\
  is_standard6 "2001:db8:1:2:3:4:5:6" = true /\
  inet_addr6 Py.IPv6Address_packed "2001:db8:1:2:3:4:5:6" =
    Ok (join "," (map str_byte Sample.doc6)) /\
  read_bytes (join "," (map str_byte Sample.doc6)) = Some Sample.doc6 /\
  ipaddr_str Py.IPv6Address_str (IPv6Address Sample.doc6) =
    "2001:db8:1:2:3:4:5:6".
Proof.
  destruct (ipv6_bytes_keep_order "2001:db8:1:2:3:4:5:6" Sample.doc6 eq_refl)
    as (_ & H1 & H2 & _ & _ & H5 & _ & H7).
  split; [reflexivity|]. split; [reflexivity|].
  split; [exact H1|]. split; [exact H2|].
  apply H5. apply H7. reflexivity.
Defined.
